(** * py-lz4framed: the C extension module [_lz4framed]

    A shallow embedding of [lz4framed/py-lz4framed.c], the CPython binding of
    the LZ4 frame library, and the properties of its entry points
    [get_block_size], [compress], [decompress], [compress_begin],
    [compress_update] and [decompress_update]; then of the rest of the module:
    [create_compression_context], [create_decompression_context] and the
    capsule destructors, [compress_end], [get_frame_info] and the
    initialisation of the module.

    Conventions.
    - C integers are [Z].  [size_t] is 64 bits wide (LP64) and its arithmetic
      wraps.  The argument parser only lets C [int]s through, so an [int]
      argument is a [Z] together with its range.
    - The LZ4 frame library (lz4frame_static.h, lz4hc.h) is not part of the
      binding: its constants and functions are the fields of the class
      [LZ4FrameLib].  A library function that returns a [size_t] which is
      either a value or an error code returns an [LZ4F_result].
    - The part of the interpreter the binding talks to (object allocation and
      the warning machinery) is the class [PyHost].
    - Every entry point runs in the monad [M]: it produces the trace of the
      library and interpreter calls it made, and either a value or the Python
      exception it raised.
    - The per-context lock and the release of the GIL around long calls only
      matter to concurrent callers; one call is modelled at a time, so both
      branches of each GIL test are the same library call.  The lock shows
      where it is a resource: when a context is created and when it is
      destroyed. *)

From Stdlib Require Import ZArith List String Bool Lia.
From Stdlib.Strings Require Import Byte.
Import ListNotations.
Local Open Scope string_scope.
Local Open Scope list_scope.
Local Open Scope Z_scope.

(** ** Machine integers *)

Definition SIZE_T_MODULUS : Z := 2 ^ 64.
Definition PY_SSIZE_T_MAX : Z := 2 ^ 63 - 1.
Definition INT_MODULUS : Z := 2 ^ 32.

Definition size_t_wrap (z : Z) : Z := z mod SIZE_T_MODULUS.
Definition size_t_add (a b : Z) : Z := size_t_wrap (a + b).
Definition size_t_sub (a b : Z) : Z := size_t_wrap (a - b).
Definition size_t_mul (a b : Z) : Z := size_t_wrap (a * b).

(** [(Py_ssize_t) z] for a [size_t] value [z]. *)
Definition Py_ssize_t_of_size_t (z : Z) : Z :=
  let z := size_t_wrap z in
  if z <=? PY_SSIZE_T_MAX then z else z - SIZE_T_MODULUS.

(** A C [int], as the argument parser's ["i"] delivers it. *)
Definition INT_MIN : Z := - 2 ^ 31.
Definition INT_MAX : Z := 2 ^ 31 - 1.
Record int : Type := mk_int {
  int_val :> Z;
  int_range : (INT_MIN <=? int_val) && (int_val <=? INT_MAX) = true }.

(** [(int) z] for a [size_t] value [z], and [(size_t) i] for an [int]. *)
Definition int_of_size_t (z : Z) : Z :=
  let r := z mod INT_MODULUS in
  if r <? INT_MODULUS / 2 then r else r - INT_MODULUS.
Definition size_t_of_int (i : Z) : Z := size_t_wrap i.

(** The argument parser's ["i"] conversion writes a C [int] through the
    pointer it is given.  When that pointer is the address of a [size_t]
    (little-endian LP64), the low 32 bits are replaced and the high 32 bits
    keep what the variable held. *)
Definition store_int_in_size_t (old : Z) (i : Z) : Z :=
  Z.lor (Z.shiftl (Z.shiftr old 32) 32) (i mod INT_MODULUS).

Definition KB (n : Z) : Z := n * Z.shiftl 1 10.
Definition MB (n : Z) : Z := n * Z.shiftl 1 20.
Definition MAX (x y : Z) : Z := if x >=? y then x else y.

Definition zlength {A : Type} (l : list A) : Z := Z.of_nat (List.length l).

(** ** Python objects and exceptions *)

(** A bytes object being filled in: [ob_size] is its size and [ob_sval] the
    bytes stored in it so far, from its start.  The rest of a fresh
    allocation is uninitialised and is not represented. *)
Record PyBytes : Type := mkPyBytes { ob_size : Z; ob_sval : list byte }.

(** The bytes object whose content is [l]. *)
Definition bytes_of (l : list byte) : PyBytes :=
  {| ob_size := zlength l; ob_sval := l |}.

(** Writing [data] at offset [pos] of the object's storage. *)
Definition PyBytes_store (o : PyBytes) (pos : Z) (data : list byte) : PyBytes :=
  {| ob_size := ob_size o;
     ob_sval := firstn (Z.to_nat pos) (ob_sval o) ++ data |}.

(** The buffer view the argument parser hands over for a bytes-like object. *)
Record Py_buffer : Type := mkPy_buffer { buf : list byte; c_contiguous : bool }.

Definition len (view : Py_buffer) : Z := zlength (buf view).
Definition PyBuffer_IsContiguous (view : Py_buffer) : bool := c_contiguous view.

(** The view of a Python [bytes] object. *)
Definition bytes_view (b : list byte) : Py_buffer :=
  {| buf := b; c_contiguous := true |}.

(** Exceptions.  A [PyExc_ValueError] keeps the format string and the value
    formatted into it. *)
Inductive PyErr : Type :=
| LZ4FNoDataError
| LZ4FError (name : string) (code : Z)
| PyExc_ValueError (format : string) (arg : option Z)
| PyExc_MemoryError
| PyExc_SystemError
| PyExc_RuntimeWarning (message : string).

(** ** The LZ4 frame library interface *)

Inductive LZ4F_blockMode_t : Type := LZ4F_blockLinked | LZ4F_blockIndependent.
Inductive LZ4F_contentChecksum_t : Type :=
  LZ4F_noContentChecksum | LZ4F_contentChecksumEnabled.
Inductive LZ4F_blockChecksum_t : Type :=
  LZ4F_noBlockChecksum | LZ4F_blockChecksumEnabled.

Record LZ4F_frameInfo_t : Type := mkFrameInfo {
  blockSizeID : Z;
  blockMode : LZ4F_blockMode_t;
  contentChecksumFlag : LZ4F_contentChecksum_t;
  frameType : Z;
  contentSize : Z;
  dictID : Z;
  blockChecksumFlag : LZ4F_blockChecksum_t }.

Record LZ4F_preferences_t : Type := mkPreferences {
  frameInfo : LZ4F_frameInfo_t;
  compressionLevel : Z;
  autoFlush : Z }.

Record LZ4F_decompressOptions_t : Type := mkDecompressOptions { stableDst : Z }.

Inductive LZ4F_result (A : Type) : Type :=
| LZ4F_ok (value : A)
| LZ4F_error (code : Z).
Arguments LZ4F_ok {A} value.
Arguments LZ4F_error {A} code.

(** What one call of [LZ4F_decompress] reports: the bytes it wrote at the
    destination (their number is stored in [*dstSizePtr]), the number of
    source bytes it consumed (stored in [*srcSizePtr]) and the hint it
    returns. *)
Record decompress_report : Type := mkReport {
  dst_written : list byte;
  src_consumed : Z;
  next_hint : Z }.

Class LZ4FrameLib : Type := {
  (* lz4frame.h: LZ4F_blockSizeID_t *)
  LZ4F_default : Z;
  LZ4F_max64KB : Z;
  LZ4F_max256KB : Z;
  LZ4F_max1MB : Z;
  LZ4F_max4MB : Z;
  (* lz4hc.h, lz4frame.h *)
  LZ4HC_CLEVEL_MIN : Z;
  LZ4HC_CLEVEL_MAX : Z;
  LZ4F_HEADER_SIZE_MAX : Z;
  LZ4F_VERSION : Z;
  (* opaque contexts *)
  LZ4F_cctx : Type;
  LZ4F_dctx : Type;
  LZ4F_getErrorName : Z -> string;
  (* one-shot compression *)
  LZ4F_compressFrameBound : Z -> LZ4F_preferences_t -> LZ4F_result Z;
  LZ4F_compressFrame :
    Z -> list byte -> Z -> LZ4F_preferences_t -> LZ4F_result (list byte);
  (* streaming compression *)
  LZ4F_compressBegin :
    LZ4F_cctx -> Z -> LZ4F_preferences_t -> LZ4F_cctx * LZ4F_result (list byte);
  LZ4F_compressBound : Z -> LZ4F_preferences_t -> LZ4F_result Z;
  LZ4F_compressUpdate :
    LZ4F_cctx -> Z -> list byte -> Z -> LZ4F_cctx * LZ4F_result (list byte);
  (* decompression *)
  LZ4F_createDecompressionContext : Z -> LZ4F_result LZ4F_dctx;
  LZ4F_getFrameInfo :
    LZ4F_dctx -> list byte -> Z ->
    LZ4F_dctx * LZ4F_result (LZ4F_frameInfo_t * Z * Z);
  LZ4F_decompress :
    LZ4F_dctx -> Z -> list byte -> Z -> option LZ4F_decompressOptions_t ->
    LZ4F_dctx * LZ4F_result decompress_report }.

(** ** The interpreter *)

Class PyHost : Type := {
  (* whether the object allocator can supply an object of that many bytes *)
  PyMem_available : Z -> bool;
  (* what PyErr_WarnEx returns for a RuntimeWarning with that message:
     0, or -1 when the warning filters turn it into an exception *)
  PyErr_WarnEx : string -> Z }.

(** ** Traces and the monad of the entry points *)

Inductive event : Type :=
| Ev_compressFrameBound (srcSize : Z)
| Ev_compressFrame (dstCapacity srcSize : Z)
| Ev_compressBegin (dstCapacity : Z)
| Ev_compressBound (srcSize : Z)
| Ev_compressUpdate (dstCapacity srcSize : Z)
| Ev_createDecompressionContext
| Ev_getFrameInfo (srcSize : Z)
| Ev_decompress (dstSize srcSize : Z) (opt : option LZ4F_decompressOptions_t)
                (ret : LZ4F_result decompress_report)
| Ev_freeDecompressionContext (is_null : bool)
| Ev_PyBytes_FromStringAndSize (size : Z)
| Ev_PyBytes_Resize (oldsize newsize : Z)
| Ev_PyErr_WarnEx (message : string).

(** The calls that make the codec parse, encode or decode.  Releasing a
    context and the interpreter's own calls are not among them. *)
Definition is_codec_call (ev : event) : bool :=
  match ev with
  | Ev_freeDecompressionContext _
  | Ev_PyBytes_FromStringAndSize _
  | Ev_PyBytes_Resize _ _
  | Ev_PyErr_WarnEx _ => false
  | _ => true
  end.

Definition M (A : Type) : Type := (list event * (PyErr + A))%type.

Definition ret {A : Type} (a : A) : M A := ([], inr a).
Definition raise {A : Type} (e : PyErr) : M A := ([], inl e).
Definition emit (ev : event) : M unit := ([ev], inr tt).
Definition bind {A B : Type} (m : M A) (f : A -> M B) : M B :=
  match m with
  | (t, inl e) => (t, inl e)
  | (t, inr a) => let '(t', r) := f a in (t ++ t', r)
  end.

Notation "x <- m ;; k" := (bind m (fun x => k))
  (at level 61, m at next level, right associativity).
Notation "m ;;; k" := (bind m (fun _ => k))
  (at level 61, right associativity).
Notation "' pat <- m ;; k" := (bind m (fun x => match x with pat => k end))
  (at level 61, pat pattern, m at next level, right associativity).

Definition trace {A : Type} (m : M A) : list event := fst m.
Definition outcome {A : Type} (m : M A) : PyErr + A := snd m.

(** A loop body either goes round again or leaves the loop. *)
Inductive loop_step (S : Type) : Type :=
| Continue (s : S)
| Break (s : S).
Arguments Continue {S} s.
Arguments Break {S} s.

Section Binding.

Context {lz4 : LZ4FrameLib} {host : PyHost}.

Definition LZ4_COMPRESSION_MIN : Z := 0.
Definition LZ4_COMPRESSION_MIN_HC : Z := LZ4HC_CLEVEL_MIN.
Definition LZ4_COMPRESSION_MAX : Z := LZ4HC_CLEVEL_MAX.

Definition NOGIL_COMPRESS_INPUT_SIZE_THRESHOLD : Z := 8 * 1024.
Definition NOGIL_DECOMPRESS_INPUT_SIZE_THRESHOLD : Z := 8 * 1024.
Definition NOGIL_DECOMPRESS_OUTPUT_SIZE_THRESHOLD : Z := 8 * 1024.

Definition COMPRESSION_CAPSULE_NAME : string := "_lz4fcctx".
Definition DECOMPRESSION_CAPSULE_NAME : string := "_lz4fdctx".

(** [_BAIL_ON_LZ4_ERROR]: the exception carries the error name and
    [-(int)__err] converted by [PyLong_FromSize_t]. *)
Definition LZ4F_error_number (err : Z) : Z :=
  size_t_of_int (int_of_size_t (- int_of_size_t err)).

Definition BAIL_ON_LZ4_ERROR {A : Type} (ev : event) (r : LZ4F_result A) : M A :=
  emit ev ;;;
  match r with
  | LZ4F_ok a => ret a
  | LZ4F_error err => raise (LZ4FError (LZ4F_getErrorName err) (LZ4F_error_number err))
  end.

(** [PyBytes_FromStringAndSize(NULL, size)]: [size] is converted to
    [Py_ssize_t]; a negative size is a [SystemError]. *)
Definition PyBytes_FromStringAndSize (size : Z) : M PyBytes :=
  emit (Ev_PyBytes_FromStringAndSize size) ;;;
  if Py_ssize_t_of_size_t size <? 0 then raise PyExc_SystemError
  else if PyMem_available size then ret {| ob_size := size; ob_sval := [] |}
  else raise PyExc_MemoryError.

(** [_PyBytes_Resize(&v, newsize)]: nothing to do when the size is already
    [newsize]; otherwise the object is reallocated and keeps the bytes that
    fit. *)
Definition _PyBytes_Resize (v : PyBytes) (newsize : Z) : M PyBytes :=
  emit (Ev_PyBytes_Resize (ob_size v) newsize) ;;;
  if Py_ssize_t_of_size_t newsize <? 0 then raise PyExc_SystemError
  else if ob_size v =? newsize then ret v
  else if PyMem_available newsize
       then ret {| ob_size := newsize;
                   ob_sval := firstn (Z.to_nat newsize) (ob_sval v) |}
       else raise PyExc_MemoryError.

(** *** Block sizes *)

Definition _valid_lz4f_block_size_id (id : Z) : bool :=
  (id =? LZ4F_default) || (id =? LZ4F_max64KB) || (id =? LZ4F_max256KB)
  || (id =? LZ4F_max1MB) || (id =? LZ4F_max4MB).

Definition blockSizes : list Z := [KB 64; KB 256; MB 1; MB 4].

(** [None] is a read outside [blockSizes], which C leaves undefined. *)
Definition _lz4f_block_size_from_id (id : int) : option Z :=
  if negb (_valid_lz4f_block_size_id id) then Some 0
  else
    let id := if id =? LZ4F_default then LZ4F_max64KB else int_val id in
    let id := id - 4 in
    if id <? 0 then None else nth_error blockSizes (Z.to_nat id).

Definition _lz4framed_get_block_size (block_id : int) : option (M Z) :=
  if negb (_valid_lz4f_block_size_id block_id)
  then Some (raise (PyExc_ValueError "id (%d) invalid" (Some (int_val block_id))))
  else option_map ret (_lz4f_block_size_from_id block_id).

(** *** One-shot compression *)

Definition make_prefs (old : LZ4F_preferences_t) (content_size : Z)
    (block_id block_mode_linked checksum compression_level block_checksum : int)
    (auto_flush : Z) : LZ4F_preferences_t :=
  {| frameInfo :=
       {| blockSizeID := block_id;
          blockMode := if block_mode_linked =? 0 then LZ4F_blockIndependent
                       else LZ4F_blockLinked;
          contentChecksumFlag := if checksum =? 0 then LZ4F_noContentChecksum
                                 else LZ4F_contentChecksumEnabled;
          frameType := frameType (frameInfo old);
          contentSize := content_size;
          dictID := dictID (frameInfo old);
          blockChecksumFlag := if block_checksum =? 0 then LZ4F_noBlockChecksum
                               else LZ4F_blockChecksumEnabled |};
     compressionLevel := compression_level;
     autoFlush := auto_flush |}.

Definition prefs_defaults : LZ4F_preferences_t :=
  {| frameInfo :=
       {| blockSizeID := 0; blockMode := LZ4F_blockLinked;
          contentChecksumFlag := LZ4F_noContentChecksum; frameType := 0;
          contentSize := 0; dictID := 0;
          blockChecksumFlag := LZ4F_noBlockChecksum |};
     compressionLevel := 0;
     autoFlush := 0 |}.

(** The preferences [compress] hands to the library. *)
Definition compress_prefs (input : Py_buffer)
    (block_id block_mode_linked checksum compression_level block_checksum : int)
    : LZ4F_preferences_t :=
  make_prefs prefs_defaults (len input) block_id block_mode_linked checksum
             compression_level block_checksum (autoFlush prefs_defaults).

Definition _lz4framed_compress (input : Py_buffer)
    (block_id block_mode_linked checksum compression_level block_checksum : int)
    : M PyBytes :=
  if negb (PyBuffer_IsContiguous input)
  then raise (PyExc_ValueError "input not contiguous" None)
  else if len input <=? 0 then raise LZ4FNoDataError
  else if negb (_valid_lz4f_block_size_id block_id)
  then raise (PyExc_ValueError "block_size_id (%d) invalid" (Some (int_val block_id)))
  else if compression_level >? LZ4_COMPRESSION_MAX
  then raise (PyExc_ValueError "level (%d) invalid"
                              (Some (int_val compression_level)))
  else
    let prefs := compress_prefs input block_id block_mode_linked checksum
                                compression_level block_checksum in
    output_len <- BAIL_ON_LZ4_ERROR (Ev_compressFrameBound (len input))
                    (LZ4F_compressFrameBound (len input) prefs) ;;
    output <- PyBytes_FromStringAndSize output_len ;;
    frame <- BAIL_ON_LZ4_ERROR (Ev_compressFrame output_len (len input))
               (LZ4F_compressFrame output_len (buf input) (len input) prefs) ;;
    let output := PyBytes_store output 0 frame in
    let output_len := zlength frame in
    (* output length might be shorter than estimated *)
    _PyBytes_Resize output output_len.

(** *** One-shot decompression *)

Record input_vars : Type := mkInput {
  input_pos : Z;
  input_remaining : Z;
  input_read : Z;
  input_size_hint : Z }.

Record output_vars : Type := mkOutput {
  output : PyBytes;
  output_pos : Z;
  output_len : Z;
  output_remaining : Z;
  output_written : Z }.

Record decompress_vars : Type := mkDecompress {
  ctx : LZ4F_dctx;
  d_in : input_vars;
  d_out : output_vars }.

(** The [srcSize] bytes at [pos] of the input. *)
Definition input_window (input : Py_buffer) (pos srcSize : Z) : list byte :=
  firstn (Z.to_nat srcSize) (skipn (Z.to_nat pos) (buf input)).

(** [frame_info.contentSize], an [unsigned long long]: 0 when the header
    does not say. *)
Definition known_contentSize (frame_info : LZ4F_frameInfo_t) : Z :=
  size_t_wrap (contentSize frame_info).

(** The checks made before the decompression context is created. *)
Definition decompress_check_args (input : Py_buffer) (buffer_size : int) : M unit :=
  if negb (PyBuffer_IsContiguous input)
  then raise (PyExc_ValueError "input not contiguous" None)
  else if len input <=? 0 then raise LZ4FNoDataError
  else if buffer_size <=? 0
  then raise (PyExc_ValueError "buffer_size (%d) invalid"
                               (Some (int_val buffer_size)))
  else ret tt.

(** From the creation of the context to the allocation of the output: the
    frame header is read, and the output is sized from it. *)
Definition decompress_begin (input : Py_buffer) (buffer_size : int) (ctx0 : LZ4F_dctx)
    : M (LZ4F_frameInfo_t * LZ4F_decompressOptions_t * decompress_vars) :=
  let input_read0 := len input in
  let input_remaining0 := len input in
  let input_pos0 := 0 in
  (* retrieve uncompressed data size *)
  let '(ctx1, r) :=
    LZ4F_getFrameInfo ctx0 (input_window input input_pos0 input_read0) input_read0 in
  '(frame_info, input_read1, hint) <-
     BAIL_ON_LZ4_ERROR (Ev_getFrameInfo input_read0) r ;;
  let input_pos1 := input_pos0 + input_read1 in
  let input_remaining1 := size_t_sub input_remaining0 input_read1 in
  let output_len0 :=
    if known_contentSize frame_info =? 0
    then (* uncompressed size is always at least that of compressed *)
         MAX (size_t_of_int buffer_size) input_remaining1
    else known_contentSize frame_info in
  (* Prevent LZ4 from buffering output - works if uncompressed size known
     since output does not have to be resized *)
  let opt :=
    {| stableDst := if known_contentSize frame_info =? 0 then 0 else 1 |} in
  (* set up initial output buffer *)
  output0 <- PyBytes_FromStringAndSize output_len0 ;;
  ret (frame_info, opt,
       {| ctx := ctx1;
          d_in := {| input_pos := input_pos1; input_remaining := input_remaining1;
                     input_read := input_remaining1; input_size_hint := hint |};
          d_out := {| output := output0; output_pos := 0; output_len := output_len0;
                      output_remaining := output_len0;
                      output_written := output_len0 |} |}).

(** One turn of the [while (1)] loop. *)
Definition decompress_iter (input : Py_buffer) (frame_info : LZ4F_frameInfo_t)
    (opt : LZ4F_decompressOptions_t) (v : decompress_vars)
    : M (loop_step decompress_vars) :=
  let i := d_in v in
  let o := d_out v in
  (* Decompress next chunk *)
  let '(ctx', r) :=
    LZ4F_decompress (ctx v) (output_written o)
      (input_window input (input_pos i) (input_read i)) (input_read i) (Some opt) in
  rep <- BAIL_ON_LZ4_ERROR
           (Ev_decompress (output_written o) (input_read i) (Some opt) r) r ;;
  let output1 := PyBytes_store (output o) (output_pos o) (dst_written rep) in
  let output_written1 := zlength (dst_written rep) in
  let input_read1 := src_consumed rep in
  let input_size_hint1 := next_hint rep in
  let output_pos1 := output_pos o + output_written1 in
  let output_remaining1 := size_t_sub (output_remaining o) output_written1 in
  (* decompression complete (i.e. all data provided & fits within output buffer) *)
  if input_size_hint1 =? 0 then
    ret (Break
      {| ctx := ctx';
         d_in := {| input_pos := input_pos i; input_remaining := input_remaining i;
                    input_read := input_read1; input_size_hint := input_size_hint1 |};
         d_out := {| output := output1; output_pos := output_pos1;
                     output_len := size_t_sub (output_len o) output_remaining1;
                     output_remaining := output_remaining1;
                     output_written := output_remaining1 |} |})
  else
    let input_pos1 := input_pos i + input_read1 in
    let input_remaining1 := size_t_sub (input_remaining i) input_read1 in
    if negb (input_remaining1 =? 0) then
      (* destination too small *)
      (if negb (known_contentSize frame_info =? 0)
       then (* if frame specifies size, should never have to enlarge *)
            emit (Ev_PyErr_WarnEx "lz4frame contentSize mismatch") ;;;
            if negb (PyErr_WarnEx "lz4frame contentSize mismatch" =? 0)
            then raise (PyExc_RuntimeWarning "lz4frame contentSize mismatch")
            else ret tt
       else ret tt) ;;;
      let output_remaining2 := size_t_add output_remaining1 (output_len o) in
      let output_len2 := size_t_mul (output_len o) 2 in
      output2 <- _PyBytes_Resize output1 output_len2 ;;
      ret (Continue
        {| ctx := ctx';
           d_in := {| input_pos := input_pos1; input_remaining := input_remaining1;
                      input_read := input_remaining1;
                      input_size_hint := input_size_hint1 |};
           d_out := {| output := output2;
                       output_pos := size_t_sub output_len2 output_remaining2;
                       output_len := output_len2;
                       output_remaining := output_remaining2;
                       output_written := output_remaining2 |} |})
    else
      (* insufficient data *)
      raise (PyExc_ValueError "frame incomplete" None).

(** The loop, unrolled at most [fuel] times; [None] when that is not enough. *)
Fixpoint decompress_loop (fuel : nat) (input : Py_buffer)
    (frame_info : LZ4F_frameInfo_t) (opt : LZ4F_decompressOptions_t)
    (v : decompress_vars) : option (M decompress_vars) :=
  match fuel with
  | O => None
  | S fuel' =>
      match decompress_iter input frame_info opt v with
      | (t, inl e) => Some (t, inl e)
      | (t, inr (Break v')) => Some (t, inr v')
      | (t, inr (Continue v')) =>
          match decompress_loop fuel' input frame_info opt v' with
          | Some (t', r) => Some (t ++ t', r)
          | None => None
          end
      end
  end.

(** The output doubles at every turn and an object larger than
    [PY_SSIZE_T_MAX] cannot be allocated, so 64 turns always suffice (see
    [decompress_loop_fuel]). *)
Definition decompress_fuel : nat := 64.

(** Everything done while the context exists. *)
Definition decompress_frame (input : Py_buffer) (buffer_size : int) (ctx0 : LZ4F_dctx)
    : option (M PyBytes) :=
  match decompress_begin input buffer_size ctx0 with
  | (t, inl e) => Some (t, inl e)
  | (t, inr (frame_info, opt, v)) =>
      match decompress_loop decompress_fuel input frame_info opt v with
      | None => None
      | Some (t', inl e) => Some (t ++ t', inl e)
      | Some (t', inr v') =>
          let '(t'', r) := _PyBytes_Resize (output (d_out v')) (output_len (d_out v')) in
          Some (t ++ t' ++ t'', r)
      end
  end.

(** Every way out of [decompress] releases the context:
    [LZ4F_freeDecompressionContext(ctx)], with [ctx] still [NULL] when the
    function leaves before it has created one. *)
Definition _lz4framed_decompress (input : Py_buffer) (buffer_size : int)
    : option (M PyBytes) :=
  match decompress_check_args input buffer_size ;;;
        BAIL_ON_LZ4_ERROR Ev_createDecompressionContext
          (LZ4F_createDecompressionContext LZ4F_VERSION) with
  | (t, inl e) => Some (t ++ [Ev_freeDecompressionContext true], inl e)
  | (t, inr ctx0) =>
      match decompress_frame input buffer_size ctx0 with
      | None => None
      | Some (t', r) => Some (t ++ t' ++ [Ev_freeDecompressionContext false], r)
      end
  end.

(** *** Contexts and capsules *)

Record _lz4f_cctx_t : Type := mk_cctx {
  cctx_ctx : LZ4F_cctx;
  prefs : LZ4F_preferences_t }.

Record _lz4f_dctx_t : Type := mk_dctx { dctx_ctx : LZ4F_dctx }.

(** The module only ever puts one of its two context structures in a
    capsule, under the name that goes with it. *)
Inductive capsule_pointer : Type :=
| cctx_pointer (cctx : _lz4f_cctx_t)
| dctx_pointer (dctx : _lz4f_dctx_t).

Inductive PyObject : Type :=
| PyBytes_Object (b : PyBytes)
| PyLong_Object (n : Z)
| PyCapsule (pointer : capsule_pointer)
| Py_None.

Definition PyCapsule_GetName (pointer : capsule_pointer) : string :=
  match pointer with
  | cctx_pointer _ => COMPRESSION_CAPSULE_NAME
  | dctx_pointer _ => DECOMPRESSION_CAPSULE_NAME
  end.

Definition PyCapsule_IsValid (o : PyObject) (name : string) : bool :=
  match o with
  | PyCapsule pointer => String.eqb (PyCapsule_GetName pointer) name
  | _ => false
  end.

(** *** Streaming compression *)

(** The result of a call on a context: the capsule as the call leaves it, and
    what the call returns or raises. *)
Definition _lz4framed_compress_begin (ctx_capsule : PyObject)
    (block_id block_mode_linked checksum autoflush compression_level
     block_checksum : int) : PyObject * M PyBytes :=
  let output_len := LZ4F_HEADER_SIZE_MAX in
  if negb (PyCapsule_IsValid ctx_capsule COMPRESSION_CAPSULE_NAME)
  then (ctx_capsule, raise (PyExc_ValueError "ctx invalid" None))
  else if negb (_valid_lz4f_block_size_id block_id)
  then (ctx_capsule,
        raise (PyExc_ValueError "block_size_id (%d) invalid" (Some (int_val block_id))))
  else if compression_level >? LZ4_COMPRESSION_MAX
  then (ctx_capsule,
        raise (PyExc_ValueError "level (%d) invalid"
                              (Some (int_val compression_level))))
  else
    match ctx_capsule with
    | PyCapsule (cctx_pointer cctx) =>
        let prefs' :=
          make_prefs (prefs cctx) (contentSize (frameInfo (prefs cctx)))
            block_id block_mode_linked checksum compression_level block_checksum
            (if autoflush =? 0 then 0 else 1) in
        match PyBytes_FromStringAndSize output_len with
        | (t, inl e) =>
            (PyCapsule (cctx_pointer {| cctx_ctx := cctx_ctx cctx; prefs := prefs' |}),
             (t, inl e))
        | (t, inr output) =>
            (* not worth releasing GIL here since only writing header *)
            let '(ctx', r) := LZ4F_compressBegin (cctx_ctx cctx) output_len prefs' in
            (PyCapsule (cctx_pointer {| cctx_ctx := ctx'; prefs := prefs' |}),
             (t, inr tt) ;;;
             header <- BAIL_ON_LZ4_ERROR (Ev_compressBegin output_len) r ;;
             _PyBytes_Resize (PyBytes_store output 0 header) (zlength header))
        end
    | _ => (* excluded by PyCapsule_IsValid *)
        (ctx_capsule, raise (PyExc_ValueError "ctx invalid" None))
    end.

Definition _lz4framed_compress_update (ctx_capsule : PyObject) (input : Py_buffer)
    : PyObject * M PyBytes :=
  if negb (PyCapsule_IsValid ctx_capsule COMPRESSION_CAPSULE_NAME)
  then (ctx_capsule, raise (PyExc_ValueError "ctx invalid" None))
  else if negb (PyBuffer_IsContiguous input)
  then (ctx_capsule, raise (PyExc_ValueError "input not contiguous" None))
  else if len input <=? 0 then (ctx_capsule, raise LZ4FNoDataError)
  else
    match ctx_capsule with
    | PyCapsule (cctx_pointer cctx) =>
        match
          (output_len <- BAIL_ON_LZ4_ERROR (Ev_compressBound (len input))
                           (LZ4F_compressBound (len input) (prefs cctx)) ;;
           output <- PyBytes_FromStringAndSize output_len ;;
           ret (output_len, output))
        with
        | (t, inl e) => (ctx_capsule, (t, inl e))
        | (t, inr (output_len, output)) =>
            let '(ctx', r) :=
              LZ4F_compressUpdate (cctx_ctx cctx) output_len (buf input) (len input) in
            (PyCapsule (cctx_pointer {| cctx_ctx := ctx'; prefs := prefs cctx |}),
             (t, inr tt) ;;;
             data <- BAIL_ON_LZ4_ERROR (Ev_compressUpdate output_len (len input)) r ;;
             _PyBytes_Resize (PyBytes_store output 0 data) (zlength data))
        end
    | _ => (* excluded by PyCapsule_IsValid *)
        (ctx_capsule, raise (PyExc_ValueError "ctx invalid" None))
    end.

(** *** Streaming decompression *)

Record chunk_vars : Type := mkChunk {
  result_list : list PyObject;
  chunk : PyBytes;
  chunk_pos : Z;
  chunk_remaining : Z;
  chunk_written : Z }.

Record update_vars : Type := mkUpdate {
  u_in : input_vars;
  u_chunk : chunk_vars }.

(** [size_t chunk_len = 65536], then the parser's ["i"] stores the argument,
    when there is one, through [&chunk_len]. *)
Definition parse_chunk_len (arg : option int) : Z :=
  match arg with
  | None => 65536
  | Some i => store_int_in_size_t 65536 i
  end.

(** One turn of [while (input_remaining && input_size_hint)].  The list, its
    cells and the integer object are small allocations taken to succeed. *)
Definition decompress_update_iter (input : Py_buffer) (chunk_len : Z)
    (dctx : LZ4F_dctx) (v : update_vars) : LZ4F_dctx * M update_vars :=
  let i := u_in v in
  let c := u_chunk v in
  (* add another chunk for more data when current one full *)
  match
    (if chunk_remaining c =? 0 then
       (* append previous (full) chunk to list, create next chunk *)
       chunk' <- PyBytes_FromStringAndSize chunk_len ;;
       ret {| result_list := result_list c ++ [PyBytes_Object (chunk c)];
              chunk := chunk'; chunk_pos := 0;
              chunk_remaining := chunk_len; chunk_written := chunk_len |}
     else ret c)
  with
  | (t, inl e) => (dctx, (t, inl e))
  | (t, inr c) =>
      let '(dctx', r) :=
        LZ4F_decompress dctx (chunk_written c)
          (input_window input (input_pos i) (input_read i)) (input_read i) None in
      (dctx',
       (t, inr tt) ;;;
       rep <- BAIL_ON_LZ4_ERROR
                (Ev_decompress (chunk_written c) (input_read i) None r) r ;;
       let chunk_written1 := zlength (dst_written rep) in
       let chunk_remaining1 := size_t_sub (chunk_remaining c) chunk_written1 in
       let input_remaining1 := size_t_sub (input_remaining i) (src_consumed rep) in
       ret {| u_in := {| input_pos := input_pos i + src_consumed rep;
                         input_remaining := input_remaining1;
                         input_read := input_remaining1;
                         input_size_hint := next_hint rep |};
              u_chunk := {| result_list := result_list c;
                            chunk := PyBytes_store (chunk c) (chunk_pos c)
                                                   (dst_written rep);
                            chunk_pos := chunk_pos c + chunk_written1;
                            chunk_remaining := chunk_remaining1;
                            chunk_written := chunk_remaining1 |} |})
  end.

(** The loop, unrolled at most [fuel] times; [None] when that is not enough. *)
Fixpoint decompress_update_loop (fuel : nat) (input : Py_buffer) (chunk_len : Z)
    (dctx : LZ4F_dctx) (v : update_vars) : option (LZ4F_dctx * M update_vars) :=
  if (input_remaining (u_in v) =? 0) || (input_size_hint (u_in v) =? 0)
  then Some (dctx, ret v)
  else
    match fuel with
    | O => None
    | S fuel' =>
        match decompress_update_iter input chunk_len dctx v with
        | (dctx', (t, inl e)) => Some (dctx', (t, inl e))
        | (dctx', (t, inr v')) =>
            match decompress_update_loop fuel' input chunk_len dctx' v' with
            | Some (dctx'', (t', r)) => Some (dctx'', (t ++ t', r))
            | None => None
            end
        end
    end.

(** What follows the loop: the last chunk and the hint are appended. *)
Definition decompress_update_finish (chunk_len : Z) (v : update_vars)
    : M (list PyObject) :=
  let c := u_chunk v in
  lst <- (if chunk_remaining c <? chunk_len then
            (* append & reduce size of final chunk (if contains any data) *)
            chunk' <- _PyBytes_Resize (chunk c) (size_t_sub chunk_len (chunk_remaining c)) ;;
            ret (result_list c ++ [PyBytes_Object chunk'])
          else ret (result_list c)) ;;
  (* append input size hint to list *)
  ret (lst ++ [PyLong_Object (input_size_hint (u_in v))]).

Definition _lz4framed_decompress_update (fuel : nat) (dctx_capsule : PyObject)
    (input : Py_buffer) (chunk_len_arg : option int)
    : option (PyObject * M (list PyObject)) :=
  let input_size_hint0 := 1 in
  let chunk_len := parse_chunk_len chunk_len_arg in
  if negb (PyCapsule_IsValid dctx_capsule DECOMPRESSION_CAPSULE_NAME)
  then Some (dctx_capsule, raise (PyExc_ValueError "ctx invalid" None))
  else if negb (PyBuffer_IsContiguous input)
  then Some (dctx_capsule, raise (PyExc_ValueError "input not contiguous" None))
  else if len input <=? 0 then Some (dctx_capsule, raise LZ4FNoDataError)
  else if chunk_len <=? 0
  then Some (dctx_capsule, raise (PyExc_ValueError "chunk_len invalid" None))
  else
    match dctx_capsule with
    | PyCapsule (dctx_pointer dctx) =>
        (* first chunk *)
        match PyBytes_FromStringAndSize chunk_len with
        | (t, inl e) => Some (dctx_capsule, (t, inl e))
        | (t, inr chunk0) =>
            let v0 :=
              {| u_in := {| input_pos := 0; input_remaining := len input;
                            input_read := len input;
                            input_size_hint := input_size_hint0 |};
                 u_chunk := {| result_list := []; chunk := chunk0; chunk_pos := 0;
                               chunk_remaining := chunk_len;
                               chunk_written := chunk_len |} |} in
            match decompress_update_loop fuel input chunk_len (dctx_ctx dctx) v0 with
            | None => None
            | Some (ctx', m) =>
                Some (PyCapsule (dctx_pointer {| dctx_ctx := ctx' |}),
                      (t, inr tt) ;;; v <- m ;; decompress_update_finish chunk_len v)
            end
        end
    | _ => (* excluded by PyCapsule_IsValid *)
        Some (dctx_capsule, raise (PyExc_ValueError "ctx invalid" None))
    end.

End Binding.

(** ** A library instance: stored and run-length blocks

    An implementation of the [LZ4FrameLib] interface that keeps the frame
    structure (magic number, flags, content size, length-prefixed blocks, end
    mark, optional content checksum).  A block is either stored as it is or,
    when it repeats one byte, coded as that byte and a count.  It shows that
    the assumptions made on the library further down can be met, and gives
    the concrete runs. *)

Module RleCodec.

Definition byte_of_Z (z : Z) : byte :=
  match Byte.of_N (Z.to_N (z mod 256)) with
  | Some b => b
  | None => x00
  end.
Definition Z_of_byte (b : byte) : Z := Z.of_N (Byte.to_N b).

(** [n] bytes of [z], least significant first. *)
Fixpoint le_bytes (n : nat) (z : Z) : list byte :=
  match n with
  | O => []
  | S n' => byte_of_Z z :: le_bytes n' (z / 256)
  end.

Definition magic : list byte := [x04; x22; x4d; x18].
Definition HEADER_SIZE : Z := 13.

(** The bit of a block header that marks a run. *)
Definition RUN_FLAG : Z := 2 ^ 31.

Definition ERROR_GENERIC : Z := SIZE_T_MODULUS - 1.
Definition ERROR_dstMaxSize_tooSmall : Z := SIZE_T_MODULUS - 11.
Definition ERROR_frameHeader_incomplete : Z := SIZE_T_MODULUS - 12.
Definition ERROR_frameType_unknown : Z := SIZE_T_MODULUS - 13.
Definition ERROR_contentChecksum_invalid : Z := SIZE_T_MODULUS - 18.

Definition getErrorName (code : Z) : string :=
  if code =? ERROR_dstMaxSize_tooSmall then "ERROR_dstMaxSize_tooSmall"
  else if code =? ERROR_frameHeader_incomplete then "ERROR_frameHeader_incomplete"
  else if code =? ERROR_frameType_unknown then "ERROR_frameType_unknown"
  else if code =? ERROR_contentChecksum_invalid then "ERROR_contentChecksum_invalid"
  else "ERROR_GENERIC".

Definition block_bytes (id : Z) : Z :=
  if id =? 5 then KB 256 else if id =? 6 then MB 1 else if id =? 7 then MB 4
  else KB 64.

Definition checksum_of (data : list byte) : Z :=
  fold_left (fun acc b => (acc + Z_of_byte b) mod INT_MODULUS) data 0.

(** *** Encoder *)

Definition flags_byte (fi : LZ4F_frameInfo_t) : byte :=
  byte_of_Z
    ((match contentChecksumFlag fi with
      | LZ4F_contentChecksumEnabled => 1 | LZ4F_noContentChecksum => 0 end)
     + 2 * (match blockMode fi with
            | LZ4F_blockIndependent => 1 | LZ4F_blockLinked => 0 end)
     + 16 * (blockSizeID fi mod 8)).

Definition encode_header (p : LZ4F_preferences_t) : list byte :=
  magic ++ [flags_byte (frameInfo p)] ++ le_bytes 8 (contentSize (frameInfo p)).

(** A block of at least six bytes that are all the same is coded as a run. *)
Definition encode_block (b : list byte) : list byte :=
  match b with
  | x :: _ =>
      if (6 <=? zlength b) && forallb (Byte.eqb x) b
      then le_bytes 4 (RUN_FLAG + zlength b) ++ [x]
      else le_bytes 4 (zlength b) ++ b
  | [] => []
  end.

Fixpoint encode_blocks (fuel : nat) (size : nat) (data : list byte) : list byte :=
  match fuel, data with
  | O, _ | _, [] => []
  | S fuel', _ =>
      encode_block (firstn size data) ++ encode_blocks fuel' size (skipn size data)
  end.

Definition encode_data (p : LZ4F_preferences_t) (data : list byte) : list byte :=
  encode_blocks (List.length data)
    (Z.to_nat (block_bytes (blockSizeID (frameInfo p)))) data.

Definition encode_trailer (p : LZ4F_preferences_t) (data : list byte) : list byte :=
  le_bytes 4 0 ++
  match contentChecksumFlag (frameInfo p) with
  | LZ4F_contentChecksumEnabled => le_bytes 4 (checksum_of data)
  | LZ4F_noContentChecksum => []
  end.

Definition compressBound (srcSize : Z) (p : LZ4F_preferences_t) : LZ4F_result Z :=
  LZ4F_ok (srcSize + 4 * (srcSize / block_bytes (blockSizeID (frameInfo p)) + 1) + 8).

Definition compressFrameBound (srcSize : Z) (p : LZ4F_preferences_t) : LZ4F_result Z :=
  LZ4F_ok (HEADER_SIZE + srcSize
           + 4 * (srcSize / block_bytes (blockSizeID (frameInfo p)) + 1) + 8).

Definition compressFrame (dstCapacity : Z) (src : list byte) (srcSize : Z)
    (p : LZ4F_preferences_t) : LZ4F_result (list byte) :=
  let data := firstn (Z.to_nat srcSize) src in
  let frame := encode_header p ++ encode_data p data ++ encode_trailer p data in
  if dstCapacity <? zlength frame then LZ4F_error ERROR_dstMaxSize_tooSmall
  else LZ4F_ok frame.

Record cctx : Type := mk_cctx { c_prefs : LZ4F_preferences_t }.

Definition compressBegin (c : cctx) (dstCapacity : Z) (p : LZ4F_preferences_t)
    : cctx * LZ4F_result (list byte) :=
  if dstCapacity <? HEADER_SIZE then (c, LZ4F_error ERROR_dstMaxSize_tooSmall)
  else ({| c_prefs := p |}, LZ4F_ok (encode_header p)).

Definition compressUpdate (c : cctx) (dstCapacity : Z) (src : list byte) (srcSize : Z)
    : cctx * LZ4F_result (list byte) :=
  let out := encode_data (c_prefs c) (firstn (Z.to_nat srcSize) src) in
  if dstCapacity <? zlength out then (c, LZ4F_error ERROR_dstMaxSize_tooSmall)
  else (c, LZ4F_ok out).

(** *** Decoder: a machine fed one byte at a time *)

Inductive stage : Type :=
| S_Magic (i : nat)
| S_Flags
| S_ContentSize (i : nat) (acc : Z)
| S_BlockHeader (i : nat) (acc : Z)
| S_BlockData (remaining : Z)
| S_RunValue (count : Z)
| S_Run (remaining : nat) (x : byte)
| S_Checksum (i : nat) (acc : Z).

Record dctx : Type := mk_dctx {
  d_stage : stage;
  d_info : LZ4F_frameInfo_t;
  d_sum : Z }.

Definition no_info : LZ4F_frameInfo_t :=
  {| blockSizeID := 0; blockMode := LZ4F_blockLinked;
     contentChecksumFlag := LZ4F_noContentChecksum; frameType := 0;
     contentSize := 0; dictID := 0; blockChecksumFlag := LZ4F_noBlockChecksum |}.

Definition fresh : dctx := {| d_stage := S_Magic 0; d_info := no_info; d_sum := 0 |}.

Definition info_of_flags (x : byte) : LZ4F_frameInfo_t :=
  let f := Z_of_byte x in
  {| blockSizeID := (f / 16) mod 8;
     blockMode := if Z.testbit f 1 then LZ4F_blockIndependent else LZ4F_blockLinked;
     contentChecksumFlag := if Z.testbit f 0 then LZ4F_contentChecksumEnabled
                            else LZ4F_noContentChecksum;
     frameType := 0; contentSize := 0; dictID := 0;
     blockChecksumFlag := LZ4F_noBlockChecksum |}.

Definition set_contentSize (fi : LZ4F_frameInfo_t) (n : Z) : LZ4F_frameInfo_t :=
  {| blockSizeID := blockSizeID fi; blockMode := blockMode fi;
     contentChecksumFlag := contentChecksumFlag fi; frameType := frameType fi;
     contentSize := n; dictID := dictID fi;
     blockChecksumFlag := blockChecksumFlag fi |}.

Inductive fed : Type :=
| Fed (d : dctx) (out : option byte)
| Finished (d : dctx)
| Failed (code : Z).

Definition at_stage (d : dctx) (s : stage) : dctx :=
  {| d_stage := s; d_info := d_info d; d_sum := d_sum d |}.

Definition feed (d : dctx) (x : byte) : fed :=
  match d_stage d with
  | S_Magic i =>
      if Byte.eqb x (nth i magic x00)
      then Fed (at_stage d (if Nat.eqb i 3 then S_Flags else S_Magic (S i))) None
      else Failed ERROR_frameType_unknown
  | S_Flags =>
      Fed {| d_stage := S_ContentSize 0 0; d_info := info_of_flags x; d_sum := 0 |} None
  | S_ContentSize i acc =>
      let acc' := acc + Z_of_byte x * 256 ^ Z.of_nat i in
      if Nat.eqb i 7
      then Fed {| d_stage := S_BlockHeader 0 0;
                  d_info := set_contentSize (d_info d) acc'; d_sum := 0 |} None
      else Fed (at_stage d (S_ContentSize (S i) acc')) None
  | S_BlockHeader i acc =>
      let acc' := acc + Z_of_byte x * 256 ^ Z.of_nat i in
      if Nat.eqb i 3
      then if acc' =? 0
           then match contentChecksumFlag (d_info d) with
                | LZ4F_contentChecksumEnabled => Fed (at_stage d (S_Checksum 0 0)) None
                | LZ4F_noContentChecksum => Finished fresh
                end
           else if RUN_FLAG <=? acc'
                then Fed (at_stage d (S_RunValue (acc' - RUN_FLAG))) None
                else Fed (at_stage d (S_BlockData acc')) None
      else Fed (at_stage d (S_BlockHeader (S i) acc')) None
  | S_BlockData remaining =>
      Fed {| d_stage := if remaining =? 1 then S_BlockHeader 0 0
                        else S_BlockData (remaining - 1);
             d_info := d_info d;
             d_sum := (d_sum d + Z_of_byte x) mod INT_MODULUS |} (Some x)
  | S_RunValue count =>
      Fed {| d_stage := S_Run (Z.to_nat count) x;
             d_info := d_info d;
             d_sum := (d_sum d + count * Z_of_byte x) mod INT_MODULUS |} None
  | S_Run _ _ => Failed ERROR_GENERIC
  | S_Checksum i acc =>
      let acc' := acc + Z_of_byte x * 256 ^ Z.of_nat i in
      if Nat.eqb i 3
      then if acc' =? d_sum d then Finished fresh
           else Failed ERROR_contentChecksum_invalid
      else Fed (at_stage d (S_Checksum (S i) acc')) None
  end.

(** Writing out as much of a pending run as there is room for. *)
Definition flush (d : dctx) (room : nat) : dctx * list byte * nat :=
  match d_stage d with
  | S_Run remaining x =>
      let k := Nat.min remaining room in
      (at_stage d (if (remaining <=? k)%nat then S_BlockHeader 0 0
                   else S_Run (remaining - k) x),
       repeat x k, (room - k)%nat)
  | _ => (d, [], room)
  end.

Definition in_header (d : dctx) : bool :=
  match d_stage d with
  | S_Magic _ | S_Flags | S_ContentSize _ _ => true
  | _ => false
  end.

(** How many source bytes the machine would like next. *)
Definition expects (d : dctx) : Z :=
  match d_stage d with
  | S_Magic i => HEADER_SIZE - Z.of_nat i
  | S_Flags => 9
  | S_ContentSize i _ => 8 - Z.of_nat i
  | S_BlockHeader i _ => 4 - Z.of_nat i
  | S_BlockData remaining => remaining + 4
  | S_RunValue _ => 5
  | S_Run _ _ => 4
  | S_Checksum i _ => 4 - Z.of_nat i
  end.


(** Feeding the header bytes of [src], and nothing after them. *)
Fixpoint read_header (d : dctx) (src : list byte) : LZ4F_result (dctx * Z) :=
  if negb (in_header d) then LZ4F_ok (d, 0)
  else
    match src with
    | [] => LZ4F_error ERROR_frameHeader_incomplete
    | x :: src' =>
        match feed d x with
        | Fed d' _ =>
            match read_header d' src' with
            | LZ4F_ok (d'', n) => LZ4F_ok (d'', n + 1)
            | LZ4F_error c => LZ4F_error c
            end
        | Finished _ => LZ4F_error ERROR_GENERIC
        | Failed c => LZ4F_error c
        end
    end.

(** Feeding [src] until it is exhausted, the frame ends, or bytes are due
    and the destination has no room left. *)
Fixpoint run (d : dctx) (room : nat) (src : list byte)
    : dctx * LZ4F_result (list byte * Z * bool) :=
  let '(d1, out1, room1) := flush d room in
  match d_stage d1, room1, src with
  | S_Run _ _, _, _ => (d1, LZ4F_ok (out1, 0, false))
  | S_BlockData _, O, _ => (d1, LZ4F_ok (out1, 0, false))
  | _, _, [] => (d1, LZ4F_ok (out1, 0, false))
  | _, _, x :: src' =>
      match feed d1 x with
      | Failed c => (d1, LZ4F_error c)
      | Finished d' => (d', LZ4F_ok (out1, 1, true))
      | Fed d' out =>
          let room' := match out with Some _ => pred room1 | None => room1 end in
          match run d' room' src' with
          | (d'', LZ4F_ok (written, n, fin)) =>
              (d'', LZ4F_ok (out1 ++ match out with
                                     | Some y => y :: written
                                     | None => written
                                     end, n + 1, fin))
          | (d'', LZ4F_error c) => (d'', LZ4F_error c)
          end
      end
  end.

Definition createDecompressionContext (version : Z) : LZ4F_result dctx :=
  if version =? 100 then LZ4F_ok fresh else LZ4F_error ERROR_GENERIC.

Definition getFrameInfo (d : dctx) (src : list byte) (srcSize : Z)
    : dctx * LZ4F_result (LZ4F_frameInfo_t * Z * Z) :=
  match read_header d (firstn (Z.to_nat srcSize) src) with
  | LZ4F_ok (d', n) => (d', LZ4F_ok (d_info d', n, expects d'))
  | LZ4F_error c => (d, LZ4F_error c)
  end.

Definition decompress (d : dctx) (dstSize : Z) (src : list byte) (srcSize : Z)
    (opt : option LZ4F_decompressOptions_t) : dctx * LZ4F_result decompress_report :=
  match run d (Z.to_nat dstSize) (firstn (Z.to_nat srcSize) src) with
  | (d', LZ4F_ok (written, n, fin)) =>
      (d', LZ4F_ok {| dst_written := written; src_consumed := n;
                      next_hint := if fin then 0 else expects d' |})
  | (d', LZ4F_error c) => (d', LZ4F_error c)
  end.

#[export] Instance lib : LZ4FrameLib := {|
  LZ4F_default := 0;
  LZ4F_max64KB := 4;
  LZ4F_max256KB := 5;
  LZ4F_max1MB := 6;
  LZ4F_max4MB := 7;
  LZ4HC_CLEVEL_MIN := 3;
  LZ4HC_CLEVEL_MAX := 12;
  LZ4F_HEADER_SIZE_MAX := 19;
  LZ4F_VERSION := 100;
  LZ4F_cctx := cctx;
  LZ4F_dctx := dctx;
  LZ4F_getErrorName := getErrorName;
  LZ4F_compressFrameBound := compressFrameBound;
  LZ4F_compressFrame := compressFrame;
  LZ4F_compressBegin := compressBegin;
  LZ4F_compressBound := compressBound;
  LZ4F_compressUpdate := compressUpdate;
  LZ4F_createDecompressionContext := createDecompressionContext;
  LZ4F_getFrameInfo := getFrameInfo;
  LZ4F_decompress := decompress |}.

End RleCodec.

(** ** Two interpreters *)

(** Memory for objects up to 1 GiB; warnings are printed. *)
Definition host_default : PyHost :=
  {| PyMem_available := fun n => n <=? 2 ^ 30;
     PyErr_WarnEx := fun _ => 0 |}.

(** The same, run with warnings turned into exceptions ([python -W error]). *)
Definition host_warnings_as_errors : PyHost :=
  {| PyMem_available := fun n => n <=? 2 ^ 30;
     PyErr_WarnEx := fun _ => -1 |}.

(** The bytes of an ASCII string. *)
Fixpoint bytes_of_string (s : string) : list byte :=
  match s with
  | EmptyString => []
  | String c s' => Ascii.byte_of_ascii c :: bytes_of_string s'
  end.

(** ** Sample data *)

Definition hello_world : list byte := bytes_of_string "hello world".

(** A frame whose header announces one byte of content and whose only
    block holds two. *)
Definition mismatched_frame : list byte :=
  RleCodec.magic ++ [x00] ++ RleCodec.le_bytes 8 1
  ++ RleCodec.le_bytes 4 2 ++ [x61; x62] ++ RleCodec.le_bytes 4 0.

(** A frame without content length, whose only block is a run of forty
    bytes. *)
Definition run_frame : list byte :=
  RleCodec.magic ++ [x00] ++ RleCodec.le_bytes 8 0
  ++ RleCodec.le_bytes 4 (RleCodec.RUN_FLAG + 40) ++ [x61] ++ RleCodec.le_bytes 4 0.

Definition int_0 : int := mk_int 0 eq_refl.
Definition int_1 : int := mk_int 1 eq_refl.
Definition int_12 : int := mk_int 12 eq_refl.
Definition int_13 : int := mk_int 13 eq_refl.
Definition int_16 : int := mk_int 16 eq_refl.
Definition int_minus_1 : int := mk_int (-1) eq_refl.

(** Contexts of the run-length codec, as the module keeps them in capsules. *)
Definition sample_cctx : @_lz4f_cctx_t RleCodec.lib :=
  @mk_cctx RleCodec.lib {| RleCodec.c_prefs := prefs_defaults |} prefs_defaults.
Definition fresh_dctx : @_lz4f_dctx_t RleCodec.lib :=
  @mk_dctx RleCodec.lib RleCodec.fresh.

(** The frame of [hello_world], compressed with a content checksum. *)
Definition hello_prefs : LZ4F_preferences_t :=
  compress_prefs (bytes_view hello_world) int_0 int_1 int_1 int_0 int_0.

Definition hello_frame : list byte :=
  Eval vm_compute in
    RleCodec.encode_header hello_prefs ++ RleCodec.encode_data hello_prefs hello_world
    ++ RleCodec.encode_trailer hello_prefs hello_world.

(** The same frame without its last four bytes. *)
Definition truncated_hello_frame : list byte :=
  Eval vm_compute in firstn (List.length hello_frame - 4) hello_frame.

Definition default_buffer_size : int := mk_int 1024 eq_refl.

(** ** Vocabulary of the properties *)

Section Vocabulary.

Context {lz4 : LZ4FrameLib} {host : PyHost}.

(** The values lz4frame.h gives the block size identifiers. *)
Definition lz4frame_h_block_ids : Prop :=
  LZ4F_default = 0 /\ LZ4F_max64KB = 4 /\ LZ4F_max256KB = 5 /\
  LZ4F_max1MB = 6 /\ LZ4F_max4MB = 7.

(** lz4frame.h on [LZ4F_decompress]: the number of bytes written and the
    number of bytes consumed are "necessarily <= original value". *)
Definition LZ4F_decompress_in_bounds : Prop :=
  forall d dstSize src srcSize opt d' rep,
    0 <= dstSize -> 0 <= srcSize ->
    LZ4F_decompress d dstSize src srcSize opt = (d', LZ4F_ok rep) ->
    zlength (dst_written rep) <= dstSize /\ 0 <= src_consumed rep <= srcSize.

(** The same of [LZ4F_getFrameInfo] and the bytes it consumes. *)
Definition LZ4F_getFrameInfo_in_bounds : Prop :=
  forall d src srcSize d' frame_info n hint,
    0 <= srcSize ->
    LZ4F_getFrameInfo d src srcSize = (d', LZ4F_ok (frame_info, n, hint)) ->
    0 <= n <= srcSize.

(** The call of the decoder that a turn of [decompress]'s loop makes. *)
Definition decoder_call (input : Py_buffer) (opt : LZ4F_decompressOptions_t)
    (v : decompress_vars) : LZ4F_dctx * LZ4F_result decompress_report :=
  LZ4F_decompress (ctx v) (output_written (d_out v))
    (input_window input (input_pos (d_in v)) (input_read (d_in v)))
    (input_read (d_in v)) (Some opt).

(** The library compresses [data] into [frame], within the bound it
    announced. *)
Definition frame_compressed (data : list byte) (p : LZ4F_preferences_t)
    (bound : Z) (frame : list byte) : Prop :=
  LZ4F_compressFrameBound (zlength data) p = LZ4F_ok bound /\
  LZ4F_compressFrame bound data (zlength data) p = LZ4F_ok frame /\
  frame <> [] /\
  zlength frame <= bound.

(** The library reads the header of [frame], finds the length of [data] in
    it, and then decodes the rest of the frame into a destination of exactly
    that length in one call. *)
Definition frame_decoded_at_once (frame data : list byte) : Prop :=
  exists ctx0 ctx1 ctx2 frame_info header_size hint rep,
    LZ4F_createDecompressionContext LZ4F_VERSION = LZ4F_ok ctx0 /\
    LZ4F_getFrameInfo ctx0 frame (zlength frame)
      = (ctx1, LZ4F_ok (frame_info, header_size, hint)) /\
    contentSize frame_info = zlength data /\
    0 <= header_size <= zlength frame /\
    LZ4F_decompress ctx1 (zlength data) (skipn (Z.to_nat header_size) frame)
      (zlength frame - header_size) (Some {| stableDst := 1 |})
      = (ctx2, LZ4F_ok rep) /\
    dst_written rep = data /\
    next_hint rep = 0.

(** The states of [decompress]'s loop that a run goes through. *)
Inductive decompress_reaches (input : Py_buffer) (frame_info : LZ4F_frameInfo_t)
    (opt : LZ4F_decompressOptions_t) : decompress_vars -> decompress_vars -> Prop :=
| reaches_here v : decompress_reaches input frame_info opt v v
| reaches_next v t v' v'' :
    decompress_iter input frame_info opt v = (t, inr (Continue v')) ->
    decompress_reaches input frame_info opt v' v'' ->
    decompress_reaches input frame_info opt v v''.

(** The output object is as large as [output_len] says and what has been
    written fills it up to [output_pos]; the rest is [output_remaining]. *)
Definition output_consistent (o : output_vars) : Prop :=
  0 < output_len o <= PY_SSIZE_T_MAX /\
  ob_size (output o) = output_len o /\
  zlength (ob_sval (output o)) = output_pos o /\
  output_pos o + output_remaining o = output_len o /\
  0 <= output_remaining o /\
  output_written o = output_remaining o.

Definition decompress_consistent (v : decompress_vars) : Prop :=
  output_consistent (d_out v) /\
  input_read (d_in v) = input_remaining (d_in v) /\
  0 <= input_remaining (d_in v) < SIZE_T_MODULUS.

(** The state in which [decompress]'s loop goes round again, after a call of
    the decoder that left [ctx'] and reported [rep]: the output is twice as
    large and holds what it held, followed by what the call wrote. *)
Definition grown (v : decompress_vars) (ctx' : LZ4F_dctx) (rep : decompress_report)
    : decompress_vars :=
  let i := d_in v in
  let o := d_out v in
  let remaining := input_remaining i - src_consumed rep in
  let room := output_remaining o - zlength (dst_written rep) + output_len o in
  {| ctx := ctx';
     d_in := {| input_pos := input_pos i + src_consumed rep;
                input_remaining := remaining;
                input_read := remaining;
                input_size_hint := next_hint rep |};
     d_out := {| output := {| ob_size := 2 * output_len o;
                              ob_sval := ob_sval (output o) ++ dst_written rep |};
                 output_pos := output_pos o + zlength (dst_written rep);
                 output_len := 2 * output_len o;
                 output_remaining := room;
                 output_written := room |} |}.

Definition mismatch_warning : string := "lz4frame contentSize mismatch".

(** A resize that makes the object larger. *)
Definition is_growth (ev : event) : bool :=
  match ev with
  | Ev_PyBytes_Resize oldsize newsize => oldsize <? newsize
  | _ => false
  end.

(** The bytes the decoder produced during a run, in order, and the number of
    source bytes it consumed. *)
Definition decoded_by (ev : event) : list byte :=
  match ev with
  | Ev_decompress _ _ _ (LZ4F_ok rep) => dst_written rep
  | _ => []
  end.
Definition decoded (t : list event) : list byte := flat_map decoded_by t.

Definition consumed_by (ev : event) : Z :=
  match ev with
  | Ev_decompress _ _ _ (LZ4F_ok rep) => src_consumed rep
  | _ => 0
  end.
Definition consumed (t : list event) : Z :=
  fold_right (fun ev n => consumed_by ev + n) 0 t.

(** The hint returned by the last call of the decoder in a run that started
    with the hint [h]. *)
Definition hint_after (h : Z) (ev : event) : Z :=
  match ev with
  | Ev_decompress _ _ _ (LZ4F_ok rep) => next_hint rep
  | _ => h
  end.
Definition last_hint (h : Z) (t : list event) : Z := fold_left hint_after t h.



(** The chunk that [decompress_update] starts when the current one is full. *)
Definition next_chunk (chunk_len : Z) (c : chunk_vars) : chunk_vars :=
  {| result_list := result_list c ++ [PyBytes_Object (chunk c)];
     chunk := {| ob_size := chunk_len; ob_sval := [] |};
     chunk_pos := 0;
     chunk_remaining := chunk_len;
     chunk_written := chunk_len |}.

(** The chunk a turn of the loop decodes into. *)
Definition current_chunk (chunk_len : Z) (c : chunk_vars) : chunk_vars :=
  if chunk_remaining c =? 0 then next_chunk chunk_len c else c.

(** The state after a call of the decoder that reported [rep]. *)
Definition after_call (i : input_vars) (c : chunk_vars) (rep : decompress_report)
    : update_vars :=
  {| u_in := {| input_pos := input_pos i + src_consumed rep;
                input_remaining := input_remaining i - src_consumed rep;
                input_read := input_remaining i - src_consumed rep;
                input_size_hint := next_hint rep |};
     u_chunk := {| result_list := result_list c;
                   chunk := {| ob_size := ob_size (chunk c);
                               ob_sval := ob_sval (chunk c) ++ dst_written rep |};
                   chunk_pos := chunk_pos c + zlength (dst_written rep);
                   chunk_remaining := chunk_remaining c - zlength (dst_written rep);
                   chunk_written := chunk_remaining c - zlength (dst_written rep) |} |}.

(** In the loop of [decompress_update], for chunks of [chunk_len] bytes and
    an input of [total] bytes: [done] is what has been decoded so far, and it
    is in the full chunks of the list followed by the current chunk; [used] is
    how much of the input has been consumed. *)
Definition update_consistent (chunk_len total : Z) (done : list byte) (used : Z)
    (v : update_vars) : Prop :=
  let i := u_in v in
  let c := u_chunk v in
  0 < chunk_len <= PY_SSIZE_T_MAX /\
  ob_size (chunk c) = chunk_len /\
  zlength (ob_sval (chunk c)) = chunk_pos c /\
  chunk_pos c + chunk_remaining c = chunk_len /\
  0 <= chunk_remaining c /\
  chunk_written c = chunk_remaining c /\
  input_read i = input_remaining i /\
  0 <= input_remaining i /\
  input_remaining i = total - used /\
  total < SIZE_T_MODULUS /\
  0 <= used /\
  input_pos i = used /\
  exists full,
    result_list c = map PyBytes_Object full /\
    Forall (fun f => ob_size f = chunk_len /\ zlength (ob_sval f) = chunk_len) full /\
    List.concat (map ob_sval full) ++ ob_sval (chunk c) = done.

End Vocabulary.

(** ** Vocabulary of traces *)

(** The release of [decompress]'s context, the calls of the decoder, and the
    calls that only concern the interpreter. *)
Definition is_release (ev : event) : bool :=
  match ev with
  | Ev_freeDecompressionContext _ => true
  | _ => false
  end.

Definition is_decoder_call (ev : event) : bool :=
  match ev with
  | Ev_decompress _ _ _ _ => true
  | _ => false
  end.

Definition is_interpreter_call (ev : event) : bool :=
  match ev with
  | Ev_PyBytes_FromStringAndSize _
  | Ev_PyBytes_Resize _ _
  | Ev_PyErr_WarnEx _ => true
  | _ => false
  end.

(** A call of the decoder that is made with [stableDst = 1]; the other events
    are no calls of the decoder. *)
Definition is_stable_call (ev : event) : bool :=
  match ev with
  | Ev_decompress _ _ (Some o) _ => stableDst o =? 1
  | Ev_decompress _ _ None _ => false
  | _ => true
  end.

Definition is_mismatch_warning (ev : event) : bool :=
  match ev with
  | Ev_PyErr_WarnEx message => (message =? mismatch_warning)%string
  | _ => false
  end.

(** Every resize of [t] that makes the object larger comes right after the
    mismatch warning; [warned] says whether the event before [t] was that
    warning. *)
Fixpoint growth_warned (warned : bool) (t : list event) : bool :=
  match t with
  | [] => true
  | ev :: t' =>
      (warned || negb (is_growth ev)) && growth_warned (is_mismatch_warning ev) t'
  end.

(** What follows the loop of [decompress]: nothing after an error, and
    otherwise the resize that cuts the output to what it holds. *)
Definition decompress_end {lz4 : LZ4FrameLib} {host : PyHost}
    (rl : PyErr + decompress_vars) : M PyBytes :=
  match rl with
  | inl e => ([], inl e)
  | inr v' => _PyBytes_Resize (output (d_out v')) (output_len (d_out v'))
  end.

(** The calls of the decoder in the trace [t] of [decompress_update], set
    against the library.  The first is made in the context [d], when [used]
    bytes of the input have been consumed and the current chunk holds
    [filled] bytes.  Every call is given the bytes of the input from where
    the calls before it stopped to its end, and the room that is left in the
    chunk; what the trace records of it is what the library answers; the
    context it leaves is the context of the next call, and [d_end] after the
    last.  A call that fills the chunk is followed by a call on a new
    chunk. *)
Fixpoint decoder_calls {lz4 : LZ4FrameLib} (input : Py_buffer) (chunk_len : Z)
    (d : LZ4F_dctx) (used filled : Z) (t : list event) (d_end : LZ4F_dctx) : Prop :=
  match t with
  | [] => d_end = d
  | Ev_decompress dstSize srcSize opt r :: t' =>
      0 <= used /\ 0 < srcSize /\ used + srcSize = len input /\
      0 <= filled /\ 0 < dstSize /\ filled + dstSize = chunk_len /\
      opt = None /\
      exists d',
        LZ4F_decompress d dstSize
          (firstn (Z.to_nat srcSize) (skipn (Z.to_nat used) (buf input))) srcSize None
          = (d', r) /\
        let ev := Ev_decompress dstSize srcSize opt r in
        let filled' := filled + zlength (decoded_by ev) in
        decoder_calls input chunk_len d' (used + consumed_by ev)
                      (if filled' =? chunk_len then 0 else filled') t' d_end
  | _ :: t' => decoder_calls input chunk_len d used filled t' d_end
  end.

(** The same of the loop of [decompress_update], from any state it can be in:
    its calls are the library's, from the position and the chunk of the state;
    and a loop that is entered and ends well has called the decoder. *)
Definition decoder_calls_in_loop {lz4 : LZ4FrameLib} {host : PyHost} : Prop :=
  forall input chunk_len (fuel : nat) done used dctx v dctx' t r,
    update_consistent chunk_len (len input) done used v ->
    decompress_update_loop fuel input chunk_len dctx v = Some (dctx', (t, r)) ->
    decoder_calls input chunk_len dctx (input_pos (u_in v))
      (chunk_pos (current_chunk chunk_len (u_chunk v))) t dctx' /\
    (input_remaining (u_in v) <> 0 -> input_size_hint (u_in v) <> 0 ->
     forall v', r = inr v' -> existsb is_decoder_call t = true).

(** ** Contexts, frame information and the module table

    The rest of the module: [create_compression_context],
    [create_decompression_context] and the destructors of their capsules,
    [compress_end], [get_frame_info] and the initialisation of the module.
    The module is taken as built with [WITH_THREAD], so that a context comes
    with a lock, and for Python 3. *)

(** What these functions need of the library and of the build, beyond
    [LZ4FrameLib]. *)
Class LZ4FrameLibContexts {lz4 : LZ4FrameLib} : Type := {
  LZ4F_createCompressionContext : Z -> LZ4F_result LZ4F_cctx;
  LZ4F_compressEnd : LZ4F_cctx -> Z -> LZ4F_cctx * LZ4F_result (list byte);
  (* sizeof(_lz4f_cctx_t), sizeof(_lz4f_dctx_t) *)
  sizeof_cctx_t : Z;
  sizeof_dctx_t : Z;
  (* lz4frame_static.h: the value of the enumerator of that name *)
  LZ4F_errorCodes : string -> Z;
  (* lz4.h, and the VERSION the extension is compiled with *)
  LZ4_VERSION_STRING : string;
  VERSION : string }.

(** What they need of the interpreter, beyond [PyHost]: whether it can make
    a lock, a capsule, the module object, an exception class of that name,
    and whether it can add an attribute of that name to the module. *)
Class PyHostContexts : Type := {
  PyThread_lock_available : bool;
  PyCapsule_available : bool;
  PyModule_Create_available : bool;
  PyErr_NewException_available : string -> bool;
  PyModule_Add_available : string -> bool }.

(** The calls these functions make, with what came of them. *)
Inductive context_event : Type :=
| Ev_binding (ev : event)
| Ev_compressEnd (dstCapacity : Z)
| Ev_PyMem_New (size : Z) (ok : bool)
| Ev_PyMem_Del
| Ev_PyThread_allocate_lock (ok : bool)
| Ev_PyThread_free_lock
| Ev_LZ4F_createCompressionContext (ok : bool)
| Ev_LZ4F_freeCompressionContext (is_null : bool)
| Ev_LZ4F_createDecompressionContext (ok : bool)
| Ev_LZ4F_freeDecompressionContext (is_null : bool)
| Ev_PyCapsule_New (name : string) (ok : bool).

(** [create_*_context] can also raise [RuntimeError]. *)
Inductive context_error : Type :=
| Raised (e : PyErr)
| PyExc_RuntimeError (message : string).

(** A dictionary with string keys, in the order of insertion. *)
Fixpoint PyDict_SetItemString {V : Type} (dict : list (string * V)) (key : string)
    (item : V) : list (string * V) :=
  match dict with
  | [] => [(key, item)]
  | (k, v) :: rest =>
      if String.eqb k key then (k, item) :: rest
      else (k, v) :: PyDict_SetItemString rest key item
  end.

Fixpoint PyDict_GetItemString {V : Type} (dict : list (string * V)) (key : string)
    : option V :=
  match dict with
  | [] => None
  | (k, v) :: rest =>
      if String.eqb k key then Some v else PyDict_GetItemString rest key
  end.

(** The values [get_frame_info] puts in its dictionary. *)
Inductive frame_info_item : Type :=
| Item_long (n : Z)
| Item_bool (b : bool).

(** The attributes the module is given. *)
Inductive module_attribute : Type :=
| Attr_exception (qualified_name : string)
| Attr_string (s : string)
| Attr_int (n : Z).

Section Contexts.

Context {lz4 : LZ4FrameLib} {lz4c : LZ4FrameLibContexts}.
Context {host : PyHost} {hostc : PyHostContexts}.

(** *** Capsule destructors *)

Definition PyCapsule_GetPointer (o : PyObject) (name : string)
    : option capsule_pointer :=
  match o with
  | PyCapsule pointer =>
      if String.eqb (PyCapsule_GetName pointer) name then Some pointer else None
  | _ => None
  end.

Definition _cctx_capsule_destructor (py_ctx : PyObject) : list context_event :=
  match PyCapsule_GetPointer py_ctx COMPRESSION_CAPSULE_NAME with
  | Some _ =>
      (* ignoring errors here since shouldn't throw exception in destructor *)
      [Ev_LZ4F_freeCompressionContext false; Ev_PyThread_free_lock; Ev_PyMem_Del]
  | None => []
  end.

Definition _dctx_capsule_destructor (py_ctx : PyObject) : list context_event :=
  match PyCapsule_GetPointer py_ctx DECOMPRESSION_CAPSULE_NAME with
  | Some _ =>
      [Ev_LZ4F_freeDecompressionContext false; Ev_PyThread_free_lock; Ev_PyMem_Del]
  | None => []
  end.

(** The end of a capsule: the destructor it was made with is called. *)
Definition capsule_dealloc (o : PyObject) : list context_event :=
  match o with
  | PyCapsule (cctx_pointer _) => _cctx_capsule_destructor o
  | PyCapsule (dctx_pointer _) => _dctx_capsule_destructor o
  | _ => []
  end.

(** *** Creating contexts *)

(** [bail] with [cctx] allocated: the context is released (it is still
    [NULL] when there is none), then the lock if there is one, then the
    structure. *)
Definition create_compression_context_bail (ctx_is_null lock_held : bool)
    : list context_event :=
  [Ev_LZ4F_freeCompressionContext ctx_is_null]
  ++ (if lock_held then [Ev_PyThread_free_lock] else [])
  ++ [Ev_PyMem_Del].

Definition _lz4framed_create_compression_context
    : list context_event * (context_error + PyObject) :=
  if negb (PyMem_available sizeof_cctx_t)
  then ([Ev_PyMem_New sizeof_cctx_t false], inl (Raised PyExc_MemoryError))
  else
    let t := [Ev_PyMem_New sizeof_cctx_t true] in
    (* cctx->ctx = NULL; cctx->prefs = prefs_defaults *)
    if negb PyThread_lock_available
    then (t ++ [Ev_PyThread_allocate_lock false]
            ++ create_compression_context_bail true false,
          inl (PyExc_RuntimeError "Failed to allocate lock"))
    else
      let t := t ++ [Ev_PyThread_allocate_lock true] in
      match LZ4F_createCompressionContext LZ4F_VERSION with
      | LZ4F_error err =>
          (t ++ [Ev_LZ4F_createCompressionContext false]
             ++ create_compression_context_bail true true,
           inl (Raised (LZ4FError (LZ4F_getErrorName err) (LZ4F_error_number err))))
      | LZ4F_ok ctx =>
          let t := t ++ [Ev_LZ4F_createCompressionContext true] in
          if negb PyCapsule_available
          then (t ++ [Ev_PyCapsule_New COMPRESSION_CAPSULE_NAME false]
                  ++ create_compression_context_bail false true,
                inl (Raised PyExc_MemoryError))
          else (t ++ [Ev_PyCapsule_New COMPRESSION_CAPSULE_NAME true],
                inr (PyCapsule (cctx_pointer {| cctx_ctx := ctx;
                                                prefs := prefs_defaults |})))
      end.

Definition create_decompression_context_bail (ctx_is_null lock_held : bool)
    : list context_event :=
  [Ev_LZ4F_freeDecompressionContext ctx_is_null]
  ++ (if lock_held then [Ev_PyThread_free_lock] else [])
  ++ [Ev_PyMem_Del].

Definition _lz4framed_create_decompression_context
    : list context_event * (context_error + PyObject) :=
  if negb (PyMem_available sizeof_dctx_t)
  then ([Ev_PyMem_New sizeof_dctx_t false], inl (Raised PyExc_MemoryError))
  else
    let t := [Ev_PyMem_New sizeof_dctx_t true] in
    (* dctx->ctx = NULL *)
    if negb PyThread_lock_available
    then (t ++ [Ev_PyThread_allocate_lock false]
            ++ create_decompression_context_bail true false,
          inl (PyExc_RuntimeError "Failed to allocate lock"))
    else
      let t := t ++ [Ev_PyThread_allocate_lock true] in
      match LZ4F_createDecompressionContext LZ4F_VERSION with
      | LZ4F_error err =>
          (t ++ [Ev_LZ4F_createDecompressionContext false]
             ++ create_decompression_context_bail true true,
           inl (Raised (LZ4FError (LZ4F_getErrorName err) (LZ4F_error_number err))))
      | LZ4F_ok ctx =>
          let t := t ++ [Ev_LZ4F_createDecompressionContext true] in
          if negb PyCapsule_available
          then (t ++ [Ev_PyCapsule_New DECOMPRESSION_CAPSULE_NAME false]
                  ++ create_decompression_context_bail false true,
                inl (Raised PyExc_MemoryError))
          else (t ++ [Ev_PyCapsule_New DECOMPRESSION_CAPSULE_NAME true],
                inr (PyCapsule (dctx_pointer {| dctx_ctx := ctx |})))
      end.

(** *** Ending a frame *)

Definition _lz4framed_compress_end (arg : PyObject)
    : PyObject * (list context_event * (PyErr + PyBytes)) :=
  if negb (PyCapsule_IsValid arg COMPRESSION_CAPSULE_NAME)
  then (arg, ([], inl (PyExc_ValueError "ctx invalid" None)))
  else
    match arg with
    | PyCapsule (cctx_pointer cctx) =>
        match
          (output_len <- BAIL_ON_LZ4_ERROR (Ev_compressBound 0)
                           (LZ4F_compressBound 0 (prefs cctx)) ;;
           output <- PyBytes_FromStringAndSize output_len ;;
           ret (output_len, output))
        with
        | (t, inl e) => (arg, (map Ev_binding t, inl e))
        | (t, inr (output_len, output)) =>
            (* not worth releasing GIL since should have less than a block left
               to write *)
            let '(ctx', r) := LZ4F_compressEnd (cctx_ctx cctx) output_len in
            (PyCapsule (cctx_pointer {| cctx_ctx := ctx'; prefs := prefs cctx |}),
             match r with
             | LZ4F_error err =>
                 (map Ev_binding t ++ [Ev_compressEnd output_len],
                  inl (LZ4FError (LZ4F_getErrorName err) (LZ4F_error_number err)))
             | LZ4F_ok data =>
                 let '(t', r') :=
                   _PyBytes_Resize (PyBytes_store output 0 data) (zlength data) in
                 (map Ev_binding t ++ [Ev_compressEnd output_len]
                    ++ map Ev_binding t', r')
             end)
        end
    | _ => (* excluded by PyCapsule_IsValid *)
        (arg, ([], inl (PyExc_ValueError "ctx invalid" None)))
    end.

(** *** Frame information *)

(** The library is given no input ([NULL], with [input_read = 0]): it
    answers from what the context has read.  The dictionary and its items
    are small allocations taken to succeed. *)
Definition _lz4framed_get_frame_info (arg : PyObject)
    : PyObject * M (list (string * frame_info_item)) :=
  let input_read := 0 in
  if negb (PyCapsule_IsValid arg DECOMPRESSION_CAPSULE_NAME)
  then (arg, raise (PyExc_ValueError "ctx invalid" None))
  else
    match arg with
    | PyCapsule (dctx_pointer dctx) =>
        let '(ctx', r) := LZ4F_getFrameInfo (dctx_ctx dctx) [] input_read in
        (PyCapsule (dctx_pointer {| dctx_ctx := ctx' |}),
         '(frame_info, _, input_hint) <-
            BAIL_ON_LZ4_ERROR (Ev_getFrameInfo input_read) r ;;
         let dict := [] in
         let dict := PyDict_SetItemString dict "input_hint" (Item_long input_hint) in
         let dict := PyDict_SetItemString dict "length"
                       (Item_long (known_contentSize frame_info)) in
         let dict := PyDict_SetItemString dict "block_size_id"
                       (Item_long (blockSizeID frame_info)) in
         let dict := PyDict_SetItemString dict "block_mode_linked"
                       (Item_bool match blockMode frame_info with
                                  | LZ4F_blockLinked => true
                                  | LZ4F_blockIndependent => false
                                  end) in
         let dict := PyDict_SetItemString dict "checksum"
                       (Item_bool match contentChecksumFlag frame_info with
                                  | LZ4F_contentChecksumEnabled => true
                                  | LZ4F_noContentChecksum => false
                                  end) in
         ret dict)
    | _ => (* excluded by PyCapsule_IsValid *)
        (arg, raise (PyExc_ValueError "ctx invalid" None))
    end.

(** *** The module *)

(** The module state is there once the module is ([GETSTATE] does not
    fail). *)

(** [PyModule_AddIntMacro(module, LZ4F_ERROR_...)]: the attribute has the
    name of the enumerator. *)
Definition error_code_macro (name : string) : string * module_attribute :=
  (name, Attr_int (LZ4F_errorCodes name)).

(** What the [||] chain adds to the module, in its order. *)
Definition module_additions : list (string * module_attribute) :=
  [("Lz4FramedError", Attr_exception "_lz4framed.Lz4FramedError");
   ("Lz4FramedNoDataError", Attr_exception "_lz4framed.Lz4FramedNoDataError");
   ("__version__", Attr_string VERSION);
   ("LZ4_VERSION", Attr_string LZ4_VERSION_STRING);
   ("LZ4F_VERSION", Attr_int LZ4F_VERSION);
   error_code_macro "LZ4F_ERROR_GENERIC";
   error_code_macro "LZ4F_ERROR_maxBlockSize_invalid";
   error_code_macro "LZ4F_ERROR_blockMode_invalid";
   error_code_macro "LZ4F_ERROR_contentChecksumFlag_invalid";
   error_code_macro "LZ4F_ERROR_compressionLevel_invalid";
   error_code_macro "LZ4F_ERROR_headerVersion_wrong";
   error_code_macro "LZ4F_ERROR_blockChecksum_invalid";
   error_code_macro "LZ4F_ERROR_reservedFlag_set";
   error_code_macro "LZ4F_ERROR_allocation_failed";
   error_code_macro "LZ4F_ERROR_srcSize_tooLarge";
   error_code_macro "LZ4F_ERROR_dstMaxSize_tooSmall";
   error_code_macro "LZ4F_ERROR_frameHeader_incomplete";
   error_code_macro "LZ4F_ERROR_frameType_unknown";
   error_code_macro "LZ4F_ERROR_frameSize_wrong";
   error_code_macro "LZ4F_ERROR_srcPtr_wrong";
   error_code_macro "LZ4F_ERROR_decompressionFailed";
   error_code_macro "LZ4F_ERROR_headerChecksum_invalid";
   error_code_macro "LZ4F_ERROR_contentChecksum_invalid";
   error_code_macro "LZ4F_ERROR_frameDecoding_alreadyStarted";
   ("LZ4F_BLOCKSIZE_DEFAULT", Attr_int LZ4F_default);
   ("LZ4F_BLOCKSIZE_MAX64KB", Attr_int LZ4F_max64KB);
   ("LZ4F_BLOCKSIZE_MAX256KB", Attr_int LZ4F_max256KB);
   ("LZ4F_BLOCKSIZE_MAX1MB", Attr_int LZ4F_max1MB);
   ("LZ4F_BLOCKSIZE_MAX4MB", Attr_int LZ4F_max4MB);
   ("LZ4F_COMPRESSION_MIN", Attr_int LZ4_COMPRESSION_MIN);
   ("LZ4F_COMPRESSION_MIN_HC", Attr_int LZ4_COMPRESSION_MIN_HC);
   ("LZ4F_COMPRESSION_MAX", Attr_int LZ4_COMPRESSION_MAX)].

(** The chain stops at the first addition that fails. *)
Fixpoint add_to_module (additions : list (string * module_attribute))
    (module : list (string * module_attribute))
    : option (list (string * module_attribute)) :=
  match additions with
  | [] => Some module
  | (name, value) :: rest =>
      if PyModule_Add_available name
      then add_to_module rest (PyDict_SetItemString module name value)
      else None
  end.

(** [PyInit__lz4framed]: the attributes of the module it returns, or [None]
    when it returns [NULL]. *)
Definition PyInit__lz4framed : option (list (string * module_attribute)) :=
  if negb PyModule_Create_available then None
  else if negb (PyErr_NewException_available "_lz4framed.Error") then None
  else if negb (PyErr_NewException_available "_lz4framed.Lz4FramedError") then None
  else if negb (PyErr_NewException_available "_lz4framed.Lz4FramedNoDataError")
  then None
  else add_to_module module_additions [].

End Contexts.

(** *** The run-length codec, for these functions *)

Module RleContexts.

Definition createCompressionContext (version : Z) : LZ4F_result RleCodec.cctx :=
  if version =? 100 then LZ4F_ok {| RleCodec.c_prefs := prefs_defaults |}
  else LZ4F_error RleCodec.ERROR_GENERIC.

(** The end mark.  A content checksum would need the data, which this
    context does not keep. *)
Definition compressEnd (c : RleCodec.cctx) (dstCapacity : Z)
    : RleCodec.cctx * LZ4F_result (list byte) :=
  match contentChecksumFlag (frameInfo (RleCodec.c_prefs c)) with
  | LZ4F_contentChecksumEnabled => (c, LZ4F_error RleCodec.ERROR_GENERIC)
  | LZ4F_noContentChecksum =>
      if dstCapacity <? 4 then (c, LZ4F_error RleCodec.ERROR_dstMaxSize_tooSmall)
      else (c, LZ4F_ok (RleCodec.le_bytes 4 0))
  end.

Definition error_names : list string :=
  ["LZ4F_OK_NoError"; "LZ4F_ERROR_GENERIC"; "LZ4F_ERROR_maxBlockSize_invalid";
   "LZ4F_ERROR_blockMode_invalid"; "LZ4F_ERROR_contentChecksumFlag_invalid";
   "LZ4F_ERROR_compressionLevel_invalid"; "LZ4F_ERROR_headerVersion_wrong";
   "LZ4F_ERROR_blockChecksum_invalid"; "LZ4F_ERROR_reservedFlag_set";
   "LZ4F_ERROR_allocation_failed"; "LZ4F_ERROR_srcSize_tooLarge";
   "LZ4F_ERROR_dstMaxSize_tooSmall"; "LZ4F_ERROR_frameHeader_incomplete";
   "LZ4F_ERROR_frameType_unknown"; "LZ4F_ERROR_frameSize_wrong";
   "LZ4F_ERROR_srcPtr_wrong"; "LZ4F_ERROR_decompressionFailed";
   "LZ4F_ERROR_headerChecksum_invalid"; "LZ4F_ERROR_contentChecksum_invalid";
   "LZ4F_ERROR_frameDecoding_alreadyStarted"].

Fixpoint index_of (name : string) (names : list string) (i : Z) : Z :=
  match names with
  | [] => i
  | n :: rest => if String.eqb n name then i else index_of name rest (i + 1)
  end.

Definition errorCodes (name : string) : Z := index_of name error_names 0.

#[export] Instance lib : @LZ4FrameLibContexts RleCodec.lib :=
  @Build_LZ4FrameLibContexts RleCodec.lib
    createCompressionContext compressEnd
    (* sizeof_cctx_t, sizeof_dctx_t *) 72 16
    errorCodes
    (* LZ4_VERSION_STRING, VERSION *) "1.8.0" "0.14.0".

End RleContexts.

(** An interpreter that has what these functions ask for, and one that cannot
    make capsules. *)
Definition hostc_default : PyHostContexts :=
  {| PyThread_lock_available := true;
     PyCapsule_available := true;
     PyModule_Create_available := true;
     PyErr_NewException_available := fun _ => true;
     PyModule_Add_available := fun _ => true |}.

Definition hostc_no_capsule : PyHostContexts :=
  {| PyThread_lock_available := true;
     PyCapsule_available := false;
     PyModule_Create_available := true;
     PyErr_NewException_available := fun _ => true;
     PyModule_Add_available := fun _ => true |}.

(** *** Resources *)

(** What a trace leaves allocated: structures, locks and library contexts. *)
Record holdings : Type := mkHoldings {
  held_structs : Z;
  held_locks : Z;
  held_cctx : Z;
  held_dctx : Z }.

Definition nothing_held : holdings :=
  {| held_structs := 0; held_locks := 0; held_cctx := 0; held_dctx := 0 |}.

Definition account (h : holdings) (ev : context_event) : holdings :=
  match ev with
  | Ev_PyMem_New _ true =>
      {| held_structs := held_structs h + 1; held_locks := held_locks h;
         held_cctx := held_cctx h; held_dctx := held_dctx h |}
  | Ev_PyMem_Del =>
      {| held_structs := held_structs h - 1; held_locks := held_locks h;
         held_cctx := held_cctx h; held_dctx := held_dctx h |}
  | Ev_PyThread_allocate_lock true =>
      {| held_structs := held_structs h; held_locks := held_locks h + 1;
         held_cctx := held_cctx h; held_dctx := held_dctx h |}
  | Ev_PyThread_free_lock =>
      {| held_structs := held_structs h; held_locks := held_locks h - 1;
         held_cctx := held_cctx h; held_dctx := held_dctx h |}
  | Ev_LZ4F_createCompressionContext true =>
      {| held_structs := held_structs h; held_locks := held_locks h;
         held_cctx := held_cctx h + 1; held_dctx := held_dctx h |}
  | Ev_LZ4F_freeCompressionContext false =>
      {| held_structs := held_structs h; held_locks := held_locks h;
         held_cctx := held_cctx h - 1; held_dctx := held_dctx h |}
  | Ev_LZ4F_createDecompressionContext true =>
      {| held_structs := held_structs h; held_locks := held_locks h;
         held_cctx := held_cctx h; held_dctx := held_dctx h + 1 |}
  | Ev_LZ4F_freeDecompressionContext false =>
      {| held_structs := held_structs h; held_locks := held_locks h;
         held_cctx := held_cctx h; held_dctx := held_dctx h - 1 |}
  | _ => h
  end.

Definition held (t : list context_event) : holdings := fold_left account t nothing_held.

(** ** Vocabulary of the further properties *)

(** A call of the decoder that is given between 1 and [room] bytes to write
    to and between 1 and [total] bytes to read, and no options. *)
Definition call_within (room total : Z) (ev : event) : Prop :=
  match ev with
  | Ev_decompress dstSize srcSize opt _ =>
      0 < dstSize <= room /\ 0 < srcSize <= total /\ opt = None
  | _ => True
  end.

(** bytesobject.c, [PyBytesObject_SIZE]: what a bytes object takes besides its
    content, on LP64.  The interpreter allocates no bytes object of more than
    [PY_SSIZE_T_MAX - PyBytesObject_SIZE] bytes. *)
Definition PyBytesObject_SIZE : Z := 33.

(** The compression contexts a program can come to hold: one that has been
    created, and what [compress_begin], [compress_update] and [compress_end]
    leave of one. *)
Inductive compression_context_reachable
    {lz4 : LZ4FrameLib} {lz4c : LZ4FrameLibContexts}
    {host : PyHost} {hostc : PyHostContexts} : PyObject -> Prop :=
| reachable_created t c :
    _lz4framed_create_compression_context = (t, inr c) ->
    compression_context_reachable c
| reachable_begin c
    (block_id block_mode_linked checksum autoflush level block_checksum : int) :
    compression_context_reachable c ->
    compression_context_reachable
      (fst (_lz4framed_compress_begin c block_id block_mode_linked checksum
              autoflush level block_checksum))
| reachable_update c input :
    compression_context_reachable c ->
    compression_context_reachable (fst (_lz4framed_compress_update c input))
| reachable_end c :
    compression_context_reachable c ->
    compression_context_reachable (fst (_lz4framed_compress_end c)).

(** The preferences [compress_begin] stores in the context. *)
Definition compress_begin_prefs (old : LZ4F_preferences_t)
    (block_id block_mode_linked checksum autoflush level block_checksum : int)
    : LZ4F_preferences_t :=
  make_prefs old (contentSize (frameInfo old)) block_id block_mode_linked checksum
             level block_checksum (if int_val autoflush =? 0 then 0 else 1).

(** *** More sample data *)

(** [hello_frame] followed by three bytes that do not belong to it. *)
Definition hello_frame_and_more : list byte := hello_frame ++ [x00; x01; x02].

(** Not a frame. *)
Definition not_a_frame : list byte := bytes_of_string "hello world".

(** Frames whose headers declare 2^63 and 2^31 bytes of content, and hold
    one. *)
Definition frame_declaring (n : Z) : list byte :=
  RleCodec.magic ++ [x00] ++ RleCodec.le_bytes 8 n
  ++ RleCodec.le_bytes 4 1 ++ [x61] ++ RleCodec.le_bytes 4 0.

Definition int_5 : int := mk_int 5 eq_refl.
Definition int_65536 : int := mk_int 65536 eq_refl.

(** A decompression context that has read the header of [hello_frame]. *)
Definition header_read_dctx : @_lz4f_dctx_t RleCodec.lib :=
  @mk_dctx RleCodec.lib
    (fst (RleCodec.getFrameInfo RleCodec.fresh hello_frame (zlength hello_frame))).

(** ** Properties *)

Section Properties.

Context {lz4 : LZ4FrameLib} {host : PyHost}.

#[local] Arguments size_t_wrap : simpl never.
#[local] Arguments size_t_add : simpl never.
#[local] Arguments size_t_sub : simpl never.
#[local] Arguments size_t_mul : simpl never.
#[local] Arguments Py_ssize_t_of_size_t : simpl never.
#[local] Arguments known_contentSize : simpl never.
#[local] Arguments input_window : simpl never.
#[local] Arguments LZ4F_error_number : simpl never.
#[local] Arguments Z.mul : simpl never.
#[local] Arguments Z.add : simpl never.
#[local] Arguments Z.sub : simpl never.

(** *** Machine integers *)

Lemma int_bounds (i : int) : INT_MIN <= i <= INT_MAX.
Proof.
  destruct i as [z Hz]; simpl.
  apply andb_true_iff in Hz. destruct Hz as [H1 H2].
  apply Z.leb_le in H1. apply Z.leb_le in H2. lia.
Qed.

Lemma size_t_wrap_small (z : Z) : 0 <= z < SIZE_T_MODULUS -> size_t_wrap z = z.
Proof. intros H. unfold size_t_wrap. apply Z.mod_small. exact H. Qed.

Lemma size_t_wrap_range (z : Z) : 0 <= size_t_wrap z < SIZE_T_MODULUS.
Proof. unfold size_t_wrap, SIZE_T_MODULUS. apply Z.mod_pos_bound. lia. Qed.

Lemma Py_ssize_t_nonneg (z : Z) :
  0 <= z < SIZE_T_MODULUS ->
  (Py_ssize_t_of_size_t z <? 0) = false -> z <= PY_SSIZE_T_MAX.
Proof.
  intros Hz H. unfold Py_ssize_t_of_size_t in H.
  rewrite (size_t_wrap_small z Hz) in H.
  destruct (Z.leb_spec z PY_SSIZE_T_MAX) as [Hle | Hgt]; [exact Hle |].
  apply Z.ltb_ge in H. unfold SIZE_T_MODULUS in *. lia.
Qed.

Lemma Py_ssize_t_of_small (z : Z) :
  0 <= z <= PY_SSIZE_T_MAX -> (Py_ssize_t_of_size_t z <? 0) = false.
Proof.
  intros Hz. unfold Py_ssize_t_of_size_t.
  rewrite size_t_wrap_small by (unfold PY_SSIZE_T_MAX, SIZE_T_MODULUS in *; lia).
  destruct (Z.leb_spec z PY_SSIZE_T_MAX); [apply Z.ltb_ge; lia | lia].
Qed.

Lemma MAX_is_max (x y : Z) : MAX x y = Z.max x y.
Proof. unfold MAX. destruct (Z.geb_spec x y); lia. Qed.

Lemma zlength_nonneg {A : Type} (l : list A) : 0 <= zlength l.
Proof. unfold zlength. lia. Qed.

Lemma zlength_app {A : Type} (l1 l2 : list A) :
  zlength (l1 ++ l2) = zlength l1 + zlength l2.
Proof. unfold zlength. rewrite length_app. lia. Qed.

Lemma zlength_cons {A : Type} (x : A) (l : list A) : zlength (x :: l) = zlength l + 1.
Proof. unfold zlength. simpl. lia. Qed.

Lemma firstn_zlength {A : Type} (l : list A) : firstn (Z.to_nat (zlength l)) l = l.
Proof. unfold zlength. rewrite Nat2Z.id. apply firstn_all. Qed.

(** *** Block sizes (C10) *)

(** C10.  With the identifiers of lz4frame.h, [get_block_size] answers 65536
    for the default and the 64KB identifier, 262144 for 256KB, 1048576 for 1MB
    and 4194304 for 4MB; any other identifier raises [ValueError]. *)
Theorem get_block_size_table (id : int) :
  lz4frame_h_block_ids ->
  (int_val id = LZ4F_default \/ int_val id = LZ4F_max64KB ->
   _lz4framed_get_block_size id = Some (ret 65536)) /\
  (int_val id = LZ4F_max256KB -> _lz4framed_get_block_size id = Some (ret 262144)) /\
  (int_val id = LZ4F_max1MB -> _lz4framed_get_block_size id = Some (ret 1048576)) /\
  (int_val id = LZ4F_max4MB -> _lz4framed_get_block_size id = Some (ret 4194304)) /\
  (int_val id <> LZ4F_default -> int_val id <> LZ4F_max64KB ->
   int_val id <> LZ4F_max256KB -> int_val id <> LZ4F_max1MB ->
   int_val id <> LZ4F_max4MB ->
   _lz4framed_get_block_size id =
     Some (raise (PyExc_ValueError "id (%d) invalid" (Some (int_val id))))).
Proof.
  intros (Hd & H64 & H256 & H1 & H4).
  unfold _lz4framed_get_block_size, _lz4f_block_size_from_id,
    _valid_lz4f_block_size_id.
  rewrite Hd, H64, H256, H1, H4.
  repeat split.
  - intros [E | E]; rewrite E; reflexivity.
  - intros E; rewrite E; reflexivity.
  - intros E; rewrite E; reflexivity.
  - intros E; rewrite E; reflexivity.
  - intros N0 N4 N5 N6 N7.
    apply Z.eqb_neq in N0, N4, N5, N6, N7.
    rewrite N0, N4, N5, N6, N7. reflexivity.
Qed.

(** *** Argument checks (C2, C3, C8) *)

(** C2.  On a zero-length buffer, [compress], [decompress],
    [compress_update] and [decompress_update] raise [LZ4FNoDataError], the
    exception kept for that case, and no codec call is made: the traces are
    empty, but for [decompress] releasing the context it never created. *)
Theorem empty_input_raises_no_data
    (block_id block_mode_linked checksum level block_checksum buffer_size : int)
    (cctx : _lz4f_cctx_t) (dctx : _lz4f_dctx_t) (fuel : nat)
    (chunk_len : option int) :
  _lz4framed_compress (bytes_view []) block_id block_mode_linked checksum level
                      block_checksum
    = ([], inl LZ4FNoDataError) /\
  _lz4framed_decompress (bytes_view []) buffer_size
    = Some ([Ev_freeDecompressionContext true], inl LZ4FNoDataError) /\
  _lz4framed_compress_update (PyCapsule (cctx_pointer cctx)) (bytes_view [])
    = (PyCapsule (cctx_pointer cctx), ([], inl LZ4FNoDataError)) /\
  _lz4framed_decompress_update fuel (PyCapsule (dctx_pointer dctx)) (bytes_view [])
                               chunk_len
    = Some (PyCapsule (dctx_pointer dctx), ([], inl LZ4FNoDataError)) /\
  existsb is_codec_call [Ev_freeDecompressionContext true] = false /\
  (forall name code, LZ4FNoDataError <> LZ4FError name code) /\
  (forall format arg, LZ4FNoDataError <> PyExc_ValueError format arg) /\
  LZ4FNoDataError <> PyExc_MemoryError /\
  LZ4FNoDataError <> PyExc_SystemError /\
  (forall message, LZ4FNoDataError <> PyExc_RuntimeWarning message).
Proof.
  repeat split; discriminate.
Qed.

(** C3.  For [compress] on a non-empty buffer and for [compress_begin] on a
    compression context: a level above [LZ4_COMPRESSION_MAX] raises
    [ValueError] with an empty trace (the level's own error when the block size
    identifier is valid, the identifier's otherwise); a level equal to
    [LZ4_COMPRESSION_MAX], with a valid identifier, passes the checks, so that
    the next thing done is the first call after them. *)
Theorem compression_level_boundary
    (x : byte) (b : list byte) (cctx : _lz4f_cctx_t)
    (block_id block_mode_linked checksum autoflush level block_checksum : int) :
  (int_val level > LZ4_COMPRESSION_MAX ->
   _lz4framed_compress (bytes_view (x :: b)) block_id block_mode_linked checksum
                       level block_checksum
     = ([], inl (if _valid_lz4f_block_size_id block_id
                 then PyExc_ValueError "level (%d) invalid" (Some (int_val level))
                 else PyExc_ValueError "block_size_id (%d) invalid"
                                       (Some (int_val block_id)))) /\
   _lz4framed_compress_begin (PyCapsule (cctx_pointer cctx)) block_id
                             block_mode_linked checksum autoflush level
                             block_checksum
     = (PyCapsule (cctx_pointer cctx),
        ([], inl (if _valid_lz4f_block_size_id block_id
                  then PyExc_ValueError "level (%d) invalid" (Some (int_val level))
                  else PyExc_ValueError "block_size_id (%d) invalid"
                                        (Some (int_val block_id)))))) /\
  (int_val level = LZ4_COMPRESSION_MAX ->
   _valid_lz4f_block_size_id block_id = true ->
   (exists t r,
      _lz4framed_compress (bytes_view (x :: b)) block_id block_mode_linked
                          checksum level block_checksum
      = (Ev_compressFrameBound (len (bytes_view (x :: b))) :: t, r)) /\
   (exists c t r,
      _lz4framed_compress_begin (PyCapsule (cctx_pointer cctx)) block_id
                                block_mode_linked checksum autoflush level
                                block_checksum
      = (c, (Ev_PyBytes_FromStringAndSize LZ4F_HEADER_SIZE_MAX :: t, r)))).
Proof.
  assert (Hlen : (len (bytes_view (x :: b)) <=? 0) = false).
  { apply Z.leb_gt. unfold len. simpl buf. rewrite zlength_cons.
    pose proof (zlength_nonneg b). lia. }
  split.
  - intros Hgt. apply Z.gt_lt in Hgt. apply Z.gtb_lt in Hgt.
    unfold _lz4framed_compress, _lz4framed_compress_begin.
    rewrite Hlen. simpl PyBuffer_IsContiguous. simpl PyCapsule_IsValid.
    destruct (_valid_lz4f_block_size_id block_id); simpl; [| split; reflexivity].
    rewrite Hgt. split; reflexivity.
  - intros Heq Hvalid.
    assert (Hle : (int_val level >? LZ4_COMPRESSION_MAX) = false).
    { rewrite Heq, Z.gtb_ltb. apply Z.ltb_irrefl. }
    unfold _lz4framed_compress, _lz4framed_compress_begin.
    rewrite Hlen, Hvalid, Hle. simpl PyBuffer_IsContiguous. simpl PyCapsule_IsValid.
    cbv iota beta. simpl negb. cbv iota. split.
    + unfold BAIL_ON_LZ4_ERROR at 1.
      destruct (LZ4F_compressFrameBound _ _) as [bound | err].
      * simpl. destruct (bind _ _) as [t r]. eexists _, _. reflexivity.
      * simpl. eexists _, _. reflexivity.
    + unfold PyBytes_FromStringAndSize.
      destruct (Py_ssize_t_of_size_t LZ4F_HEADER_SIZE_MAX <? 0).
      * simpl. eexists _, _, _. reflexivity.
      * destruct (PyMem_available LZ4F_HEADER_SIZE_MAX).
        -- simpl. destruct (LZ4F_compressBegin _ _ _) as [c' r'].
           destruct r' as [hdr | err]; simpl.
           ++ destruct (_PyBytes_Resize _ _) as [t r]. simpl.
              eexists _, _, _. reflexivity.
           ++ eexists _, _, _. reflexivity.
        -- simpl. eexists _, _, _. reflexivity.
Qed.

(** [chunk_len] as the loop sees it when the caller passes [-1]. *)
Lemma parse_chunk_len_minus_one :
  parse_chunk_len (Some (mk_int (-1) eq_refl)) = 4294967295.
Proof. reflexivity. Qed.

Lemma parse_chunk_len_negative (i : int) :
  int_val i < 0 -> 0 < parse_chunk_len (Some i).
Proof.
  intros Hneg. pose proof (int_bounds i) as Hb.
  unfold parse_chunk_len, store_int_in_size_t, INT_MODULUS.
  change (Z.shiftl (Z.shiftr 65536 32) 32) with 0. rewrite Z.lor_0_l.
  unfold INT_MIN, INT_MAX in Hb.
  replace (int_val i mod 2 ^ 32) with (int_val i + 2 ^ 32); [lia |].
  apply Z.mod_unique with (q := -1); lia.
Qed.

(** C8 (what the code does).  A zero [chunk_len] is refused with
    [ValueError]; a negative one is not: stored through the address of a
    [size_t] it reads as a large positive size, the check [chunk_len <= 0]
    lets it pass, and the call goes on to allocate a chunk of that size.
    With [-1] that is a chunk of 4294967295 bytes. *)
Theorem decompress_update_negative_chunk_len
    (fuel : nat) (dctx : _lz4f_dctx_t) (x : byte) (b : list byte) :
  _lz4framed_decompress_update fuel (PyCapsule (dctx_pointer dctx))
      (bytes_view (x :: b)) (Some (mk_int 0 eq_refl))
    = Some (PyCapsule (dctx_pointer dctx),
            ([], inl (PyExc_ValueError "chunk_len invalid" None))) /\
  (forall i : int, int_val i < 0 ->
     _lz4framed_decompress_update fuel (PyCapsule (dctx_pointer dctx))
         (bytes_view (x :: b)) (Some i)
     <> Some (PyCapsule (dctx_pointer dctx),
              ([], inl (PyExc_ValueError "chunk_len invalid" None)))) /\
  (PyMem_available 4294967295 = false ->
   _lz4framed_decompress_update fuel (PyCapsule (dctx_pointer dctx))
       (bytes_view (x :: b)) (Some (mk_int (-1) eq_refl))
     = Some (PyCapsule (dctx_pointer dctx),
             ([Ev_PyBytes_FromStringAndSize 4294967295], inl PyExc_MemoryError))).
Proof.
  assert (Hlen : (len (bytes_view (x :: b)) <=? 0) = false).
  { apply Z.leb_gt. unfold len. simpl buf. rewrite zlength_cons.
    pose proof (zlength_nonneg b). lia. }
  split; [| split].
  - unfold _lz4framed_decompress_update. rewrite Hlen. reflexivity.
  - intros i Hneg. pose proof (parse_chunk_len_negative i Hneg) as Hpos.
    apply Z.leb_gt in Hpos.
    unfold _lz4framed_decompress_update. rewrite Hlen, Hpos.
    simpl PyCapsule_IsValid. simpl PyBuffer_IsContiguous. cbv iota beta.
    simpl negb. cbv iota.
    unfold PyBytes_FromStringAndSize.
    destruct (Py_ssize_t_of_size_t _ <? 0); [simpl; intros E; discriminate E |].
    destruct (PyMem_available _); [| simpl; intros E; discriminate E].
    simpl. destruct (decompress_update_loop _ _ _ _ _) as [[c' [t r]] |].
    + destruct r as [e | v]; simpl.
      * intros E. discriminate E.
      * destruct (decompress_update_finish _ _) as [t' r'].
        destruct (t ++ t'); intros E; discriminate E.
    + intros E. discriminate E.
  - intros Hmem.
    unfold _lz4framed_decompress_update. rewrite Hlen.
    rewrite parse_chunk_len_minus_one.
    simpl PyCapsule_IsValid. simpl PyBuffer_IsContiguous. cbv iota beta.
    simpl negb. cbv iota.
    change (4294967295 <=? 0) with false. cbv iota.
    unfold PyBytes_FromStringAndSize.
    change (Py_ssize_t_of_size_t 4294967295 <? 0) with false.
    rewrite Hmem. reflexivity.
Qed.

(** *** The interpreter's byte objects *)

Lemma PyBytes_FromStringAndSize_ok (size : Z) (t : list event) (o : PyBytes) :
  PyBytes_FromStringAndSize size = (t, inr o) ->
  t = [Ev_PyBytes_FromStringAndSize size] /\
  (Py_ssize_t_of_size_t size <? 0) = false /\
  PyMem_available size = true /\
  o = {| ob_size := size; ob_sval := [] |}.
Proof.
  unfold PyBytes_FromStringAndSize. simpl.
  destruct (Py_ssize_t_of_size_t size <? 0); [discriminate |].
  destruct (PyMem_available size); [| discriminate].
  simpl. intros E. inversion E. auto.
Qed.

Lemma PyBytes_FromStringAndSize_trace (size : Z) :
  fst (PyBytes_FromStringAndSize size) = [Ev_PyBytes_FromStringAndSize size].
Proof.
  unfold PyBytes_FromStringAndSize. simpl.
  destruct (Py_ssize_t_of_size_t size <? 0); [reflexivity |].
  destruct (PyMem_available size); reflexivity.
Qed.

Lemma PyBytes_Resize_trace (v : PyBytes) (newsize : Z) :
  fst (_PyBytes_Resize v newsize) = [Ev_PyBytes_Resize (ob_size v) newsize].
Proof.
  unfold _PyBytes_Resize. simpl.
  destruct (Py_ssize_t_of_size_t newsize <? 0); [reflexivity |].
  destruct (ob_size v =? newsize); [reflexivity |].
  destruct (PyMem_available newsize); reflexivity.
Qed.

Lemma PyBytes_Resize_ok (v : PyBytes) (newsize : Z) (t : list event) (v' : PyBytes) :
  _PyBytes_Resize v newsize = (t, inr v') ->
  t = [Ev_PyBytes_Resize (ob_size v) newsize] /\
  (Py_ssize_t_of_size_t newsize <? 0) = false /\
  ob_size v' = newsize /\
  (v' = v \/ ob_sval v' = firstn (Z.to_nat newsize) (ob_sval v)).
Proof.
  unfold _PyBytes_Resize. simpl.
  destruct (Py_ssize_t_of_size_t newsize <? 0); [discriminate |].
  destruct (Z.eqb_spec (ob_size v) newsize) as [Heq | Hne].
  - simpl. intros E. inversion E. subst. auto.
  - destruct (PyMem_available newsize); [| discriminate].
    simpl. intros E. inversion E. simpl. auto.
Qed.

(** A resize to the size the object has, or to one the allocator grants,
    succeeds and keeps the bytes that fit. *)
Lemma PyBytes_Resize_succeeds (v : PyBytes) (newsize : Z) :
  0 <= newsize <= PY_SSIZE_T_MAX ->
  zlength (ob_sval v) <= newsize ->
  ob_size v = newsize \/ PyMem_available newsize = true ->
  _PyBytes_Resize v newsize =
    ([Ev_PyBytes_Resize (ob_size v) newsize],
     inr {| ob_size := newsize; ob_sval := ob_sval v |}).
Proof.
  intros Hr Hfit Hmem. unfold _PyBytes_Resize. simpl.
  rewrite (Py_ssize_t_of_small newsize Hr).
  assert (Hkeep : firstn (Z.to_nat newsize) (ob_sval v) = ob_sval v).
  { apply firstn_all2. unfold zlength in Hfit. lia. }
  destruct (Z.eqb_spec (ob_size v) newsize) as [Heq | Hne].
  - simpl. destruct v as [sz sv]. simpl in *. subst. reflexivity.
  - destruct Hmem as [Heq | Hmem]; [contradiction |].
    rewrite Hmem, Hkeep. reflexivity.
Qed.

(** *** The loop of [decompress] *)

(** What one turn does, once the library has answered. *)
Lemma decompress_iter_error input frame_info opt v ctx' err :
  LZ4F_decompress (ctx v) (output_written (d_out v))
    (input_window input (input_pos (d_in v)) (input_read (d_in v)))
    (input_read (d_in v)) (Some opt) = (ctx', LZ4F_error err) ->
  decompress_iter input frame_info opt v =
    ([Ev_decompress (output_written (d_out v)) (input_read (d_in v)) (Some opt)
        (LZ4F_error err)],
     inl (LZ4FError (LZ4F_getErrorName err) (LZ4F_error_number err))).
Proof.
  intros E. unfold decompress_iter. rewrite E. reflexivity.
Qed.

Lemma decompress_iter_break input frame_info opt v ctx' rep :
  LZ4F_decompress (ctx v) (output_written (d_out v))
    (input_window input (input_pos (d_in v)) (input_read (d_in v)))
    (input_read (d_in v)) (Some opt) = (ctx', LZ4F_ok rep) ->
  next_hint rep = 0 ->
  exists v',
    decompress_iter input frame_info opt v =
      ([Ev_decompress (output_written (d_out v)) (input_read (d_in v)) (Some opt)
          (LZ4F_ok rep)], inr (Break v')) /\
    output (d_out v') =
      PyBytes_store (output (d_out v)) (output_pos (d_out v)) (dst_written rep) /\
    output_len (d_out v') =
      size_t_sub (output_len (d_out v))
        (size_t_sub (output_remaining (d_out v)) (zlength (dst_written rep))).
Proof.
  intros E Hh. unfold decompress_iter. rewrite E. simpl. rewrite Hh. simpl.
  eexists. split; [reflexivity |]. simpl. auto.
Qed.

Lemma decompress_iter_incomplete input frame_info opt v ctx' rep :
  LZ4F_decompress (ctx v) (output_written (d_out v))
    (input_window input (input_pos (d_in v)) (input_read (d_in v)))
    (input_read (d_in v)) (Some opt) = (ctx', LZ4F_ok rep) ->
  next_hint rep <> 0 ->
  size_t_sub (input_remaining (d_in v)) (src_consumed rep) = 0 ->
  decompress_iter input frame_info opt v =
    ([Ev_decompress (output_written (d_out v)) (input_read (d_in v)) (Some opt)
        (LZ4F_ok rep)],
     inl (PyExc_ValueError "frame incomplete" None)).
Proof.
  intros E Hh Hr. unfold decompress_iter. rewrite E. simpl.
  apply Z.eqb_neq in Hh. rewrite Hh, Hr. reflexivity.
Qed.

(** Going round the loop again means that the output has been doubled, and
    that the interpreter has accepted the new size. *)
Lemma decompress_iter_continue input frame_info opt v t v' :
  decompress_iter input frame_info opt v = (t, inr (Continue v')) ->
  0 < output_len (d_out v) <= PY_SSIZE_T_MAX ->
  output_len (d_out v') = 2 * output_len (d_out v) /\
  output_len (d_out v') <= PY_SSIZE_T_MAX.
Proof.
  intros E Hlen. unfold decompress_iter in E.
  destruct (LZ4F_decompress _ _ _ _ _) as [ctx' [rep | err]]; simpl in E;
    [| discriminate].
  destruct (next_hint rep =? 0); [simpl in E; inversion E |].
  destruct (size_t_sub (input_remaining (d_in v)) (src_consumed rep) =? 0);
    [simpl in E; discriminate |].
  simpl negb in E. cbv iota in E.
  assert (Hdouble : size_t_mul (output_len (d_out v)) 2 = 2 * output_len (d_out v)).
  { unfold size_t_mul. rewrite size_t_wrap_small; [lia |].
    unfold PY_SSIZE_T_MAX, SIZE_T_MODULUS in *. lia. }
  rewrite Hdouble in E.
  match type of E with
  | context [_PyBytes_Resize ?o ?n] =>
      destruct (_PyBytes_Resize o n) as [tr [e | o2]] eqn:ER
  end.
  - destruct (negb (known_contentSize frame_info =? 0));
      [destruct (negb (PyErr_WarnEx _ =? 0)) |]; simpl in E; discriminate.
  - apply PyBytes_Resize_ok in ER. destruct ER as (_ & Hss & _ & _).
    assert (Hv' : output_len (d_out v') = 2 * output_len (d_out v)).
    { destruct (negb (known_contentSize frame_info =? 0));
        [destruct (negb (PyErr_WarnEx _ =? 0)) |]; simpl in E;
        try discriminate; inversion E; reflexivity. }
    split; [exact Hv' |]. rewrite Hv'.
    apply Py_ssize_t_nonneg; [| exact Hss].
    unfold PY_SSIZE_T_MAX, SIZE_T_MODULUS in *. lia.
Qed.

(** The fuel is enough: the output starts with at least one byte, doubles at
    every turn and may not exceed [PY_SSIZE_T_MAX]. *)
Lemma decompress_loop_fuel input frame_info opt :
  forall (fuel : nat) (v : decompress_vars),
    0 < output_len (d_out v) <= PY_SSIZE_T_MAX ->
    2 ^ 63 <= output_len (d_out v) * 2 ^ Z.of_nat fuel ->
    decompress_loop fuel input frame_info opt v <> None.
Proof.
  induction fuel as [| fuel IH]; intros v Hlen Hfuel.
  - simpl in Hfuel. unfold PY_SSIZE_T_MAX in Hlen. lia.
  - simpl. destruct (decompress_iter input frame_info opt v) as [t [e | [v' | v']]] eqn:E;
      try discriminate.
    destruct (decompress_iter_continue _ _ _ _ _ _ E Hlen) as [H2 Hmax].
    specialize (IH v').
    destruct (decompress_loop fuel input frame_info opt v') as [[t' r] |];
      [discriminate |].
    exfalso. apply IH; [lia | | reflexivity].
    rewrite H2. rewrite Nat2Z.inj_succ, Z.pow_succ_r in Hfuel by lia. lia.
Qed.

(** More fuel does not change a result. *)
Lemma decompress_loop_more_fuel input frame_info opt :
  forall (fuel fuel' : nat) (v : decompress_vars) (m : M decompress_vars),
    decompress_loop fuel input frame_info opt v = Some m ->
    (fuel <= fuel')%nat ->
    decompress_loop fuel' input frame_info opt v = Some m.
Proof.
  induction fuel as [| fuel IH]; intros fuel' v m E Hle; [discriminate |].
  destruct fuel' as [| fuel']; [lia |].
  simpl in *.
  destruct (decompress_iter input frame_info opt v) as [t [e | [v' | v']]];
    try exact E.
  destruct (decompress_loop fuel input frame_info opt v') as [[t' r] |] eqn:E';
    [| discriminate].
  rewrite (IH fuel' v' (t', r) E') by lia. exact E.
Qed.

(** A state the run goes through decides how the run ends. *)
Lemma decompress_loop_from_reached input frame_info opt :
  forall v0 v, decompress_reaches input frame_info opt v0 v ->
  forall fuel t r,
    decompress_loop fuel input frame_info opt v = Some (t, r) ->
    exists fuel0 t0,
      decompress_loop fuel0 input frame_info opt v0 = Some (t0 ++ t, r).
Proof.
  induction 1 as [v | v t1 v' v'' E _ IH]; intros fuel t r Hrun.
  - exists fuel, []. exact Hrun.
  - destruct (IH fuel t r Hrun) as (fuel0 & t0 & H0).
    exists (S fuel0), (t1 ++ t0). simpl. rewrite E, H0.
    rewrite app_assoc. reflexivity.
Qed.

Lemma decompress_reaches_len input frame_info opt :
  forall v0 v, decompress_reaches input frame_info opt v0 v ->
    0 < output_len (d_out v0) <= PY_SSIZE_T_MAX ->
    0 < output_len (d_out v) <= PY_SSIZE_T_MAX.
Proof.
  induction 1 as [v | v t1 v' v'' E _ IH]; intros Hlen; [exact Hlen |].
  apply IH. destruct (decompress_iter_continue _ _ _ _ _ _ E Hlen). lia.
Qed.

(** *** From the header to the first output buffer *)

Lemma input_window_all (data : list byte) :
  input_window (bytes_view data) 0 (len (bytes_view data)) = data.
Proof.
  unfold input_window, len. simpl. apply firstn_zlength.
Qed.

(** What a successful [decompress_begin] has done. *)
Lemma decompress_begin_ok input (buffer_size : int) ctx0 t0 frame_info opt v0 :
  decompress_begin input buffer_size ctx0 = (t0, inr (frame_info, opt, v0)) ->
  exists ctx1 n hint,
    LZ4F_getFrameInfo ctx0 (input_window input 0 (len input)) (len input)
      = (ctx1, LZ4F_ok (frame_info, n, hint)) /\
    let remaining := size_t_sub (len input) n in
    let size := if known_contentSize frame_info =? 0
                then MAX (size_t_of_int buffer_size) remaining
                else known_contentSize frame_info in
    t0 = [Ev_getFrameInfo (len input); Ev_PyBytes_FromStringAndSize size] /\
    (Py_ssize_t_of_size_t size <? 0) = false /\
    PyMem_available size = true /\
    opt = {| stableDst := if known_contentSize frame_info =? 0 then 0 else 1 |} /\
    v0 = {| ctx := ctx1;
            d_in := {| input_pos := 0 + n; input_remaining := remaining;
                       input_read := remaining; input_size_hint := hint |};
            d_out := {| output := {| ob_size := size; ob_sval := [] |};
                        output_pos := 0; output_len := size;
                        output_remaining := size; output_written := size |} |}.
Proof.
  unfold decompress_begin.
  destruct (LZ4F_getFrameInfo _ _ _) as [ctx1 [[[fi n] hint] | err]]; simpl;
    [| discriminate].
  match goal with
  | |- context [PyBytes_FromStringAndSize ?s] =>
      destruct (PyBytes_FromStringAndSize s) as [ta [e | o]] eqn:EA
  end; simpl; [discriminate |].
  apply PyBytes_FromStringAndSize_ok in EA. destruct EA as (-> & Hss & Hmem & ->).
  intros E. inversion E; subst. exists ctx1, n, hint. repeat split; assumption.
Qed.

Lemma size_t_of_int_pos (i : int) : 0 < int_val i -> size_t_of_int i = int_val i.
Proof.
  intros Hpos. pose proof (int_bounds i) as Hb. unfold INT_MIN, INT_MAX in Hb.
  unfold size_t_of_int. apply size_t_wrap_small. unfold SIZE_T_MODULUS. lia.
Qed.

(** The first output buffer has at least one byte and a size the interpreter
    accepts; nothing is written in it yet. *)
Lemma decompress_begin_consistent input (buffer_size : int) ctx0 t0 frame_info opt v0 :
  0 < int_val buffer_size ->
  decompress_begin input buffer_size ctx0 = (t0, inr (frame_info, opt, v0)) ->
  decompress_consistent v0.
Proof.
  intros Hbs E. apply decompress_begin_ok in E.
  destruct E as (ctx1 & n & hint & _ & _ & Hss & _ & _ & ->). simpl.
  pose proof (size_t_wrap_range (len input - n)) as Hrem.
  fold (size_t_sub (len input) n) in Hrem.
  pose proof (size_t_wrap_range (contentSize frame_info)) as Hcs.
  fold (known_contentSize frame_info) in Hcs.
  set (size := if known_contentSize frame_info =? 0
               then MAX (size_t_of_int buffer_size) (size_t_sub (len input) n)
               else known_contentSize frame_info) in *.
  assert (Hsize : 0 < size < SIZE_T_MODULUS).
  { subst size. destruct (Z.eqb_spec (known_contentSize frame_info) 0).
    - rewrite MAX_is_max, size_t_of_int_pos by exact Hbs.
      pose proof (int_bounds buffer_size) as Hb.
      unfold INT_MAX, SIZE_T_MODULUS in *. lia.
    - lia. }
  apply Py_ssize_t_nonneg in Hss; [| lia].
  unfold decompress_consistent, output_consistent. simpl.
  unfold zlength. simpl. repeat split; lia.
Qed.

(** [decompress] always returns: the loop cannot outrun its fuel. *)
Lemma decompress_frame_total input (buffer_size : int) ctx0 :
  0 < int_val buffer_size ->
  decompress_frame input buffer_size ctx0 <> None.
Proof.
  intros Hbs. unfold decompress_frame.
  destruct (decompress_begin input buffer_size ctx0) as [t [e | [[fi opt] v0]]] eqn:E;
    [discriminate |].
  destruct (decompress_begin_consistent _ _ _ _ _ _ _ Hbs E) as ((Hlen & _) & _).
  pose proof (decompress_loop_fuel input fi opt decompress_fuel v0 Hlen) as Hfuel.
  destruct (decompress_loop decompress_fuel input fi opt v0) as [[t' [e | v']] |].
  - discriminate.
  - destruct (_PyBytes_Resize _ _). discriminate.
  - exfalso. apply Hfuel; [| reflexivity].
    change (2 ^ Z.of_nat decompress_fuel) with (2 ^ 64). lia.
Qed.

Theorem decompress_total input (buffer_size : int) :
  _lz4framed_decompress input buffer_size <> None.
Proof.
  unfold _lz4framed_decompress, decompress_check_args.
  destruct (negb (PyBuffer_IsContiguous input)); [discriminate |].
  destruct (len input <=? 0); [discriminate |].
  destruct (Z.leb_spec (int_val buffer_size) 0) as [Hle | Hpos]; [discriminate |].
  simpl. destruct (LZ4F_createDecompressionContext LZ4F_VERSION) as [ctx0 | err];
    simpl; [| discriminate].
  pose proof (decompress_frame_total input buffer_size ctx0 Hpos) as Htot.
  destruct (decompress_frame input buffer_size ctx0) as [[t r] |];
    [discriminate | contradiction].
Qed.

(** How [decompress] ends, from how its loop ends. *)
Lemma decompress_of_loop_error (x : byte) (b : list byte) (buffer_size : int)
    ctx0 t0 frame_info opt v0 fuel t e :
  0 < int_val buffer_size ->
  LZ4F_createDecompressionContext LZ4F_VERSION = LZ4F_ok ctx0 ->
  decompress_begin (bytes_view (x :: b)) buffer_size ctx0
    = (t0, inr (frame_info, opt, v0)) ->
  decompress_loop fuel (bytes_view (x :: b)) frame_info opt v0 = Some (t, inl e) ->
  _lz4framed_decompress (bytes_view (x :: b)) buffer_size
    = Some ([Ev_createDecompressionContext] ++ (t0 ++ t)
            ++ [Ev_freeDecompressionContext false], inl e).
Proof.
  intros Hbs Hctx Hbegin Hloop.
  assert (Hlen : (len (bytes_view (x :: b)) <=? 0) = false).
  { apply Z.leb_gt. unfold len. simpl buf. rewrite zlength_cons.
    pose proof (zlength_nonneg b). lia. }
  apply Z.leb_gt in Hbs.
  unfold _lz4framed_decompress, decompress_check_args.
  rewrite Hlen, Hbs, Hctx. simpl.
  pose proof (decompress_frame_total (bytes_view (x :: b)) buffer_size ctx0) as Htot.
  unfold decompress_frame in *. rewrite Hbegin in *.
  destruct (decompress_loop decompress_fuel _ _ _ _) as [m |] eqn:E64.
  - destruct (Nat.le_ge_cases fuel decompress_fuel) as [Hle | Hge].
    + rewrite (decompress_loop_more_fuel _ _ _ _ _ _ _ Hloop Hle) in E64.
      inversion E64; subst. reflexivity.
    + rewrite (decompress_loop_more_fuel _ _ _ _ _ _ _ E64 Hge) in Hloop.
      inversion Hloop; subst. reflexivity.
  - exfalso. apply Htot; [apply Z.leb_gt; exact Hbs | reflexivity].
Qed.

(** *** Truncated frames (C7) *)

(** C7.  Whenever a run of [decompress] comes to a call of the decoder that
    consumes all the input that is left and still returns a nonzero hint, the
    run ends with [ValueError("frame incomplete")]. *)
Theorem decompress_frame_incomplete (x : byte) (b : list byte) (buffer_size : int)
    ctx0 t0 frame_info opt v0 v ctx' rep :
  0 < int_val buffer_size ->
  LZ4F_createDecompressionContext LZ4F_VERSION = LZ4F_ok ctx0 ->
  decompress_begin (bytes_view (x :: b)) buffer_size ctx0
    = (t0, inr (frame_info, opt, v0)) ->
  decompress_reaches (bytes_view (x :: b)) frame_info opt v0 v ->
  decoder_call (bytes_view (x :: b)) opt v = (ctx', LZ4F_ok rep) ->
  next_hint rep <> 0 ->
  src_consumed rep = input_remaining (d_in v) ->
  exists t,
    _lz4framed_decompress (bytes_view (x :: b)) buffer_size
      = Some (t, inl (PyExc_ValueError "frame incomplete" None)).
Proof.
  intros Hbs Hctx Hbegin Hreach Hcall Hhint Hall. unfold decoder_call in Hcall.
  assert (Hrem : size_t_sub (input_remaining (d_in v)) (src_consumed rep) = 0).
  { rewrite Hall. unfold size_t_sub, size_t_wrap. rewrite Z.sub_diag. reflexivity. }
  pose proof (decompress_iter_incomplete _ frame_info _ _ _ _ Hcall Hhint Hrem) as Hiter.
  assert (Hloop : decompress_loop 1 (bytes_view (x :: b)) frame_info opt v
                  = Some ([Ev_decompress (output_written (d_out v))
                             (input_read (d_in v)) (Some opt) (LZ4F_ok rep)],
                          inl (PyExc_ValueError "frame incomplete" None))).
  { simpl. rewrite Hiter. reflexivity. }
  destruct (decompress_loop_from_reached _ _ _ _ _ Hreach _ _ _ Hloop)
    as (fuel0 & t1 & H0).
  eexists. eapply decompress_of_loop_error; eassumption.
Qed.

(** *** Growing the output *)

Lemma PyBytes_store_at_end (o : PyBytes) (data : list byte) :
  ob_sval (PyBytes_store o (zlength (ob_sval o)) data) = ob_sval o ++ data.
Proof.
  unfold PyBytes_store. simpl. rewrite firstn_zlength. reflexivity.
Qed.

(** The arithmetic of one turn, on a consistent state and a call that stayed
    within the room it was given. *)
Lemma grow_arithmetic (o : output_vars) (w : Z) :
  output_consistent o -> 0 <= w <= output_written o ->
  size_t_sub (output_remaining o) w = output_remaining o - w /\
  size_t_add (output_remaining o - w) (output_len o)
    = output_remaining o - w + output_len o /\
  size_t_mul (output_len o) 2 = 2 * output_len o /\
  size_t_sub (2 * output_len o) (output_remaining o - w + output_len o)
    = output_pos o + w.
Proof.
  intros (Hlen & _ & Hpos & Hsum & Hrem & Hw) Hwb.
  pose proof (zlength_nonneg (ob_sval (output o))) as Hpos0.
  unfold size_t_sub, size_t_add, size_t_mul.
  unfold PY_SSIZE_T_MAX in Hlen.
  repeat split.
  - apply size_t_wrap_small. unfold SIZE_T_MODULUS. lia.
  - apply size_t_wrap_small. unfold SIZE_T_MODULUS. lia.
  - rewrite size_t_wrap_small; unfold SIZE_T_MODULUS; lia.
  - rewrite size_t_wrap_small; unfold SIZE_T_MODULUS; lia.
Qed.

Lemma decompress_iter_grows input frame_info opt v ctx' rep :
  decompress_consistent v ->
  LZ4F_decompress (ctx v) (output_written (d_out v))
    (input_window input (input_pos (d_in v)) (input_read (d_in v)))
    (input_read (d_in v)) (Some opt) = (ctx', LZ4F_ok rep) ->
  zlength (dst_written rep) <= output_written (d_out v) ->
  0 <= src_consumed rep <= input_read (d_in v) ->
  next_hint rep <> 0 ->
  src_consumed rep <> input_remaining (d_in v) ->
  known_contentSize frame_info = 0 \/ PyErr_WarnEx mismatch_warning = 0 ->
  2 * output_len (d_out v) <= PY_SSIZE_T_MAX ->
  PyMem_available (2 * output_len (d_out v)) = true ->
  decompress_iter input frame_info opt v =
    (Ev_decompress (output_written (d_out v)) (input_read (d_in v)) (Some opt)
                   (LZ4F_ok rep)
     :: (if known_contentSize frame_info =? 0 then []
         else [Ev_PyErr_WarnEx mismatch_warning])
     ++ [Ev_PyBytes_Resize (output_len (d_out v)) (2 * output_len (d_out v))],
     inr (Continue (grown v ctx' rep))).
Proof.
  intros (Hout & Hread & Hrem) Hcall Hw Hc Hhint Hleft Hwarn Hmax Hmem.
  pose proof (zlength_nonneg (dst_written rep)) as Hw0.
  destruct (grow_arithmetic (d_out v) (zlength (dst_written rep)) Hout
              (conj Hw0 Hw)) as (A1 & A2 & A3 & A4).
  destruct Hout as (Hlen & Hsize & Hpos & Hsum & Hrem0 & Hwr).
  assert (A5 : size_t_sub (input_remaining (d_in v)) (src_consumed rep)
               = input_remaining (d_in v) - src_consumed rep).
  { unfold size_t_sub. apply size_t_wrap_small. lia. }
  unfold decompress_iter. rewrite Hcall.
  unfold BAIL_ON_LZ4_ERROR.
  cbv beta iota zeta delta [bind emit ret raise].
  apply Z.eqb_neq in Hhint. rewrite Hhint, A5, A1, A2, A3, A4.
  assert (Hne : (input_remaining (d_in v) - src_consumed rep =? 0) = false)
    by (apply Z.eqb_neq; lia).
  rewrite Hne. cbv beta iota delta [negb].
  assert (Hres :
    _PyBytes_Resize
      (PyBytes_store (output (d_out v)) (output_pos (d_out v)) (dst_written rep))
      (2 * output_len (d_out v))
    = ([Ev_PyBytes_Resize (output_len (d_out v)) (2 * output_len (d_out v))],
       inr {| ob_size := 2 * output_len (d_out v);
              ob_sval := ob_sval (output (d_out v)) ++ dst_written rep |})).
  { rewrite <- Hpos.
    pose proof (PyBytes_store_at_end (output (d_out v)) (dst_written rep)) as Hst.
    rewrite PyBytes_Resize_succeeds.
    - rewrite Hst. unfold PyBytes_store. cbn [ob_size]. rewrite Hsize. reflexivity.
    - lia.
    - rewrite Hst, zlength_app. lia.
    - right. exact Hmem. }
  rewrite Hres. unfold grown, mismatch_warning.
  destruct (Z.eqb_spec (known_contentSize frame_info) 0) as [Hk | Hk].
  - reflexivity.
  - destruct Hwarn as [Hk0 | Hwarn]; [contradiction |].
    unfold mismatch_warning in Hwarn. rewrite Hwarn. reflexivity.
Qed.

(** When a warning is due and the interpreter turns it into an exception,
    the turn ends with that exception. *)
Lemma decompress_iter_warning_raises input frame_info opt v ctx' rep :
  LZ4F_decompress (ctx v) (output_written (d_out v))
    (input_window input (input_pos (d_in v)) (input_read (d_in v)))
    (input_read (d_in v)) (Some opt) = (ctx', LZ4F_ok rep) ->
  next_hint rep <> 0 ->
  size_t_sub (input_remaining (d_in v)) (src_consumed rep) <> 0 ->
  known_contentSize frame_info <> 0 ->
  PyErr_WarnEx mismatch_warning <> 0 ->
  decompress_iter input frame_info opt v =
    ([Ev_decompress (output_written (d_out v)) (input_read (d_in v)) (Some opt)
        (LZ4F_ok rep);
      Ev_PyErr_WarnEx mismatch_warning],
     inl (PyExc_RuntimeWarning mismatch_warning)).
Proof.
  intros Hcall Hhint Hleft Hknown Hwarn.
  apply Z.eqb_neq in Hhint, Hleft, Hknown, Hwarn.
  unfold mismatch_warning in *.
  unfold decompress_iter. rewrite Hcall. unfold BAIL_ON_LZ4_ERROR.
  cbv beta iota zeta delta [bind emit ret raise].
  rewrite Hhint, Hleft, Hknown. cbv beta iota delta [negb].
  rewrite Hwarn. reflexivity.
Qed.

(** When the doubled size is more than the interpreter can give, the turn
    ends with the interpreter's error. *)
Lemma decompress_iter_no_memory input frame_info opt v ctx' rep :
  decompress_consistent v ->
  LZ4F_decompress (ctx v) (output_written (d_out v))
    (input_window input (input_pos (d_in v)) (input_read (d_in v)))
    (input_read (d_in v)) (Some opt) = (ctx', LZ4F_ok rep) ->
  next_hint rep <> 0 ->
  size_t_sub (input_remaining (d_in v)) (src_consumed rep) <> 0 ->
  known_contentSize frame_info = 0 \/ PyErr_WarnEx mismatch_warning = 0 ->
  PY_SSIZE_T_MAX < 2 * output_len (d_out v) \/
  PyMem_available (2 * output_len (d_out v)) = false ->
  exists e,
    decompress_iter input frame_info opt v =
      (Ev_decompress (output_written (d_out v)) (input_read (d_in v)) (Some opt)
                     (LZ4F_ok rep)
       :: (if known_contentSize frame_info =? 0 then []
           else [Ev_PyErr_WarnEx mismatch_warning])
       ++ [Ev_PyBytes_Resize (output_len (d_out v)) (2 * output_len (d_out v))],
       inl e) /\
    (e = PyExc_SystemError \/ e = PyExc_MemoryError).
Proof.
  intros ((Hlen & Hsize & _) & _) Hcall Hhint Hleft Hwarn Hno.
  apply Z.eqb_neq in Hhint, Hleft.
  assert (A3 : size_t_mul (output_len (d_out v)) 2 = 2 * output_len (d_out v)).
  { unfold size_t_mul. rewrite size_t_wrap_small;
      unfold PY_SSIZE_T_MAX, SIZE_T_MODULUS in *; lia. }
  unfold decompress_iter. rewrite Hcall. unfold BAIL_ON_LZ4_ERROR.
  cbv beta iota zeta delta [bind emit ret raise].
  rewrite Hhint, Hleft, A3. cbv beta iota delta [negb].
  assert (Hres : exists e,
    _PyBytes_Resize
      (PyBytes_store (output (d_out v)) (output_pos (d_out v)) (dst_written rep))
      (2 * output_len (d_out v))
    = ([Ev_PyBytes_Resize (output_len (d_out v)) (2 * output_len (d_out v))],
       inl e) /\ (e = PyExc_SystemError \/ e = PyExc_MemoryError)).
  { unfold _PyBytes_Resize, PyBytes_store. cbn [ob_size].
    cbv beta iota zeta delta [bind emit ret raise]. rewrite Hsize.
    destruct (Py_ssize_t_of_size_t (2 * output_len (d_out v)) <? 0) eqn:Hss.
    - eexists. split; [reflexivity | left; reflexivity].
    - apply Py_ssize_t_nonneg in Hss;
        [| unfold PY_SSIZE_T_MAX, SIZE_T_MODULUS in *; lia].
      destruct Hno as [Hbig | Hmem]; [lia |].
      destruct (Z.eqb_spec (output_len (d_out v)) (2 * output_len (d_out v)));
        [lia |].
      rewrite Hmem. eexists. split; [reflexivity | right; reflexivity]. }
  destruct Hres as (e & Hres & He). rewrite Hres. exists e. split; [| exact He].
  unfold mismatch_warning in *.
  destruct (Z.eqb_spec (known_contentSize frame_info) 0) as [Hk | Hk].
  - reflexivity.
  - destruct Hwarn as [Hk0 | Hwarn]; [contradiction |].
    rewrite Hwarn. reflexivity.
Qed.

Lemma grown_consistent v ctx' rep :
  decompress_consistent v ->
  zlength (dst_written rep) <= output_written (d_out v) ->
  0 <= src_consumed rep <= input_read (d_in v) ->
  2 * output_len (d_out v) <= PY_SSIZE_T_MAX ->
  decompress_consistent (grown v ctx' rep).
Proof.
  intros ((Hlen & Hsize & Hpos & Hsum & Hrem0 & Hwr) & Hread & Hrem) Hw Hc Hmax.
  pose proof (zlength_nonneg (dst_written rep)) as Hw0.
  unfold decompress_consistent, output_consistent, grown.
  cbn [d_out d_in output output_pos output_len output_remaining output_written
       input_read input_remaining ob_size ob_sval].
  rewrite zlength_app. unfold PY_SSIZE_T_MAX, SIZE_T_MODULUS in *.
  repeat split; lia.
Qed.

(** Going round the loop again, decomposed: the decoder wanted more, input
    was left, and the next state is [grown]. *)
Lemma decompress_iter_continue_grown input frame_info opt v t v' :
  LZ4F_decompress_in_bounds ->
  decompress_consistent v ->
  decompress_iter input frame_info opt v = (t, inr (Continue v')) ->
  exists ctx' rep,
    LZ4F_decompress (ctx v) (output_written (d_out v))
      (input_window input (input_pos (d_in v)) (input_read (d_in v)))
      (input_read (d_in v)) (Some opt) = (ctx', LZ4F_ok rep) /\
    next_hint rep <> 0 /\
    src_consumed rep <> input_remaining (d_in v) /\
    (known_contentSize frame_info = 0 \/ PyErr_WarnEx mismatch_warning = 0) /\
    t = Ev_decompress (output_written (d_out v)) (input_read (d_in v)) (Some opt)
                      (LZ4F_ok rep)
        :: (if known_contentSize frame_info =? 0 then []
            else [Ev_PyErr_WarnEx mismatch_warning])
        ++ [Ev_PyBytes_Resize (output_len (d_out v)) (2 * output_len (d_out v))] /\
    v' = grown v ctx' rep /\
    decompress_consistent v'.
Proof.
  intros Hbounds Hcons E.
  destruct (LZ4F_decompress (ctx v) (output_written (d_out v))
              (input_window input (input_pos (d_in v)) (input_read (d_in v)))
              (input_read (d_in v)) (Some opt)) as [ctx' [rep | err]] eqn:Hcall.
  2: { rewrite (decompress_iter_error _ frame_info _ _ _ _ Hcall) in E.
       discriminate. }
  pose proof Hcons as ((Hlen & Hsize & Hpos & Hsum & Hrem0 & Hwr) & Hread & Hrem).
  assert (Hdst : 0 <= output_written (d_out v)) by lia.
  assert (Hsrc : 0 <= input_read (d_in v)) by lia.
  destruct (Hbounds _ _ _ _ _ _ _ Hdst Hsrc Hcall) as [Hw Hc].
  destruct (Z.eq_dec (next_hint rep) 0) as [Hh | Hh].
  { destruct (decompress_iter_break _ frame_info _ _ _ _ Hcall Hh)
      as (vb & Eb & _). rewrite Eb in E. discriminate. }
  assert (A5 : size_t_sub (input_remaining (d_in v)) (src_consumed rep)
               = input_remaining (d_in v) - src_consumed rep).
  { unfold size_t_sub. apply size_t_wrap_small. lia. }
  destruct (Z.eq_dec (src_consumed rep) (input_remaining (d_in v))) as [Hall | Hleft].
  { rewrite (decompress_iter_incomplete _ frame_info _ _ _ _ Hcall Hh) in E;
      [discriminate | rewrite A5; lia]. }
  assert (Hwarn : known_contentSize frame_info = 0
                  \/ PyErr_WarnEx mismatch_warning = 0).
  { destruct (Z.eq_dec (known_contentSize frame_info) 0) as [Hk | Hk];
      [left; exact Hk |].
    destruct (Z.eq_dec (PyErr_WarnEx mismatch_warning) 0) as [Hz | Hnz];
      [right; exact Hz |].
    rewrite (decompress_iter_warning_raises _ frame_info _ _ _ _ Hcall Hh) in E;
      [discriminate | rewrite A5; lia | exact Hk | exact Hnz]. }
  assert (Hroom : 2 * output_len (d_out v) <= PY_SSIZE_T_MAX /\
                  PyMem_available (2 * output_len (d_out v)) = true).
  { destruct (Z_le_gt_dec (2 * output_len (d_out v)) PY_SSIZE_T_MAX) as [Hle | Hgt];
      destruct (PyMem_available (2 * output_len (d_out v))) eqn:Hmem;
      try (split; [exact Hle | reflexivity]);
      (destruct (decompress_iter_no_memory _ frame_info _ _ _ _ Hcons Hcall Hh)
         as (e & Ee & _);
       [rewrite A5; lia | exact Hwarn | rewrite ?Hmem; auto; left; lia
       | rewrite Ee in E; discriminate]). }
  destruct Hroom as [Hmax Hmem].
  rewrite (decompress_iter_grows _ frame_info _ _ _ _ Hcons Hcall Hw Hc Hh Hleft
             Hwarn Hmax Hmem) in E.
  inversion E; subst. exists ctx', rep.
  repeat split; try assumption; try reflexivity.
  all: try (apply grown_consistent; assumption).
Qed.

Lemma decompress_reaches_consistent input frame_info opt :
  LZ4F_decompress_in_bounds ->
  forall v0 v, decompress_reaches input frame_info opt v0 v ->
    decompress_consistent v0 -> decompress_consistent v.
Proof.
  intros Hbounds. induction 1 as [v | v t1 v' v'' E _ IH]; intros Hcons;
    [exact Hcons |].
  apply IH.
  destruct (decompress_iter_continue_grown _ _ _ _ _ _ Hbounds Hcons E)
    as (? & ? & _ & _ & _ & _ & _ & _ & H). exact H.
Qed.

(** *** The events of a turn *)

Lemma decompress_iter_first_event input frame_info opt v :
  exists rest,
    fst (decompress_iter input frame_info opt v) =
      Ev_decompress (output_written (d_out v)) (input_read (d_in v)) (Some opt)
                    (snd (decoder_call input opt v)) :: rest.
Proof.
  unfold decompress_iter, decoder_call.
  destruct (LZ4F_decompress _ _ _ _ _) as [ctx' r]. cbn [snd].
  unfold BAIL_ON_LZ4_ERROR.
  destruct (bind (bind _ _) _) as [t s] eqn:E.
  cbv beta iota zeta delta [bind emit ret raise] in E.
  destruct r as [rep | err].
  - match type of E with
    | (let '(t', r) := ?m in _) = _ => destruct m as [t' r']
    end.
    inversion E. eexists. reflexivity.
  - inversion E. eexists. reflexivity.
Qed.

(** The events of a turn that goes on after a length mismatch start with the
    call and the warning. *)
Lemma decompress_iter_mismatch_events input frame_info opt v ctx' rep :
  decoder_call input opt v = (ctx', LZ4F_ok rep) ->
  next_hint rep <> 0 ->
  size_t_sub (input_remaining (d_in v)) (src_consumed rep) <> 0 ->
  known_contentSize frame_info <> 0 ->
  exists rest,
    fst (decompress_iter input frame_info opt v) =
      Ev_decompress (output_written (d_out v)) (input_read (d_in v)) (Some opt)
                    (LZ4F_ok rep)
      :: Ev_PyErr_WarnEx mismatch_warning :: rest.
Proof.
  intros Hcall Hhint Hleft Hknown. unfold decoder_call in Hcall.
  apply Z.eqb_neq in Hhint, Hleft, Hknown.
  unfold decompress_iter. rewrite Hcall. unfold BAIL_ON_LZ4_ERROR.
  cbv beta iota zeta delta [bind emit ret raise].
  rewrite Hhint, Hleft, Hknown. cbv beta iota delta [negb].
  match goal with
  | |- context [PyErr_WarnEx ?m] => destruct (PyErr_WarnEx m =? 0)
  end.
  2: { eexists. reflexivity. }
  - cbv beta iota.
    match goal with
    | |- context [_PyBytes_Resize ?o ?n] =>
        destruct (_PyBytes_Resize o n) as [tr [e | o2]]
    end; eexists; reflexivity.
Qed.

Lemma decompress_loop_events input frame_info opt fuel v t r :
  decompress_loop (S fuel) input frame_info opt v = Some (t, r) ->
  (t = fst (decompress_iter input frame_info opt v) /\
   forall v', snd (decompress_iter input frame_info opt v) <> inr (Continue v')) \/
  (exists v' t',
     decompress_iter input frame_info opt v
       = (fst (decompress_iter input frame_info opt v), inr (Continue v')) /\
     t = fst (decompress_iter input frame_info opt v) ++ t').
Proof.
  simpl. destruct (decompress_iter input frame_info opt v) as [t1 [e | [v' | v']]].
  - intros E. inversion E. left. split; [reflexivity | discriminate].
  - destruct (decompress_loop fuel input frame_info opt v') as [[t' r'] |];
      [| discriminate].
    intros E. inversion E. right. exists v', t'. split; reflexivity.
  - intros E. inversion E. left. split; [reflexivity | discriminate].
Qed.

(** *** What a trace tells *)

Lemma decoded_app (t t' : list event) : decoded (t ++ t') = decoded t ++ decoded t'.
Proof. unfold decoded. apply flat_map_app. Qed.

Lemma consumed_app (t t' : list event) : consumed (t ++ t') = consumed t + consumed t'.
Proof.
  unfold consumed. induction t as [| ev t IH]; simpl; [lia |].
  rewrite IH. lia.
Qed.




Lemma last_hint_app (h : Z) (t t' : list event) :
  last_hint h (t ++ t') = last_hint (last_hint h t) t'.
Proof. unfold last_hint. apply fold_left_app. Qed.

(** *** What the loop leaves *)

(** Leaving the loop, decomposed: the decoder returned the hint 0. *)
Lemma decompress_iter_break_inv input frame_info opt v t v' :
  decompress_iter input frame_info opt v = (t, inr (Break v')) ->
  exists ctx' rep,
    decoder_call input opt v = (ctx', LZ4F_ok rep) /\
    next_hint rep = 0 /\
    t = [Ev_decompress (output_written (d_out v)) (input_read (d_in v)) (Some opt)
           (LZ4F_ok rep)] /\
    output (d_out v') =
      PyBytes_store (output (d_out v)) (output_pos (d_out v)) (dst_written rep) /\
    output_len (d_out v') =
      size_t_sub (output_len (d_out v))
        (size_t_sub (output_remaining (d_out v)) (zlength (dst_written rep))).
Proof.
  unfold decoder_call.
  destruct (LZ4F_decompress (ctx v) (output_written (d_out v))
              (input_window input (input_pos (d_in v)) (input_read (d_in v)))
              (input_read (d_in v)) (Some opt)) as [ctx' [rep | err]] eqn:Hcall.
  2: { rewrite (decompress_iter_error _ frame_info _ _ _ _ Hcall). discriminate. }
  destruct (Z.eqb_spec (next_hint rep) 0) as [Hh | Hh].
  - destruct (decompress_iter_break _ frame_info _ _ _ _ Hcall Hh)
      as (v1 & E1 & Hout & Hlen).
    rewrite E1. intros E. inversion E; subst.
    exists ctx', rep. repeat split; assumption.
  - apply Z.eqb_neq in Hh.
    unfold decompress_iter. rewrite Hcall.
    unfold BAIL_ON_LZ4_ERROR, _PyBytes_Resize.
    cbv beta iota zeta delta [bind emit ret raise]. rewrite Hh.
    destruct (size_t_sub (input_remaining (d_in v)) (src_consumed rep) =? 0);
      [discriminate |].
    cbv beta iota delta [negb].
    repeat match goal with
           | |- context [if ?c then _ else _] => destruct c
           end;
      intros E; cbv beta iota zeta in E; discriminate E.
Qed.

(** Leaving the loop on a consistent state: the output holds what it held and
    what the last call wrote, and [output_len] is the number of these bytes. *)
Lemma decompress_iter_break_output input opt v ctx' rep v' :
  LZ4F_decompress_in_bounds ->
  decompress_consistent v ->
  decoder_call input opt v = (ctx', LZ4F_ok rep) ->
  output (d_out v') =
    PyBytes_store (output (d_out v)) (output_pos (d_out v)) (dst_written rep) ->
  output_len (d_out v') =
    size_t_sub (output_len (d_out v))
      (size_t_sub (output_remaining (d_out v)) (zlength (dst_written rep))) ->
  ob_size (output (d_out v')) = output_len (d_out v) /\
  ob_sval (output (d_out v')) = ob_sval (output (d_out v)) ++ dst_written rep /\
  output_len (d_out v') = output_pos (d_out v) + zlength (dst_written rep) /\
  zlength (dst_written rep) <= output_remaining (d_out v).
Proof.
  intros Hbounds Hcons Hcall Hout Hlen'.
  pose proof Hcons as ((Hlen & Hsize & Hpos & Hsum & Hrem0 & Hwr) & Hread & Hrem).
  unfold decoder_call in Hcall.
  assert (Hdst : 0 <= output_written (d_out v)) by lia.
  assert (Hsrc : 0 <= input_read (d_in v)) by lia.
  destruct (Hbounds _ _ _ _ _ _ _ Hdst Hsrc Hcall) as [Hw Hc].
  pose proof (zlength_nonneg (dst_written rep)) as Hw0.
  pose proof (zlength_nonneg (ob_sval (output (d_out v)))) as Hp0.
  rewrite Hout, Hlen', <- Hpos. rewrite PyBytes_store_at_end.
  unfold PyBytes_store. cbn [ob_size].
  unfold size_t_sub. unfold PY_SSIZE_T_MAX in Hlen.
  rewrite (size_t_wrap_small (output_remaining (d_out v) - zlength (dst_written rep)))
    by (unfold SIZE_T_MODULUS; lia).
  rewrite size_t_wrap_small by (unfold SIZE_T_MODULUS; lia).
  repeat split; lia.
Qed.

(** The output of the loop is what the decoder wrote during it, after what
    the output held before. *)
Lemma decompress_loop_output input frame_info opt :
  LZ4F_decompress_in_bounds ->
  forall (fuel : nat) (v : decompress_vars) t v',
    decompress_consistent v ->
    decompress_loop fuel input frame_info opt v = Some (t, inr v') ->
    ob_sval (output (d_out v')) = ob_sval (output (d_out v)) ++ decoded t /\
    output_len (d_out v') = zlength (ob_sval (output (d_out v'))).
Proof.
  intros Hbounds. induction fuel as [| fuel IH]; intros v t v' Hcons E;
    [discriminate |].
  simpl in E.
  destruct (decompress_iter input frame_info opt v) as [t1 [e | [v1 | v1]]] eqn:Hiter.
  - discriminate.
  - destruct (decompress_loop fuel input frame_info opt v1) as [[t' r'] |] eqn:E';
      [| discriminate].
    inversion E; subst.
    destruct (decompress_iter_continue_grown _ _ _ _ _ _ Hbounds Hcons Hiter)
      as (ctx' & rep & _ & _ & _ & _ & Ht1 & Hv1 & Hcons1).
    destruct (IH v1 t' v' Hcons1 E') as [Hsval Hlen].
    split; [| exact Hlen].
    rewrite Hsval, decoded_app, Hv1, Ht1. cbn [grown d_out output ob_sval].
    rewrite <- app_assoc. f_equal. f_equal.
    unfold decoded. destruct (known_contentSize frame_info =? 0); simpl;
      rewrite app_nil_r; reflexivity.
  - inversion E; subst.
    destruct (decompress_iter_break_inv _ _ _ _ _ _ Hiter)
      as (ctx' & rep & Hcall & _ & Ht & Hout & Hlen').
    destruct (decompress_iter_break_output _ _ _ _ _ _ Hbounds Hcons Hcall
                Hout Hlen') as (_ & Hsval & Hlen & _).
    pose proof Hcons as ((_ & _ & Hpos & _) & _).
    rewrite Hsval, Hlen, Ht, zlength_app, Hpos.
    unfold decoded. simpl. rewrite app_nil_r. split; reflexivity.
Qed.

(** *** From the loop to [decompress] *)

(** [decompress], once its arguments are checked and its context is created:
    the events of [decompress_frame] between the creation of the context and
    its release.  It needs [0 < buffer_size] and the creation of the context
    among the hypotheses. *)
Ltac decompress_entry Hbs Hctx :=
  match goal with
  | |- context [_lz4framed_decompress (bytes_view (?x :: ?b)) ?buffer_size] =>
      let Hlen := fresh "Hlen" in
      let Hsize := fresh "Hsize" in
      assert (Hlen : (len (bytes_view (x :: b)) <=? 0) = false)
        by (apply Z.leb_gt; unfold len; simpl buf; rewrite zlength_cons;
            pose proof (zlength_nonneg b); lia);
      assert (Hsize : (int_val buffer_size <=? 0) = false)
        by (apply Z.leb_gt; exact Hbs);
      unfold _lz4framed_decompress, decompress_check_args;
      rewrite Hlen, Hsize, Hctx;
      cbn [PyBuffer_IsContiguous bytes_view c_contiguous negb];
      unfold BAIL_ON_LZ4_ERROR; cbv beta iota zeta delta [bind emit ret raise];
      cbn [app]; clear Hlen Hsize
  end.

(** Cutting the result to the number of bytes it holds leaves these bytes. *)
Lemma PyBytes_Resize_to_content (o out : PyBytes) (n : Z) :
  n = zlength (ob_sval o) ->
  snd (_PyBytes_Resize o n) = inr out ->
  out = bytes_of (ob_sval o).
Proof.
  intros Hn E.
  destruct (_PyBytes_Resize o n) as [t r] eqn:Hres. simpl in E. subst r.
  apply PyBytes_Resize_ok in Hres. destruct Hres as (_ & _ & Hsize & Hkeep).
  assert (Hsval : ob_sval out = ob_sval o).
  { destruct Hkeep as [-> | Hk]; [reflexivity |].
    rewrite Hk, Hn. apply firstn_zlength. }
  destruct out as [sz sv]. simpl in *. subst sv sz n. reflexivity.
Qed.

(** What is done while the context exists, from how the loop ends. *)
Lemma decompress_frame_of_loop input (buffer_size : int) ctx0 t0 frame_info opt v0
    fuel t rl :
  0 < int_val buffer_size ->
  decompress_begin input buffer_size ctx0 = (t0, inr (frame_info, opt, v0)) ->
  decompress_loop fuel input frame_info opt v0 = Some (t, rl) ->
  decompress_frame input buffer_size ctx0
    = Some (t0 ++ t ++ fst (decompress_end rl), snd (decompress_end rl)).
Proof.
  intros Hbs Hbegin Hloop.
  pose proof (decompress_frame_total input buffer_size ctx0 Hbs) as Htot.
  unfold decompress_frame in *. rewrite Hbegin in *.
  assert (H64 : decompress_loop decompress_fuel input frame_info opt v0
                = Some (t, rl)).
  { destruct (decompress_loop decompress_fuel _ _ _ _) as [m |] eqn:E64.
    - destruct (Nat.le_ge_cases fuel decompress_fuel) as [Hle | Hge].
      + rewrite (decompress_loop_more_fuel _ _ _ _ _ _ _ Hloop Hle) in E64.
        symmetry. exact E64.
      + rewrite (decompress_loop_more_fuel _ _ _ _ _ _ _ E64 Hge) in Hloop.
        exact Hloop.
    - exfalso. apply Htot. reflexivity. }
  rewrite H64. destruct rl as [e | v']; cbn [decompress_end fst snd].
  - rewrite app_nil_r. reflexivity.
  - destruct (_PyBytes_Resize _ _) as [t'' r'']. reflexivity.
Qed.

(** A run goes through every state its loop reaches: its events are those up
    to that state, those of the turn made in it, and those that follow; after
    a turn that ends with an error nothing follows. *)
Lemma decompress_frame_through input (buffer_size : int) ctx0 t0 frame_info opt
    v0 v :
  0 < int_val buffer_size ->
  decompress_begin input buffer_size ctx0 = (t0, inr (frame_info, opt, v0)) ->
  decompress_reaches input frame_info opt v0 v ->
  exists t_before t_after r,
    decompress_frame input buffer_size ctx0
      = Some ((t0 ++ t_before) ++ fst (decompress_iter input frame_info opt v)
              ++ t_after, r) /\
    match snd (decompress_iter input frame_info opt v) with
    | inl e => t_after = [] /\ r = inl e
    | inr (Break v') =>
        t_after = fst (decompress_end (inr v')) /\ r = snd (decompress_end (inr v'))
    | inr (Continue v1) =>
        exists fuel t1 r1,
          decompress_loop (S fuel) input frame_info opt v1 = Some (t1, r1) /\
          t_after = t1 ++ fst (decompress_end r1) /\
          r = snd (decompress_end r1)
    end.
Proof.
  intros Hbs Hbegin Hreach.
  destruct (decompress_begin_consistent _ _ _ _ _ _ _ Hbs Hbegin) as ((Hlen0 & _) & _).
  pose proof (decompress_reaches_len _ _ _ _ _ Hreach Hlen0) as Hlen.
  (* the loop comes to an end from [v], and from the state that follows it *)
  assert (Hrun : exists t r,
            decompress_loop 65 input frame_info opt v = Some (t, r)).
  { pose proof (decompress_loop_fuel input frame_info opt 65 v Hlen) as Hfuel.
    destruct (decompress_loop 65 input frame_info opt v) as [[t r] |];
      [exists t, r; reflexivity |].
    exfalso. apply Hfuel; [| reflexivity].
    change (2 ^ Z.of_nat 65) with (2 ^ 65). lia. }
  destruct Hrun as (tl & rl & Hrun).
  destruct (decompress_loop_from_reached _ _ _ _ _ Hreach _ _ _ Hrun)
    as (fuel0 & tb & H0).
  pose proof (decompress_frame_of_loop _ _ _ _ _ _ _ _ _ _ Hbs Hbegin H0) as Hframe.
  change (decompress_loop 65 input frame_info opt v)
    with (match decompress_iter input frame_info opt v with
          | (t, inl e) => Some (t, inl e)
          | (t, inr (Break v')) => Some (t, inr v')
          | (t, inr (Continue v')) =>
              match decompress_loop 64 input frame_info opt v' with
              | Some (t', r) => Some (t ++ t', r)
              | None => None
              end
          end) in Hrun.
  destruct (decompress_iter input frame_info opt v) as [t1 [e | [v1 | v1]]];
    cbn [fst snd].
  - inversion Hrun; subst tl rl. exists tb, [], (inl e).
    split; [| split; reflexivity].
    rewrite Hframe. cbn [decompress_end fst snd].
    rewrite <- !app_assoc. reflexivity.
  - destruct (decompress_loop 64 input frame_info opt v1) as [[t' r'] |] eqn:Hrest;
      [| discriminate].
    inversion Hrun; subst tl rl.
    exists tb, (t' ++ fst (decompress_end r')), (snd (decompress_end r')).
    split; [rewrite Hframe, <- !app_assoc; reflexivity |].
    exists 63%nat, t', r'. split; [exact Hrest | split; reflexivity].
  - inversion Hrun; subst tl rl.
    exists tb, (fst (decompress_end (inr v1))), (snd (decompress_end (inr v1))).
    split; [rewrite Hframe, <- !app_assoc; reflexivity | split; reflexivity].
Qed.

Lemma decompress_reaches_step input frame_info opt :
  forall v0 v, decompress_reaches input frame_info opt v0 v ->
  forall t v',
    decompress_iter input frame_info opt v = (t, inr (Continue v')) ->
    decompress_reaches input frame_info opt v0 v'.
Proof.
  induction 1 as [v | v t1 v1 v2 E _ IH]; intros t v' Hiter.
  - eapply reaches_next; [exact Hiter | apply reaches_here].
  - eapply reaches_next; [exact E | eapply IH; exact Hiter].
Qed.

(** A turn that enlarges the output, as a run shows it: the call of the
    decoder, the warning if the length was declared, the resize to twice the
    size, and then the next call, which is given the room of the enlarged
    output.  What the output held and what the call wrote are the beginning
    of the result. *)
Lemma decompress_frame_growth input (buffer_size : int) ctx0 t0 frame_info opt
    v0 v ctx' rep :
  LZ4F_decompress_in_bounds ->
  0 < int_val buffer_size ->
  decompress_begin input buffer_size ctx0 = (t0, inr (frame_info, opt, v0)) ->
  decompress_reaches input frame_info opt v0 v ->
  decoder_call input opt v = (ctx', LZ4F_ok rep) ->
  next_hint rep <> 0 ->
  src_consumed rep <> input_remaining (d_in v) ->
  known_contentSize frame_info = 0 \/ PyErr_WarnEx mismatch_warning = 0 ->
  2 * output_len (d_out v) <= PY_SSIZE_T_MAX ->
  PyMem_available (2 * output_len (d_out v)) = true ->
  exists t_before t_after r,
    decompress_frame input buffer_size ctx0
      = Some ((t0 ++ t_before)
              ++ (Ev_decompress (output_written (d_out v)) (input_read (d_in v))
                                (Some opt) (LZ4F_ok rep)
                  :: (if known_contentSize frame_info =? 0 then []
                      else [Ev_PyErr_WarnEx mismatch_warning])
                  ++ [Ev_PyBytes_Resize (output_len (d_out v))
                                        (2 * output_len (d_out v));
                      Ev_decompress (output_written (d_out (grown v ctx' rep)))
                                    (input_read (d_in (grown v ctx' rep))) (Some opt)
                                    (snd (decoder_call input opt (grown v ctx' rep)))])
              ++ t_after, r) /\
    decompress_reaches input frame_info opt v0 (grown v ctx' rep) /\
    (forall out, r = inr out ->
       exists more,
         out = bytes_of (ob_sval (output (d_out v)) ++ dst_written rep ++ more)).
Proof.
  intros Hbounds Hbs Hbegin Hreach Hcall Hhint Hleft Hwarn Hmax Hmem.
  unfold decoder_call in Hcall.
  pose proof (decompress_begin_consistent _ _ _ _ _ _ _ Hbs Hbegin) as Hcons0.
  pose proof (decompress_reaches_consistent _ _ _ Hbounds _ _ Hreach Hcons0)
    as Hcons.
  pose proof Hcons as ((Hl & Hsize & Hpos & Hsum & Hrem0 & Hwr) & Hread & Hrem).
  assert (Hdst : 0 <= output_written (d_out v)) by lia.
  assert (Hsrc : 0 <= input_read (d_in v)) by lia.
  destruct (Hbounds _ _ _ _ _ _ _ Hdst Hsrc Hcall) as [Hw Hc].
  pose proof (decompress_iter_grows _ frame_info _ _ _ _ Hcons Hcall Hw Hc Hhint
                Hleft Hwarn Hmax Hmem) as Hiter.
  pose proof (grown_consistent v ctx' rep Hcons Hw Hc Hmax) as Hcons1.
  destruct (decompress_frame_through input buffer_size ctx0 t0 frame_info opt v0 v
              Hbs Hbegin Hreach) as (tb & ta & r & Hrun & Hafter).
  rewrite Hiter in Hrun, Hafter. cbn [fst snd] in Hrun, Hafter.
  destruct Hafter as (fuel & t1 & r1 & Hloop & Hta & Hr).
  destruct (decompress_iter_first_event input frame_info opt (grown v ctx' rep))
    as (rest & Hfirst).
  assert (Ht1 : exists t1', t1 =
            Ev_decompress (output_written (d_out (grown v ctx' rep)))
              (input_read (d_in (grown v ctx' rep))) (Some opt)
              (snd (decoder_call input opt (grown v ctx' rep)))
            :: t1').
  { destruct (decompress_loop_events _ _ _ _ _ _ _ Hloop)
      as [[-> _] | (v2 & t2 & _ & ->)]; rewrite Hfirst; eexists; reflexivity. }
  destruct Ht1 as (t1' & Ht1).
  exists tb, (t1' ++ fst (decompress_end r1)), r.
  split.
  { rewrite Hrun, Hta, Ht1. f_equal. f_equal. f_equal.
    cbn [app]. f_equal. rewrite <- !app_assoc. reflexivity. }
  split.
  { eapply decompress_reaches_step; [exact Hreach | exact Hiter]. }
  intros out Hout. rewrite Hr in Hout. destruct r1 as [e | v'];
    cbn [decompress_end snd] in Hout; [discriminate |].
  destruct (decompress_loop_output _ _ _ Hbounds _ _ _ _ Hcons1 Hloop)
    as [Hsval Hlen].
  exists (decoded t1).
  rewrite (PyBytes_Resize_to_content _ out _ Hlen Hout), Hsval.
  cbn [grown d_out output ob_sval]. rewrite <- app_assoc. reflexivity.
Qed.

(** The same turn when the interpreter does not give twice the size: the
    resize is the last thing done. *)
Lemma decompress_frame_growth_refused input (buffer_size : int) ctx0 t0 frame_info
    opt v0 v ctx' rep :
  LZ4F_decompress_in_bounds ->
  0 < int_val buffer_size ->
  decompress_begin input buffer_size ctx0 = (t0, inr (frame_info, opt, v0)) ->
  decompress_reaches input frame_info opt v0 v ->
  decoder_call input opt v = (ctx', LZ4F_ok rep) ->
  next_hint rep <> 0 ->
  src_consumed rep <> input_remaining (d_in v) ->
  known_contentSize frame_info = 0 \/ PyErr_WarnEx mismatch_warning = 0 ->
  PY_SSIZE_T_MAX < 2 * output_len (d_out v) \/
  PyMem_available (2 * output_len (d_out v)) = false ->
  exists t_before e,
    decompress_frame input buffer_size ctx0
      = Some ((t0 ++ t_before)
              ++ Ev_decompress (output_written (d_out v)) (input_read (d_in v))
                               (Some opt) (LZ4F_ok rep)
                 :: (if known_contentSize frame_info =? 0 then []
                     else [Ev_PyErr_WarnEx mismatch_warning])
                 ++ [Ev_PyBytes_Resize (output_len (d_out v))
                                       (2 * output_len (d_out v))],
              inl e) /\
    (e = PyExc_SystemError \/ e = PyExc_MemoryError).
Proof.
  intros Hbounds Hbs Hbegin Hreach Hcall Hhint Hleft Hwarn Hroom.
  unfold decoder_call in Hcall.
  pose proof (decompress_begin_consistent _ _ _ _ _ _ _ Hbs Hbegin) as Hcons0.
  pose proof (decompress_reaches_consistent _ _ _ Hbounds _ _ Hreach Hcons0)
    as Hcons.
  pose proof Hcons as ((Hl & Hsize & Hpos & Hsum & Hrem0 & Hwr) & Hread & Hrem).
  assert (Hdst : 0 <= output_written (d_out v)) by lia.
  assert (Hsrc : 0 <= input_read (d_in v)) by lia.
  destruct (Hbounds _ _ _ _ _ _ _ Hdst Hsrc Hcall) as [Hw Hc].
  destruct (decompress_iter_no_memory _ frame_info _ _ _ _ Hcons Hcall Hhint)
    as (e & Hiter & He); [| exact Hwarn | exact Hroom |].
  { unfold size_t_sub. rewrite size_t_wrap_small; lia. }
  destruct (decompress_frame_through input buffer_size ctx0 t0 frame_info opt v0 v
              Hbs Hbegin Hreach) as (tb & ta & r & Hrun & Hafter).
  rewrite Hiter in Hrun, Hafter. cbn [fst snd] in Hrun, Hafter.
  destruct Hafter as [-> ->].
  exists tb, e. split; [| exact He].
  rewrite Hrun, app_nil_r. reflexivity.
Qed.

(** *** Output of unknown length (C4) *)

(** C4.  When the header gives no content length, [decompress] first
    allocates [max(buffer_size, input left after the header)] bytes for its
    output.  Afterwards, at every call where the decoder returns a nonzero
    hint and input is left, the output is resized to twice its size and the
    decoder is called again on the room this leaves; what the output held and
    what the call wrote are kept, and are the beginning of what [decompress]
    returns.  If the interpreter does not give twice the size, the resize is
    the last thing [decompress] does before it releases the context, and its
    error is the error of the call. *)
Theorem unknown_length_output (x : byte) (b : list byte) (buffer_size : int)
    ctx0 t0 frame_info opt v0 :
  LZ4F_getFrameInfo_in_bounds ->
  LZ4F_decompress_in_bounds ->
  zlength (x :: b) <= PY_SSIZE_T_MAX ->
  0 < int_val buffer_size ->
  LZ4F_createDecompressionContext LZ4F_VERSION = LZ4F_ok ctx0 ->
  decompress_begin (bytes_view (x :: b)) buffer_size ctx0
    = (t0, inr (frame_info, opt, v0)) ->
  known_contentSize frame_info = 0 ->
  (exists ctx1 header_size hint t r,
     LZ4F_getFrameInfo ctx0 (x :: b) (zlength (x :: b))
       = (ctx1, LZ4F_ok (frame_info, header_size, hint)) /\
     0 <= header_size <= zlength (x :: b) /\
     _lz4framed_decompress (bytes_view (x :: b)) buffer_size
       = Some (Ev_createDecompressionContext
               :: Ev_getFrameInfo (zlength (x :: b))
               :: Ev_PyBytes_FromStringAndSize
                    (Z.max buffer_size (zlength (x :: b) - header_size))
               :: t, r) /\
     input_pos (d_in v0) = header_size /\
     input_remaining (d_in v0) = zlength (x :: b) - header_size /\
     output_len (d_out v0) = Z.max buffer_size (zlength (x :: b) - header_size) /\
     output (d_out v0) =
       {| ob_size := Z.max buffer_size (zlength (x :: b) - header_size);
          ob_sval := [] |}) /\
  (forall v ctx' rep,
     decompress_reaches (bytes_view (x :: b)) frame_info opt v0 v ->
     decoder_call (bytes_view (x :: b)) opt v = (ctx', LZ4F_ok rep) ->
     next_hint rep <> 0 ->
     src_consumed rep <> input_remaining (d_in v) ->
     ob_size (output (d_out v)) = output_len (d_out v) /\
     (2 * output_len (d_out v) <= PY_SSIZE_T_MAX ->
      PyMem_available (2 * output_len (d_out v)) = true ->
      exists t_before t_after r,
        _lz4framed_decompress (bytes_view (x :: b)) buffer_size
          = Some (t_before
                  ++ [Ev_decompress (output_written (d_out v)) (input_read (d_in v))
                                    (Some opt) (LZ4F_ok rep);
                      Ev_PyBytes_Resize (output_len (d_out v))
                                        (2 * output_len (d_out v));
                      Ev_decompress
                        (output_remaining (d_out v) - zlength (dst_written rep)
                         + output_len (d_out v))
                        (input_remaining (d_in v) - src_consumed rep) (Some opt)
                        (snd (decoder_call (bytes_view (x :: b)) opt
                                           (grown v ctx' rep)))]
                  ++ t_after, r) /\
        decompress_reaches (bytes_view (x :: b)) frame_info opt v0
                           (grown v ctx' rep) /\
        (forall out, r = inr out ->
           exists more,
             out = bytes_of (ob_sval (output (d_out v)) ++ dst_written rep ++ more))) /\
     (PY_SSIZE_T_MAX < 2 * output_len (d_out v) \/
      PyMem_available (2 * output_len (d_out v)) = false ->
      exists t_before e,
        _lz4framed_decompress (bytes_view (x :: b)) buffer_size
          = Some (t_before
                  ++ [Ev_decompress (output_written (d_out v)) (input_read (d_in v))
                                    (Some opt) (LZ4F_ok rep);
                      Ev_PyBytes_Resize (output_len (d_out v))
                                        (2 * output_len (d_out v));
                      Ev_freeDecompressionContext false],
                  inl e) /\
        (e = PyExc_SystemError \/ e = PyExc_MemoryError))).
Proof.
  intros Hinfo Hbounds Hlen Hbs Hctx Hbegin Hknown.
  pose proof (decompress_begin_consistent _ _ _ _ _ _ _ Hbs Hbegin) as Hcons0.
  assert (Hz : (known_contentSize frame_info =? 0) = true)
    by (apply Z.eqb_eq; exact Hknown).
  split.
  - destruct (decompress_frame_through _ buffer_size ctx0 t0 frame_info opt v0 v0
                Hbs Hbegin (reaches_here _ _ _ v0))
      as (tb & ta & r & Hrun & _).
    apply decompress_begin_ok in Hbegin.
    destruct Hbegin as (ctx1 & n & hint & Hcall & Ht & _ & _ & _ & Hv).
    rewrite input_window_all in Hcall. unfold len in Hcall, Ht, Hv.
    cbn [buf bytes_view] in Hcall, Ht, Hv.
    pose proof (zlength_nonneg (x :: b)) as Hlen0.
    destruct (Hinfo _ _ _ _ _ _ _ Hlen0 Hcall) as [Hn0 Hn].
    assert (Hrem : size_t_sub (zlength (x :: b)) n = zlength (x :: b) - n).
    { unfold size_t_sub. apply size_t_wrap_small.
      unfold PY_SSIZE_T_MAX, SIZE_T_MODULUS in *. lia. }
    rewrite Hknown, Hrem, MAX_is_max, size_t_of_int_pos in * by exact Hbs.
    cbv beta iota delta [Z.eqb] in Ht, Hv.
    exists ctx1, n, hint. eexists. exists r.
    split; [exact Hcall |]. split; [lia |].
    split.
    { decompress_entry Hbs Hctx. rewrite Hrun, Ht. cbn [app]. reflexivity. }
    subst v0. cbn [d_in d_out input_pos input_remaining output_len output].
    repeat split; try lia; reflexivity.
  - intros v ctx' rep Hreach Hcall Hhint Hleft.
    pose proof (decompress_reaches_consistent _ _ _ Hbounds _ _ Hreach Hcons0)
      as Hcons.
    pose proof Hcons as ((Hl & Hsize & Hpos & Hsum & Hrem0 & Hwr) & Hread & Hrem).
    split; [exact Hsize |]. split.
    + intros Hmax Hmem.
      destruct (decompress_frame_growth _ buffer_size ctx0 t0 frame_info opt v0 v
                  ctx' rep Hbounds Hbs Hbegin Hreach Hcall Hhint Hleft
                  (or_introl Hknown) Hmax Hmem)
        as (tb & ta & r & Hrun & Hnext & Hout).
      rewrite Hz in Hrun.
      exists (Ev_createDecompressionContext :: t0 ++ tb),
             (ta ++ [Ev_freeDecompressionContext false]), r.
      split; [| split; [exact Hnext | exact Hout]].
      decompress_entry Hbs Hctx. rewrite Hrun.
      cbn [app]. rewrite <- !app_assoc. reflexivity.
    + intros Hroom.
      destruct (decompress_frame_growth_refused _ buffer_size ctx0 t0 frame_info
                  opt v0 v ctx' rep Hbounds Hbs Hbegin Hreach Hcall Hhint Hleft
                  (or_introl Hknown) Hroom)
        as (tb & e & Hrun & He).
      rewrite Hz in Hrun.
      exists (Ev_createDecompressionContext :: t0 ++ tb), e.
      split; [| exact He].
      decompress_entry Hbs Hctx. rewrite Hrun.
      cbn [app]. rewrite <- !app_assoc. reflexivity.
Qed.

(** *** Output of known length (C5, C6) *)

(** The events of a turn on a frame of declared length. *)
Lemma decompress_iter_declared_events input frame_info opt v :
  known_contentSize frame_info <> 0 ->
  exists r0 rest,
    fst (decompress_iter input frame_info opt v)
      = Ev_decompress (output_written (d_out v)) (input_read (d_in v)) (Some opt) r0
        :: rest /\
    (rest = [] \/ rest = [Ev_PyErr_WarnEx mismatch_warning] \/
     exists oldsize newsize,
       rest = [Ev_PyErr_WarnEx mismatch_warning; Ev_PyBytes_Resize oldsize newsize]).
Proof.
  intros Hknown. apply Z.eqb_neq in Hknown.
  unfold decompress_iter.
  destruct (LZ4F_decompress _ _ _ _ _) as [ctx' [rep | err]].
  2: { eexists _, []. split; [reflexivity | left; reflexivity]. }
  unfold BAIL_ON_LZ4_ERROR, _PyBytes_Resize.
  cbv beta iota zeta delta [bind emit ret raise].
  destruct (next_hint rep =? 0);
    [eexists _, []; split; [reflexivity | left; reflexivity] |].
  destruct (size_t_sub (input_remaining (d_in v)) (src_consumed rep) =? 0);
    [eexists _, []; split; [reflexivity | left; reflexivity] |].
  rewrite Hknown. clear Hknown. cbv beta iota delta [negb].
  match goal with
  | |- context [PyErr_WarnEx ?m] => destruct (PyErr_WarnEx m =? 0)
  end.
  2: { eexists _, _. split; [reflexivity | right; left; reflexivity]. }
  destruct (Py_ssize_t_of_size_t _ <? 0);
    [eexists _, _; split; [reflexivity | right; right; eexists _, _; reflexivity] |].
  destruct (_ =? _);
    [eexists _, _; split; [reflexivity | right; right; eexists _, _; reflexivity] |].
  destruct (PyMem_available _);
    eexists _, _; (split; [reflexivity | right; right; eexists _, _; reflexivity]).
Qed.

(** In a run on a frame of declared length, every call of the decoder has
    the option set, and every resize within the loop comes right after the
    warning. *)
Lemma decompress_loop_declared input frame_info opt :
  known_contentSize frame_info <> 0 ->
  stableDst opt = 1 ->
  forall (fuel : nat) (v : decompress_vars) t r,
    decompress_loop fuel input frame_info opt v = Some (t, r) ->
    forallb is_stable_call t = true /\
    forall tail,
      (forall warned, growth_warned warned tail = true) ->
      forall warned, growth_warned warned (t ++ tail) = true.
Proof.
  intros Hknown Hopt. induction fuel as [| fuel IH]; intros v t r E;
    [discriminate |].
  simpl in E.
  destruct (decompress_iter_declared_events input frame_info opt v Hknown)
    as (r0 & rest & Ht1 & Hrest).
  assert (Hcall : is_stable_call
                    (Ev_decompress (output_written (d_out v)) (input_read (d_in v))
                                   (Some opt) r0) = true).
  { cbn [is_stable_call]. rewrite Hopt. reflexivity. }
  assert (Hturn : forallb is_stable_call
                    (fst (decompress_iter input frame_info opt v)) = true /\
                  forall tail,
                    (forall warned, growth_warned warned tail = true) ->
                    forall warned,
                      growth_warned warned
                        (fst (decompress_iter input frame_info opt v) ++ tail) = true).
  { rewrite Ht1. cbn [forallb]. rewrite Hcall.
    destruct Hrest as [-> | [-> | (oldsize & newsize & ->)]];
      (split; [reflexivity |]); intros tail Htail warned;
      cbn [app growth_warned is_growth is_mismatch_warning negb];
      rewrite ?orb_true_r, ?Htail; reflexivity. }
  destruct Hturn as [Hstable Hwarned].
  destruct (decompress_iter input frame_info opt v) as [t1 [e | [v' | v']]];
    cbn [fst] in Hstable, Hwarned.
  - inversion E; subst. split; assumption.
  - destruct (decompress_loop fuel input frame_info opt v') as [[t' r'] |] eqn:E';
      [| discriminate].
    inversion E; subst. destruct (IH v' t' r E') as [Hstable' Hwarned'].
    split; [rewrite forallb_app, Hstable, Hstable'; reflexivity |].
    intros tail Htail warned. rewrite <- app_assoc.
    apply Hwarned. intros w. apply Hwarned'. exact Htail.
  - inversion E; subst. split; assumption.
Qed.

(** The object the loop leaves is at least as large as what it holds: cutting
    it to that does not enlarge it. *)
Lemma decompress_loop_final_size input frame_info opt :
  LZ4F_decompress_in_bounds ->
  forall (fuel : nat) (v : decompress_vars) t v',
    decompress_consistent v ->
    decompress_loop fuel input frame_info opt v = Some (t, inr v') ->
    output_len (d_out v') <= ob_size (output (d_out v')).
Proof.
  intros Hbounds. induction fuel as [| fuel IH]; intros v t v' Hcons E;
    [discriminate |].
  simpl in E.
  destruct (decompress_iter input frame_info opt v) as [t1 [e | [v1 | v1]]] eqn:Hiter.
  - discriminate.
  - destruct (decompress_loop fuel input frame_info opt v1) as [[t' r'] |] eqn:E';
      [| discriminate].
    inversion E; subst.
    destruct (decompress_iter_continue_grown _ _ _ _ _ _ Hbounds Hcons Hiter)
      as (ctx' & rep & _ & _ & _ & _ & _ & _ & Hcons1).
    exact (IH v1 t' v' Hcons1 E').
  - inversion E; subst.
    destruct (decompress_iter_break_inv _ _ _ _ _ _ Hiter)
      as (ctx' & rep & Hcall & _ & _ & Hout & Hlen').
    destruct (decompress_iter_break_output _ _ _ _ _ _ Hbounds Hcons Hcall
                Hout Hlen') as (Hsize & _ & Hlen & Hw).
    pose proof Hcons as ((_ & _ & _ & Hsum & _) & _).
    lia.
Qed.

(** What follows the loop enlarges nothing. *)
Lemma decompress_end_events (o : PyBytes) (n : Z) :
  n <= ob_size o ->
  existsb is_growth (fst (_PyBytes_Resize o n) ++ [Ev_freeDecompressionContext false])
    = false /\
  forallb is_stable_call
    (fst (_PyBytes_Resize o n) ++ [Ev_freeDecompressionContext false]) = true /\
  forall warned,
    growth_warned warned
      (fst (_PyBytes_Resize o n) ++ [Ev_freeDecompressionContext false]) = true.
Proof.
  intros Hn. rewrite PyBytes_Resize_trace.
  cbn [app existsb forallb growth_warned is_growth is_stable_call
       is_mismatch_warning].
  assert (H : (ob_size o <? n) = false) by (apply Z.ltb_ge; exact Hn).
  rewrite H. cbn [negb orb andb].
  repeat split. intros warned. rewrite orb_true_r. reflexivity.
Qed.

(** How the run starts when the header declares the length. *)
Lemma decompress_begin_declared (x : byte) (b : list byte) (buffer_size : int)
    ctx0 ctx1 frame_info header_size hint :
  LZ4F_getFrameInfo ctx0 (x :: b) (zlength (x :: b))
    = (ctx1, LZ4F_ok (frame_info, header_size, hint)) ->
  known_contentSize frame_info <> 0 ->
  decompress_begin (bytes_view (x :: b)) buffer_size ctx0
    = match PyBytes_FromStringAndSize (known_contentSize frame_info) with
      | (t, inl e) => (Ev_getFrameInfo (zlength (x :: b)) :: t, inl e)
      | (t, inr o) =>
          (Ev_getFrameInfo (zlength (x :: b)) :: t,
           inr (frame_info, {| stableDst := 1 |},
                {| ctx := ctx1;
                   d_in := {| input_pos := 0 + header_size;
                              input_remaining :=
                                size_t_sub (zlength (x :: b)) header_size;
                              input_read :=
                                size_t_sub (zlength (x :: b)) header_size;
                              input_size_hint := hint |};
                   d_out := {| output := o; output_pos := 0;
                               output_len := known_contentSize frame_info;
                               output_remaining := known_contentSize frame_info;
                               output_written := known_contentSize frame_info |} |}))
      end.
Proof.
  intros Hinfo Hknown. apply Z.eqb_neq in Hknown.
  unfold decompress_begin. rewrite input_window_all.
  unfold len. cbn [buf bytes_view]. rewrite Hinfo.
  unfold BAIL_ON_LZ4_ERROR. cbv beta iota zeta delta [bind emit ret raise].
  rewrite Hknown.
  destruct (PyBytes_FromStringAndSize (known_contentSize frame_info))
    as [t [e | o]]; cbn [app]; rewrite ?app_nil_r; reflexivity.
Qed.

(** C5 (as the code has it).  When the header gives the content length,
    [decompress] allocates exactly that many bytes for its output before it
    decodes, and makes every call of the decoder with [stableDst = 1].  It
    enlarges the output only when the first call of the decoder returns a
    nonzero hint while input is left, and every time it does, the mismatch
    warning is what it has issued just before. *)
Theorem declared_length_output (x : byte) (b : list byte) (buffer_size : int)
    ctx0 ctx1 frame_info header_size hint :
  LZ4F_decompress_in_bounds ->
  0 < int_val buffer_size ->
  LZ4F_createDecompressionContext LZ4F_VERSION = LZ4F_ok ctx0 ->
  LZ4F_getFrameInfo ctx0 (x :: b) (zlength (x :: b))
    = (ctx1, LZ4F_ok (frame_info, header_size, hint)) ->
  known_contentSize frame_info <> 0 ->
  exists t r,
    _lz4framed_decompress (bytes_view (x :: b)) buffer_size
      = Some (Ev_createDecompressionContext
              :: Ev_getFrameInfo (zlength (x :: b))
              :: Ev_PyBytes_FromStringAndSize (known_contentSize frame_info)
              :: t, r) /\
    forallb is_stable_call t = true /\
    growth_warned false t = true /\
    (existsb is_growth t = true ->
     let remaining := size_t_sub (zlength (x :: b)) header_size in
     exists ctx2 rep rest,
       LZ4F_decompress ctx1 (known_contentSize frame_info)
         (firstn (Z.to_nat remaining) (skipn (Z.to_nat header_size) (x :: b)))
         remaining (Some {| stableDst := 1 |}) = (ctx2, LZ4F_ok rep) /\
       next_hint rep <> 0 /\
       size_t_sub remaining (src_consumed rep) <> 0 /\
       t = Ev_decompress (known_contentSize frame_info) remaining
                         (Some {| stableDst := 1 |}) (LZ4F_ok rep)
           :: Ev_PyErr_WarnEx mismatch_warning :: rest).
Proof.
  intros Hbounds Hbs Hctx Hinfo Hknown.
  pose proof (decompress_begin_declared x b buffer_size _ _ _ _ _ Hinfo Hknown)
    as Hbegin.
  pose proof (PyBytes_FromStringAndSize_trace (known_contentSize frame_info))
    as Halloc.
  destruct (PyBytes_FromStringAndSize (known_contentSize frame_info))
    as [ta [e | o]]; cbn [fst] in Halloc; subst ta.
  { exists [Ev_freeDecompressionContext false], (inl e).
    split; [| repeat split; discriminate].
    decompress_entry Hbs Hctx. unfold decompress_frame. rewrite Hbegin.
    reflexivity. }
  set (opt := {| stableDst := 1 |}) in *.
  match type of Hbegin with
  | _ = (_, inr (_, _, ?s)) => set (v0 := s) in *
  end.
  pose proof (decompress_begin_consistent _ _ _ _ _ _ _ Hbs Hbegin) as Hcons0.
  destruct Hcons0 as ((Hlen0 & Hrest0) & Hin0).
  assert (Hcons0 : decompress_consistent v0) by (repeat split; tauto).
  assert (Hrun : exists tl rl,
            decompress_loop decompress_fuel (bytes_view (x :: b)) frame_info opt v0
            = Some (tl, rl)).
  { pose proof (decompress_loop_fuel (bytes_view (x :: b)) frame_info opt
                  decompress_fuel v0 Hlen0) as Hfuel.
    destruct (decompress_loop decompress_fuel _ _ _ _) as [[tl rl] |];
      [exists tl, rl; reflexivity |].
    exfalso. apply Hfuel; [| reflexivity].
    change (2 ^ Z.of_nat decompress_fuel) with (2 ^ 64). lia. }
  destruct Hrun as (tl & rl & Hrun).
  destruct (decompress_loop_declared (bytes_view (x :: b)) frame_info opt Hknown
              eq_refl _ _ _ _ Hrun) as [Hstable Hwarned].
  (* what follows the loop *)
  pose proof (decompress_frame_of_loop _ _ _ _ _ _ _ _ _ _ Hbs Hbegin Hrun) as Hframe.
  assert (Hend : existsb is_growth
                   (fst (decompress_end rl) ++ [Ev_freeDecompressionContext false])
                 = false /\
                 forallb is_stable_call
                   (fst (decompress_end rl) ++ [Ev_freeDecompressionContext false])
                 = true /\
                 forall warned,
                   growth_warned warned
                     (fst (decompress_end rl) ++ [Ev_freeDecompressionContext false])
                   = true).
  { destruct rl as [e | v']; cbn [decompress_end fst].
    - repeat split. intros warned. cbn. rewrite orb_true_r. reflexivity.
    - apply decompress_end_events.
      exact (decompress_loop_final_size _ _ _ Hbounds _ _ _ _ Hcons0 Hrun). }
  destruct Hend as (Hgrow & Hstable' & Hwarned').
  exists (tl ++ fst (decompress_end rl) ++ [Ev_freeDecompressionContext false]),
         (snd (decompress_end rl)).
  split.
  { decompress_entry Hbs Hctx. rewrite Hframe.
    cbn [app]. rewrite <- !app_assoc. reflexivity. }
  split; [rewrite forallb_app, Hstable, Hstable'; reflexivity |].
  split; [apply Hwarned; exact Hwarned' |].
  rewrite existsb_app, Hgrow, orb_false_r. intros Hgrowth.
  cbv zeta.
  change decompress_fuel with (S 63) in Hrun.
  destruct (decoder_call (bytes_view (x :: b)) opt v0) as [ctx2 [rep | err]]
    eqn:Hcall.
  2: { unfold decoder_call in Hcall. simpl in Hrun.
       rewrite (decompress_iter_error _ frame_info _ _ _ _ Hcall) in Hrun.
       inversion Hrun; subst. discriminate. }
  destruct (Z.eq_dec (next_hint rep) 0) as [Hh | Hh].
  { unfold decoder_call in Hcall. simpl in Hrun.
    destruct (decompress_iter_break _ frame_info _ _ _ _ Hcall Hh) as (vb & Eb & _).
    rewrite Eb in Hrun. inversion Hrun; subst. discriminate. }
  destruct (Z.eq_dec (size_t_sub (input_remaining (d_in v0)) (src_consumed rep)) 0)
    as [Hz | Hnz].
  { unfold decoder_call in Hcall. simpl in Hrun.
    rewrite (decompress_iter_incomplete _ frame_info _ _ _ _ Hcall Hh Hz) in Hrun.
    inversion Hrun; subst. discriminate. }
  destruct (decompress_iter_mismatch_events _ frame_info _ _ _ _ Hcall Hh Hnz Hknown)
    as (rest & Hev).
  unfold decoder_call in Hcall. subst v0.
  cbn [ctx d_in d_out output_written input_pos input_read input_remaining]
    in Hcall, Hnz, Hev.
  rewrite Z.add_0_l in Hcall. unfold input_window in Hcall.
  cbn [buf bytes_view] in Hcall.
  exists ctx2, rep.
  destruct (decompress_loop_events _ _ _ _ _ _ _ Hrun)
    as [[-> _] | (v' & t' & _ & ->)]; rewrite Hev; eexists;
    (split; [exact Hcall |]); (split; [exact Hh |]); (split; [exact Hnz |]);
    cbn [app]; reflexivity.
Qed.

(** C6 (as the code has it).  In a run of [decompress] on a frame of declared
    length, at a call where the decoder returns a nonzero hint while input is
    left, the warning is issued.  If [PyErr_WarnEx] returns 0 and the
    interpreter gives twice the size, [decompress] resizes the output and
    calls the decoder again on the room this leaves, and what the output held
    and what the call wrote are the beginning of what it returns.  If
    [PyErr_WarnEx] returns nonzero, [decompress] does nothing more than
    release the context, and fails with the warning as its exception. *)
Theorem declared_length_mismatch (x : byte) (b : list byte) (buffer_size : int)
    ctx0 t0 frame_info opt v0 v ctx' rep :
  LZ4F_decompress_in_bounds ->
  0 < int_val buffer_size ->
  LZ4F_createDecompressionContext LZ4F_VERSION = LZ4F_ok ctx0 ->
  decompress_begin (bytes_view (x :: b)) buffer_size ctx0
    = (t0, inr (frame_info, opt, v0)) ->
  known_contentSize frame_info <> 0 ->
  decompress_reaches (bytes_view (x :: b)) frame_info opt v0 v ->
  decoder_call (bytes_view (x :: b)) opt v = (ctx', LZ4F_ok rep) ->
  next_hint rep <> 0 ->
  src_consumed rep <> input_remaining (d_in v) ->
  (PyErr_WarnEx mismatch_warning = 0 ->
   2 * output_len (d_out v) <= PY_SSIZE_T_MAX ->
   PyMem_available (2 * output_len (d_out v)) = true ->
   exists t_before t_after r,
     _lz4framed_decompress (bytes_view (x :: b)) buffer_size
       = Some (t_before
               ++ [Ev_decompress (output_written (d_out v)) (input_read (d_in v))
                                 (Some opt) (LZ4F_ok rep);
                   Ev_PyErr_WarnEx mismatch_warning;
                   Ev_PyBytes_Resize (output_len (d_out v))
                                     (2 * output_len (d_out v));
                   Ev_decompress
                     (output_remaining (d_out v) - zlength (dst_written rep)
                      + output_len (d_out v))
                     (input_remaining (d_in v) - src_consumed rep) (Some opt)
                     (snd (decoder_call (bytes_view (x :: b)) opt
                                        (grown v ctx' rep)))]
               ++ t_after, r) /\
     decompress_reaches (bytes_view (x :: b)) frame_info opt v0 (grown v ctx' rep) /\
     (forall out, r = inr out ->
        exists more,
          out = bytes_of (ob_sval (output (d_out v)) ++ dst_written rep ++ more))) /\
  (PyErr_WarnEx mismatch_warning <> 0 ->
   exists t_before,
     _lz4framed_decompress (bytes_view (x :: b)) buffer_size
       = Some (t_before
               ++ [Ev_decompress (output_written (d_out v)) (input_read (d_in v))
                                 (Some opt) (LZ4F_ok rep);
                   Ev_PyErr_WarnEx mismatch_warning;
                   Ev_freeDecompressionContext false],
               inl (PyExc_RuntimeWarning mismatch_warning))).
Proof.
  intros Hbounds Hbs Hctx Hbegin Hknown Hreach Hcall Hhint Hleft.
  split.
  - intros Hwarn Hmax Hmem.
    destruct (decompress_frame_growth _ buffer_size ctx0 t0 frame_info opt v0 v
                ctx' rep Hbounds Hbs Hbegin Hreach Hcall Hhint Hleft
                (or_intror Hwarn) Hmax Hmem)
      as (tb & ta & r & Hrun & Hnext & Hout).
    apply Z.eqb_neq in Hknown. rewrite Hknown in Hrun.
    exists (Ev_createDecompressionContext :: t0 ++ tb),
           (ta ++ [Ev_freeDecompressionContext false]), r.
    split; [| split; [exact Hnext | exact Hout]].
    decompress_entry Hbs Hctx. rewrite Hrun.
    cbn [app]. rewrite <- !app_assoc. reflexivity.
  - intros Hwarn. unfold decoder_call in Hcall.
    pose proof (decompress_begin_consistent _ _ _ _ _ _ _ Hbs Hbegin) as Hcons0.
    pose proof (decompress_reaches_consistent _ _ _ Hbounds _ _ Hreach Hcons0)
      as Hcons.
    pose proof Hcons as ((Hl & Hsize & Hpos & Hsum & Hrem0 & Hwr) & Hread & Hrem).
    assert (Hdst : 0 <= output_written (d_out v)) by lia.
    assert (Hsrc : 0 <= input_read (d_in v)) by lia.
    destruct (Hbounds _ _ _ _ _ _ _ Hdst Hsrc Hcall) as [Hw Hc].
    assert (Hiter : decompress_iter (bytes_view (x :: b)) frame_info opt v =
              ([Ev_decompress (output_written (d_out v)) (input_read (d_in v))
                  (Some opt) (LZ4F_ok rep);
                Ev_PyErr_WarnEx mismatch_warning],
               inl (PyExc_RuntimeWarning mismatch_warning))).
    { apply (decompress_iter_warning_raises _ frame_info _ _ _ _ Hcall Hhint);
        [| exact Hknown | exact Hwarn].
      unfold size_t_sub. rewrite size_t_wrap_small; lia. }
    destruct (decompress_frame_through _ buffer_size ctx0 t0 frame_info opt v0 v
                Hbs Hbegin Hreach) as (tb & ta & r & Hrun & Hafter).
    rewrite Hiter in Hrun, Hafter. cbn [fst snd] in Hrun, Hafter.
    destruct Hafter as [-> ->].
    exists (Ev_createDecompressionContext :: t0 ++ tb).
    decompress_entry Hbs Hctx. rewrite Hrun.
    cbn [app]. rewrite <- !app_assoc. reflexivity.
Qed.

(** *** Round trip (C1) *)

Lemma input_window_rest (frame : list byte) (h : Z) :
  0 <= h <= zlength frame ->
  input_window (bytes_view frame) (0 + h) (zlength frame - h)
    = skipn (Z.to_nat h) frame.
Proof.
  intros Hh. unfold input_window. cbn [buf bytes_view]. rewrite Z.add_0_l.
  apply firstn_all2. rewrite length_skipn. unfold zlength in *. lia.
Qed.

Lemma compress_frame (x : byte) (b : list byte)
    (block_id block_mode_linked checksum level block_checksum : int)
    (bound : Z) (frame : list byte) :
  _valid_lz4f_block_size_id block_id = true ->
  int_val level <= LZ4_COMPRESSION_MAX ->
  frame_compressed (x :: b)
    (compress_prefs (bytes_view (x :: b)) block_id block_mode_linked checksum
                    level block_checksum) bound frame ->
  bound <= PY_SSIZE_T_MAX ->
  PyMem_available bound = true ->
  zlength frame = bound \/ PyMem_available (zlength frame) = true ->
  _lz4framed_compress (bytes_view (x :: b)) block_id block_mode_linked checksum
                      level block_checksum
    = ([Ev_compressFrameBound (zlength (x :: b));
        Ev_PyBytes_FromStringAndSize bound;
        Ev_compressFrame bound (zlength (x :: b));
        Ev_PyBytes_Resize bound (zlength frame)],
       inr (bytes_of frame)).
Proof.
  intros Hvalid Hlevel (Hbound & Hframe & _ & Hfit) Hmax Hmem Hmem'.
  assert (Hlen : (len (bytes_view (x :: b)) <=? 0) = false).
  { apply Z.leb_gt. unfold len. simpl buf. rewrite zlength_cons.
    pose proof (zlength_nonneg b). lia. }
  assert (Hle : (int_val level >? LZ4_COMPRESSION_MAX) = false).
  { rewrite Z.gtb_ltb. apply Z.ltb_ge. exact Hlevel. }
  pose proof (zlength_nonneg frame) as Hf0.
  unfold _lz4framed_compress.
  rewrite Hlen, Hvalid, Hle. cbn [PyBuffer_IsContiguous bytes_view c_contiguous negb].
  unfold len. cbn [buf bytes_view]. fold (bytes_view (x :: b)).
  rewrite Hbound.
  unfold BAIL_ON_LZ4_ERROR, PyBytes_FromStringAndSize.
  cbv beta iota zeta delta [bind emit ret raise].
  rewrite (Py_ssize_t_of_small bound) by lia. rewrite Hmem, Hframe.
  assert (Hres :
    _PyBytes_Resize (PyBytes_store {| ob_size := bound; ob_sval := [] |} 0 frame)
      (zlength frame)
    = ([Ev_PyBytes_Resize bound (zlength frame)], inr (bytes_of frame))).
  { rewrite PyBytes_Resize_succeeds.
    - reflexivity.
    - lia.
    - unfold PyBytes_store. cbn [ob_sval firstn Z.to_nat app]. lia.
    - unfold PyBytes_store. cbn [ob_size]. destruct Hmem' as [H | H]; auto. }
  cbv beta iota zeta delta [bind emit ret raise]. rewrite Hres. reflexivity.
Qed.

Lemma decompress_frame_at_once (frame data : list byte) (buffer_size : int) :
  0 < int_val buffer_size ->
  frame <> [] -> data <> [] ->
  frame_decoded_at_once frame data ->
  zlength data <= PY_SSIZE_T_MAX ->
  zlength frame <= PY_SSIZE_T_MAX ->
  PyMem_available (zlength data) = true ->
  exists t,
    _lz4framed_decompress (bytes_view frame) buffer_size
      = Some (t, inr (bytes_of data)).
Proof.
  intros Hbs Hframe Hdata
    (ctx0 & ctx1 & ctx2 & fi & h & hint & rep & Hctx & Hinfo & Hcs & Hh & Hdec
     & Hout & Hhint) Hdmax Hfmax Hmem.
  assert (Hd0 : 0 < zlength data).
  { destruct data; [contradiction |]. rewrite zlength_cons.
    pose proof (zlength_nonneg data). lia. }
  assert (Hf0 : 0 < zlength frame).
  { destruct frame; [contradiction |]. rewrite zlength_cons.
    pose proof (zlength_nonneg frame). lia. }
  assert (Hknown : known_contentSize fi = zlength data).
  { unfold known_contentSize. rewrite Hcs. apply size_t_wrap_small.
    unfold PY_SSIZE_T_MAX, SIZE_T_MODULUS in *. lia. }
  assert (Hknz : (known_contentSize fi =? 0) = false)
    by (apply Z.eqb_neq; lia).
  assert (Hrem : size_t_sub (zlength frame) h = zlength frame - h).
  { unfold size_t_sub. apply size_t_wrap_small.
    unfold PY_SSIZE_T_MAX, SIZE_T_MODULUS in *. lia. }
  (* the header *)
  assert (Hbegin :
    decompress_begin (bytes_view frame) buffer_size ctx0 =
      ([Ev_getFrameInfo (zlength frame);
        Ev_PyBytes_FromStringAndSize (zlength data)],
       inr (fi, {| stableDst := 1 |},
            {| ctx := ctx1;
               d_in := {| input_pos := 0 + h;
                          input_remaining := zlength frame - h;
                          input_read := zlength frame - h;
                          input_size_hint := hint |};
               d_out := {| output := {| ob_size := zlength data; ob_sval := [] |};
                           output_pos := 0; output_len := zlength data;
                           output_remaining := zlength data;
                           output_written := zlength data |} |}))).
  { unfold decompress_begin. rewrite input_window_all.
    unfold len. cbn [buf bytes_view]. rewrite Hinfo.
    unfold BAIL_ON_LZ4_ERROR, PyBytes_FromStringAndSize.
    cbv beta iota zeta delta [bind emit ret raise].
    rewrite Hknz, Hknown, Hrem.
    rewrite (Py_ssize_t_of_small (zlength data)) by lia. rewrite Hmem.
    reflexivity. }
  (* the only turn of the loop *)
  set (v0 := {| ctx := ctx1;
                d_in := {| input_pos := 0 + h;
                           input_remaining := zlength frame - h;
                           input_read := zlength frame - h;
                           input_size_hint := hint |};
                d_out := {| output := {| ob_size := zlength data; ob_sval := [] |};
                            output_pos := 0; output_len := zlength data;
                            output_remaining := zlength data;
                            output_written := zlength data |} |}) in *.
  assert (Hcall :
    LZ4F_decompress (ctx v0) (output_written (d_out v0))
      (input_window (bytes_view frame) (input_pos (d_in v0)) (input_read (d_in v0)))
      (input_read (d_in v0)) (Some {| stableDst := 1 |}) = (ctx2, LZ4F_ok rep)).
  { subst v0. cbn [ctx d_in d_out output_written input_pos input_read].
    rewrite input_window_rest by exact Hh. exact Hdec. }
  destruct (decompress_iter_break (bytes_view frame) fi _ _ _ _ Hcall Hhint)
    as (v1 & Hiter & Hout1 & Hlen1).
  assert (Hloop :
    decompress_loop decompress_fuel (bytes_view frame) fi {| stableDst := 1 |} v0
    = Some ([Ev_decompress (output_written (d_out v0)) (input_read (d_in v0))
               (Some {| stableDst := 1 |}) (LZ4F_ok rep)], inr v1)).
  { unfold decompress_fuel. simpl decompress_loop. rewrite Hiter. reflexivity. }
  assert (Hfinal :
    _PyBytes_Resize (output (d_out v1)) (output_len (d_out v1))
    = ([Ev_PyBytes_Resize (zlength data) (zlength data)], inr (bytes_of data))).
  { rewrite Hout1, Hlen1, Hout. subst v0.
    cbn [d_out output output_pos output_len output_remaining].
    assert (E0 : size_t_sub (zlength data) (zlength data) = 0).
    { unfold size_t_sub. rewrite Z.sub_diag. reflexivity. }
    rewrite E0.
    assert (E1 : size_t_sub (zlength data) 0 = zlength data).
    { unfold size_t_sub. rewrite Z.sub_0_r. apply size_t_wrap_small.
      unfold PY_SSIZE_T_MAX, SIZE_T_MODULUS in *. lia. }
    rewrite E1. rewrite PyBytes_Resize_succeeds.
    - reflexivity.
    - lia.
    - unfold PyBytes_store. cbn [ob_sval firstn Z.to_nat app]. lia.
    - left. reflexivity. }
  assert (Hlenf : (len (bytes_view frame) <=? 0) = false).
  { apply Z.leb_gt. exact Hf0. }
  apply Z.leb_gt in Hbs.
  unfold _lz4framed_decompress, decompress_check_args.
  cbn [PyBuffer_IsContiguous bytes_view c_contiguous negb].
  rewrite Hlenf, Hbs, Hctx. unfold BAIL_ON_LZ4_ERROR.
  cbv beta iota zeta delta [bind emit ret raise].
  unfold decompress_frame. rewrite Hbegin, Hloop, Hfinal.
  eexists. reflexivity.
Qed.

(** C1.  For a non-empty buffer and valid preferences, [decompress] gives
    back what [compress] was given, provided the library does its part (it
    compresses the data into a frame within its bound, and decodes that
    frame, whose header carries the length of the data, in one call into a
    destination of that length) and the interpreter has the memory for the
    three byte objects. *)
Theorem compress_decompress_roundtrip (x : byte) (b : list byte)
    (block_id block_mode_linked checksum level block_checksum buffer_size : int)
    (bound : Z) (frame : list byte) :
  _valid_lz4f_block_size_id block_id = true ->
  int_val level <= LZ4_COMPRESSION_MAX ->
  0 < int_val buffer_size ->
  frame_compressed (x :: b)
    (compress_prefs (bytes_view (x :: b)) block_id block_mode_linked checksum
                    level block_checksum) bound frame ->
  frame_decoded_at_once frame (x :: b) ->
  bound <= PY_SSIZE_T_MAX ->
  zlength (x :: b) <= PY_SSIZE_T_MAX ->
  PyMem_available bound = true ->
  zlength frame = bound \/ PyMem_available (zlength frame) = true ->
  PyMem_available (zlength (x :: b)) = true ->
  exists t1 t2,
    _lz4framed_compress (bytes_view (x :: b)) block_id block_mode_linked checksum
                        level block_checksum
      = (t1, inr (bytes_of frame)) /\
    _lz4framed_decompress (bytes_view frame) buffer_size
      = Some (t2, inr (bytes_of (x :: b))).
Proof.
  intros Hvalid Hlevel Hbs Hcomp Hdec Hbmax Hdmax Hmemb Hmemf Hmemd.
  pose proof Hcomp as (_ & _ & Hne & Hfit).
  assert (Hx : x :: b <> []) by discriminate.
  assert (Hfmax : zlength frame <= PY_SSIZE_T_MAX) by lia.
  destruct (decompress_frame_at_once frame (x :: b) buffer_size Hbs Hne Hx Hdec
              Hdmax Hfmax Hmemd) as (t2 & H2).
  eexists _, t2. split; [| exact H2].
  exact (compress_frame x b block_id block_mode_linked checksum level
           block_checksum bound frame Hvalid Hlevel Hcomp Hbmax Hmemb Hmemf).
Qed.

(** *** The loop of [decompress_update] *)

Lemma parse_chunk_len_range (arg : option int) :
  0 <= parse_chunk_len arg < SIZE_T_MODULUS.
Proof.
  unfold SIZE_T_MODULUS. destruct arg as [i |]; simpl; [| lia].
  unfold store_int_in_size_t, INT_MODULUS.
  change (Z.shiftl (Z.shiftr 65536 32) 32) with 0. rewrite Z.lor_0_l.
  pose proof (Z.mod_pos_bound (int_val i) (2 ^ 32)). lia.
Qed.

(** One turn, decomposed: the chunk it decodes into, the call it makes, and
    the state it leaves. *)
Lemma decompress_update_iter_ok input chunk_len total done used dctx v dctx' t v' :
  LZ4F_decompress_in_bounds ->
  update_consistent chunk_len total done used v ->
  decompress_update_iter input chunk_len dctx v = (dctx', (t, inr v')) ->
  exists rep,
    let c := current_chunk chunk_len (u_chunk v) in
    LZ4F_decompress dctx (chunk_written c)
      (input_window input (input_pos (u_in v)) (input_read (u_in v)))
      (input_read (u_in v)) None = (dctx', LZ4F_ok rep) /\
    0 < chunk_written c /\
    zlength (dst_written rep) <= chunk_written c /\
    0 <= src_consumed rep <= input_remaining (u_in v) /\
    decoded t = dst_written rep /\
    consumed t = src_consumed rep /\
    (forall h, last_hint h t = next_hint rep) /\
    v' = after_call (u_in v) c rep /\
    update_consistent chunk_len total (done ++ dst_written rep)
                      (used + src_consumed rep) v'.
Proof.
  intros Hbounds Hcons E.
  destruct Hcons as (HL & Hsize & Hpos & Hsum & Hrem0 & Hwr & Hread & Hin0 & Hin
                     & Htot & Hused & Hipos & full & Hlist & Hfull & Hdone).
  unfold decompress_update_iter in E. cbv zeta in E.
  set (c := current_chunk chunk_len (u_chunk v)).
  (* the chunk decoded into, and the events of its allocation *)
  assert (Hc : exists ta,
    (if chunk_remaining (u_chunk v) =? 0
     then chunk' <- PyBytes_FromStringAndSize chunk_len ;;
          ret {| result_list := result_list (u_chunk v)
                                ++ [PyBytes_Object (chunk (u_chunk v))];
                 chunk := chunk'; chunk_pos := 0;
                 chunk_remaining := chunk_len; chunk_written := chunk_len |}
     else ret (u_chunk v)) = (ta, inr c) /\ decoded ta = [] /\ consumed ta = 0 /\
    (forall h, last_hint h ta = h)).
  { subst c. unfold current_chunk.
    destruct (chunk_remaining (u_chunk v) =? 0) eqn:Hz.
    - destruct (PyBytes_FromStringAndSize chunk_len) as [ta [e | o]] eqn:EA.
      + simpl in E. inversion E.
      + apply PyBytes_FromStringAndSize_ok in EA.
        destruct EA as (-> & _ & _ & ->).
        eexists. split; [reflexivity |]. repeat split.
    - eexists. split; [reflexivity |]. repeat split. }
  destruct Hc as (ta & Hc & Hda & Hca & Hha). rewrite Hc in E.
  assert (Hcc : ob_size (chunk c) = chunk_len /\
                zlength (ob_sval (chunk c)) = chunk_pos c /\
                chunk_pos c + chunk_remaining c = chunk_len /\
                0 < chunk_remaining c /\
                chunk_written c = chunk_remaining c /\
                exists full',
                  result_list c = map PyBytes_Object full' /\
                  Forall (fun f => ob_size f = chunk_len /\
                                   zlength (ob_sval f) = chunk_len) full' /\
                  List.concat (map ob_sval full') ++ ob_sval (chunk c) = done).
  { subst c. unfold current_chunk.
    destruct (Z.eqb_spec (chunk_remaining (u_chunk v)) 0) as [Hz | Hnz].
    - unfold next_chunk. cbn [chunk ob_size ob_sval chunk_pos chunk_remaining
                               chunk_written result_list].
      repeat split; try lia; try reflexivity.
      exists (full ++ [chunk (u_chunk v)]).
      rewrite Hlist, !map_app, concat_app. cbn [map List.concat].
      rewrite !app_nil_r. split; [reflexivity |]. split; [| exact Hdone].
      apply Forall_app. split; [exact Hfull |].
      constructor; [| constructor]. split; [exact Hsize | lia].
    - repeat split; try assumption; try lia.
      exists full. repeat split; assumption. }
  destruct Hcc as (Hsize' & Hpos' & Hsum' & Hrem' & Hwr' & full' & Hlist' & Hfull'
                   & Hdone').
  destruct (LZ4F_decompress dctx (chunk_written c)
              (input_window input (input_pos (u_in v)) (input_read (u_in v)))
              (input_read (u_in v)) None) as [d1 [rep | err]] eqn:Hcall;
    unfold BAIL_ON_LZ4_ERROR in E;
    cbv beta iota zeta delta [bind emit ret raise] in E;
    [| inversion E].
  assert (Hdst : 0 <= chunk_written c) by lia.
  assert (Hsrc : 0 <= input_read (u_in v)) by lia.
  destruct (Hbounds _ _ _ _ _ _ _ Hdst Hsrc Hcall) as [Hw Hcs].
  pose proof (zlength_nonneg (dst_written rep)) as Hw0.
  pose proof (zlength_nonneg (ob_sval (chunk c))) as Hp0.
  assert (A1 : size_t_sub (chunk_remaining c) (zlength (dst_written rep))
               = chunk_remaining c - zlength (dst_written rep)).
  { unfold size_t_sub. apply size_t_wrap_small.
    unfold PY_SSIZE_T_MAX, SIZE_T_MODULUS in *. lia. }
  assert (A2 : size_t_sub (input_remaining (u_in v)) (src_consumed rep)
               = input_remaining (u_in v) - src_consumed rep).
  { unfold size_t_sub. apply size_t_wrap_small. lia. }
  rewrite A1, A2 in E.
  assert (Hst : PyBytes_store (chunk c) (chunk_pos c) (dst_written rep)
                = {| ob_size := ob_size (chunk c);
                     ob_sval := ob_sval (chunk c) ++ dst_written rep |}).
  { rewrite <- Hpos'. unfold PyBytes_store. rewrite firstn_zlength. reflexivity. }
  rewrite Hst in E. inversion E; subst dctx' t v'. clear E.
  exists rep. cbv zeta. fold c.
  split; [exact Hcall |]. split; [lia |]. split; [exact Hw |]. split; [lia |].
  split.
  { rewrite !decoded_app, Hda. cbn [decoded flat_map decoded_by app].
    rewrite ?app_nil_r. reflexivity. }
  split.
  { rewrite !consumed_app, Hca. cbn [consumed fold_right consumed_by]. lia. }
  split.
  { intros h. rewrite !last_hint_app, Hha. reflexivity. }
  split; [reflexivity |].
  unfold update_consistent, after_call.
  cbn [u_in u_chunk chunk ob_size ob_sval chunk_pos chunk_remaining chunk_written
       result_list input_read input_remaining input_pos].
  rewrite zlength_app.
  repeat split; try lia.
  exists full'. split; [exact Hlist' |]. split; [exact Hfull' |].
  rewrite app_assoc, Hdone'. reflexivity.
Qed.






(** The state in which [decompress_update] enters its loop. *)
Lemma decompress_update_start_consistent (data : list byte) (chunk_len : Z) :
  0 < chunk_len <= PY_SSIZE_T_MAX ->
  zlength data <= PY_SSIZE_T_MAX ->
  update_consistent chunk_len (zlength data) [] 0
    {| u_in := {| input_pos := 0; input_remaining := zlength data;
                  input_read := zlength data; input_size_hint := 1 |};
       u_chunk := {| result_list := [];
                     chunk := {| ob_size := chunk_len; ob_sval := [] |};
                     chunk_pos := 0; chunk_remaining := chunk_len;
                     chunk_written := chunk_len |} |}.
Proof.
  intros HL Hd. pose proof (zlength_nonneg data).
  unfold update_consistent. cbn.
  unfold PY_SSIZE_T_MAX, SIZE_T_MODULUS in *.
  repeat split; try lia.
  exists []. repeat split. constructor.
Qed.

(** *** The calls of [decompress_update] *)

(** Calls of the interpreter, before or after, change nothing to the calls of
    the decoder. *)
Lemma decoder_calls_skip input chunk_len d used filled (ta t : list event) d_end :
  forallb is_interpreter_call ta = true ->
  decoder_calls input chunk_len d used filled t d_end ->
  decoder_calls input chunk_len d used filled (ta ++ t) d_end.
Proof.
  induction ta as [| ev ta IH]; intros Hta H; [exact H |].
  cbn [forallb] in Hta. apply andb_true_iff in Hta. destruct Hta as [Hev Hta].
  destruct ev; try discriminate Hev; cbn [app decoder_calls]; apply IH; assumption.
Qed.

Lemma decoder_calls_then input chunk_len (tf : list event) :
  forallb is_interpreter_call tf = true ->
  forall (t : list event) d used filled d_end,
    decoder_calls input chunk_len d used filled t d_end ->
    decoder_calls input chunk_len d used filled (t ++ tf) d_end.
Proof.
  intros Htf. induction t as [| ev t IH]; intros d used filled d_end H.
  - rewrite <- (app_nil_r ([] ++ tf)). apply decoder_calls_skip; assumption.
  - destruct ev; cbn [app decoder_calls] in *; try (apply IH; exact H).
    destruct H as (H1 & H2 & H3 & H4 & H5 & H6 & H7 & d' & Hcall & Hrest).
    repeat split; try assumption.
    exists d'. split; [exact Hcall |]. apply IH. exact Hrest.
Qed.

(** What follows the loop only concerns the interpreter. *)
Lemma decompress_update_finish_trace chunk_len v :
  forallb is_interpreter_call (fst (decompress_update_finish chunk_len v)) = true.
Proof.
  unfold decompress_update_finish.
  destruct (chunk_remaining (u_chunk v) <? chunk_len); [| reflexivity].
  pose proof (PyBytes_Resize_trace (chunk (u_chunk v))
                (size_t_sub chunk_len (chunk_remaining (u_chunk v)))) as Htr.
  destruct (_PyBytes_Resize _ _) as [tr [e | c']]; simpl in Htr; subst tr;
    reflexivity.
Qed.

End Properties.

(** ** The calls of [decompress_update], read off its loop

    The steps that show [decoder_calls_in_loop] from the definitions of
    [decompress_update_loop] and [decompress_update_iter]: the turn is
    unfolded to the call it makes, on the bytes of the input at [input_pos]
    and on the room of the current chunk, and to the position and the chunk
    it leaves; the rest is the induction on the number of turns.  [Hbounds] is
    [LZ4F_decompress_in_bounds]. *)
Ltac decoder_calls_of_loop Hbounds :=
  unfold decoder_calls_in_loop;
  intros input chunk_len fuel; induction fuel as [| fuel IH];
  intros done used dctx v dctx' t r Hcons E; simpl in E;
  destruct ((input_remaining (u_in v) =? 0) || (input_size_hint (u_in v) =? 0))
    eqn:Hstop; try discriminate;
  try (inversion E; split; [reflexivity |]; intros Hrem Hhint;
       apply orb_true_iff in Hstop; destruct Hstop as [Hz | Hz];
       apply Z.eqb_eq in Hz; contradiction);
  apply orb_false_iff in Hstop; destruct Hstop as [Hleft _];
  apply Z.eqb_neq in Hleft;
  pose proof Hcons as (HL & Hsize & Hpos & Hsum & Hrem0 & Hwr & Hread & Hin0 & Hin
                       & Htot & Hused & Hipos & _);
  pose proof (zlength_nonneg (ob_sval (chunk (u_chunk v)))) as Hp0;
  set (c := current_chunk chunk_len (u_chunk v));
  assert (Hc : 0 <= chunk_pos c /\ 0 < chunk_written c /\
               chunk_pos c + chunk_written c = chunk_len /\
               chunk_remaining c = chunk_written c)
    by (subst c; unfold current_chunk;
        destruct (Z.eqb_spec (chunk_remaining (u_chunk v)) 0) as [Hfull | Hroom];
        cbn [next_chunk chunk_pos chunk_written chunk_remaining]; lia);
  destruct Hc as (Hc0 & Hc1 & Hc2 & Hc3);
  set (call := LZ4F_decompress dctx (chunk_written c)
                 (firstn (Z.to_nat (input_read (u_in v)))
                         (skipn (Z.to_nat (input_pos (u_in v))) (buf input)))
                 (input_read (u_in v)) None);
  (* the turn: the call, after the allocation of a chunk if the current one
     is full, and what it leaves *)
  assert (Hturn :
    (exists e, decompress_update_iter input chunk_len dctx v
               = (dctx, ([Ev_PyBytes_FromStringAndSize chunk_len], inl e))) \/
    (exists ta,
       forallb is_interpreter_call ta = true /\
       fst (snd (decompress_update_iter input chunk_len dctx v))
         = ta ++ [Ev_decompress (chunk_written c) (input_read (u_in v)) None
                                (snd call)] /\
       fst (decompress_update_iter input chunk_len dctx v) = fst call /\
       forall v1,
         snd (snd (decompress_update_iter input chunk_len dctx v)) = inr v1 ->
         exists rep,
           snd call = LZ4F_ok rep /\
           input_pos (u_in v1) = input_pos (u_in v) + src_consumed rep /\
           chunk_pos (u_chunk v1) = chunk_pos c + zlength (dst_written rep) /\
           chunk_remaining (u_chunk v1)
             = size_t_sub (chunk_remaining c) (zlength (dst_written rep))))
    by (subst c call; unfold decompress_update_iter, current_chunk, input_window;
        destruct (chunk_remaining (u_chunk v) =? 0);
        [ unfold PyBytes_FromStringAndSize;
          cbv beta iota zeta delta [bind emit ret raise];
          destruct (Py_ssize_t_of_size_t chunk_len <? 0);
          [left; eexists; reflexivity |];
          destruct (PyMem_available chunk_len); [| left; eexists; reflexivity];
          right; exists [Ev_PyBytes_FromStringAndSize chunk_len];
          cbn [next_chunk chunk_written chunk_pos chunk_remaining]
        | right; exists []; cbv beta iota zeta delta [bind emit ret raise] ];
        destruct (LZ4F_decompress _ _ _ _ _) as [d1 [rep | err]];
        unfold BAIL_ON_LZ4_ERROR; cbv beta iota zeta delta [bind emit ret raise];
        cbn [fst snd app]; repeat split; intros v1 Hv1; inversion Hv1;
        exists rep; repeat split);
  destruct Hturn as [(e & Hiter) | (ta & Hta & Ht1 & Hd1 & Hv1)];
  [ rewrite Hiter in E; inversion E; subst; split; [reflexivity | discriminate] |];
  (* the call of the turn heads the calls of the loop *)
  assert (Hfirst : forall t' d_end,
            decoder_calls input chunk_len (fst call)
              (input_pos (u_in v) + consumed_by
                 (Ev_decompress (chunk_written c) (input_read (u_in v)) None
                                (snd call)))
              (let filled' :=
                 chunk_pos c + zlength (decoded_by
                   (Ev_decompress (chunk_written c) (input_read (u_in v)) None
                                  (snd call))) in
               if filled' =? chunk_len then 0 else filled') t' d_end ->
            decoder_calls input chunk_len dctx (input_pos (u_in v)) (chunk_pos c)
              (ta ++ Ev_decompress (chunk_written c) (input_read (u_in v)) None
                                   (snd call) :: t') d_end)
    by (intros t' d_end Hrest; apply decoder_calls_skip; [exact Hta |];
        cbn [decoder_calls]; repeat split; try lia;
        exists (fst call); split; [subst call; apply surjective_pairing |];
        exact Hrest);
  destruct (decompress_update_iter input chunk_len dctx v)
    as [d1 [t1 [e | v1]]] eqn:Hiter; cbn [fst snd] in Ht1, Hd1, Hv1;
  [ (* the library reported an error *)
    inversion E; subst dctx' t r; split; [| discriminate];
    rewrite Ht1; apply Hfirst; cbn [decoder_calls]; exact Hd1
  | destruct (decompress_update_loop fuel input chunk_len d1 v1)
      as [[d2 [t2 r2]] |] eqn:Hloop; [| discriminate];
    inversion E; subst dctx' t r; clear E;
    destruct (Hv1 v1 eq_refl) as (rep & Hres & Hpos1 & Hfill1 & Hrem1);
    destruct (decompress_update_iter_ok _ _ _ _ _ _ _ _ _ _ Hbounds Hcons Hiter)
      as (rep' & _ & _ & _ & _ & _ & _ & _ & _ & Hcons1);
    destruct (IH _ _ _ _ _ _ _ Hcons1 Hloop) as [Hrest _];
    rewrite Ht1; split;
    [| intros _ _ v' _; rewrite !existsb_app; cbn [existsb is_decoder_call];
       rewrite orb_true_r; reflexivity ];
    rewrite <- app_assoc; apply Hfirst;
    rewrite Hres; cbn [consumed_by decoded_by]; cbv zeta;
    rewrite <- Hpos1, <- Hd1;
    replace (if chunk_pos c + zlength (dst_written rep) =? chunk_len
             then 0 else chunk_pos c + zlength (dst_written rep))
      with (chunk_pos (current_chunk chunk_len (u_chunk v1))); [exact Hrest |];
    assert (Hw : zlength (dst_written rep) <= chunk_written c)
      by (assert (Hdst : 0 <= chunk_written c) by lia;
          assert (Hsrc : 0 <= input_read (u_in v)) by lia;
          apply (Hbounds dctx (chunk_written c)
                   (firstn (Z.to_nat (input_read (u_in v)))
                      (skipn (Z.to_nat (input_pos (u_in v))) (buf input)))
                   (input_read (u_in v)) None (fst call) rep Hdst Hsrc);
          rewrite <- Hres; subst call; apply surjective_pairing);
    pose proof (zlength_nonneg (dst_written rep)) as Hw0;
    unfold current_chunk; rewrite Hrem1; unfold size_t_sub;
    rewrite size_t_wrap_small
      by (unfold PY_SSIZE_T_MAX, SIZE_T_MODULUS in *; lia);
    destruct (Z.eqb_spec (chunk_remaining c - zlength (dst_written rep)) 0);
    destruct (Z.eqb_spec (chunk_pos c + zlength (dst_written rep)) chunk_len);
    cbn [next_chunk chunk_pos]; rewrite ?Hfill1; lia ].

(** ** Chunks (C9) *)

Section Chunks.

Context {lz4 : LZ4FrameLib} {host : PyHost}.

#[local] Arguments size_t_wrap : simpl never.
#[local] Arguments size_t_add : simpl never.
#[local] Arguments size_t_sub : simpl never.
#[local] Arguments size_t_mul : simpl never.
#[local] Arguments Py_ssize_t_of_size_t : simpl never.
#[local] Arguments known_contentSize : simpl never.
#[local] Arguments input_window : simpl never.
#[local] Arguments LZ4F_error_number : simpl never.
#[local] Arguments Z.mul : simpl never.
#[local] Arguments Z.add : simpl never.
#[local] Arguments Z.sub : simpl never.


End Chunks.

(** ** Further properties *)

Section FurtherProperties.

Context {lz4 : LZ4FrameLib} {host : PyHost}.

#[local] Arguments size_t_wrap : simpl never.
#[local] Arguments size_t_add : simpl never.
#[local] Arguments size_t_sub : simpl never.
#[local] Arguments size_t_mul : simpl never.
#[local] Arguments Py_ssize_t_of_size_t : simpl never.
#[local] Arguments known_contentSize : simpl never.
#[local] Arguments input_window : simpl never.
#[local] Arguments LZ4F_error_number : simpl never.
#[local] Arguments Z.mul : simpl never.
#[local] Arguments Z.add : simpl never.
#[local] Arguments Z.sub : simpl never.

(** *** Library errors *)

(** X1.  The library reports the error [k] as the [size_t] value [-k].  The
    exception raised for it carries the library's name for the error and the
    number [k] itself. *)
Theorem lz4_error_carries_code (A : Type) (ev : event) (k : Z) :
  0 < k <= INT_MAX ->
  @BAIL_ON_LZ4_ERROR lz4 A ev (LZ4F_error (size_t_wrap (- k)))
    = ([ev], inl (LZ4FError (LZ4F_getErrorName (size_t_wrap (- k))) k)).
Proof.
  intros Hk. unfold INT_MAX in Hk.
  unfold BAIL_ON_LZ4_ERROR, bind, emit, raise. simpl app.
  assert (Hnum : LZ4F_error_number (size_t_wrap (- k)) = k).
  { unfold LZ4F_error_number, size_t_of_int, int_of_size_t, size_t_wrap,
      SIZE_T_MODULUS, INT_MODULUS.
    assert (H0 : (- k) mod 2 ^ 64 = 2 ^ 64 - k).
    { symmetry. apply Z.mod_unique with (q := -1); lia. }
    assert (H1 : (2 ^ 64 - k) mod 2 ^ 32 = 2 ^ 32 - k).
    { symmetry. apply Z.mod_unique with (q := 2 ^ 32 - 1); lia. }
    rewrite H0, H1.
    assert (H2 : (2 ^ 32 - k <? 2 ^ 32 / 2) = false).
    { apply Z.ltb_ge. change (2 ^ 32 / 2) with (2 ^ 31). lia. }
    rewrite H2.
    replace (- (2 ^ 32 - k - 2 ^ 32)) with k by lia.
    rewrite (Z.mod_small k (2 ^ 32)) by lia.
    assert (H3 : (k <? 2 ^ 32 / 2) = true).
    { apply Z.ltb_lt. change (2 ^ 32 / 2) with (2 ^ 31). lia. }
    rewrite H3. apply Z.mod_small. lia. }
  rewrite Hnum. reflexivity.
Qed.

(** *** Argument checks *)

(** X2.  [decompress] refuses a [buffer_size] of zero or less before it creates
    a context: the test is made on the [int] itself. *)
Theorem decompress_rejects_buffer_size (x : byte) (b : list byte) (buffer_size : int) :
  int_val buffer_size <= 0 ->
  _lz4framed_decompress (bytes_view (x :: b)) buffer_size
    = Some ([Ev_freeDecompressionContext true],
            inl (PyExc_ValueError "buffer_size (%d) invalid"
                                  (Some (int_val buffer_size)))).
Proof.
  intros Hbs.
  assert (Hlen : (len (bytes_view (x :: b)) <=? 0) = false).
  { apply Z.leb_gt. unfold len. simpl buf. rewrite zlength_cons.
    pose proof (zlength_nonneg b). lia. }
  apply Z.leb_le in Hbs.
  unfold _lz4framed_decompress, decompress_check_args.
  rewrite Hlen, Hbs. reflexivity.
Qed.

(** X4.  A block size identifier that is not one of the five is refused by
    [compress] and by [compress_begin], whatever the level is; the context is
    left as it was. *)
Theorem invalid_block_size_id_rejected (x : byte) (b : list byte)
    (cctx : _lz4f_cctx_t)
    (block_id block_mode_linked checksum autoflush level block_checksum : int) :
  _valid_lz4f_block_size_id block_id = false ->
  _lz4framed_compress (bytes_view (x :: b)) block_id block_mode_linked checksum
                      level block_checksum
    = ([], inl (PyExc_ValueError "block_size_id (%d) invalid"
                                 (Some (int_val block_id)))) /\
  _lz4framed_compress_begin (PyCapsule (cctx_pointer cctx)) block_id
                            block_mode_linked checksum autoflush level
                            block_checksum
    = (PyCapsule (cctx_pointer cctx),
       ([], inl (PyExc_ValueError "block_size_id (%d) invalid"
                                  (Some (int_val block_id))))).
Proof.
  intros Hvalid.
  assert (Hlen : (len (bytes_view (x :: b)) <=? 0) = false).
  { apply Z.leb_gt. unfold len. simpl buf. rewrite zlength_cons.
    pose proof (zlength_nonneg b). lia. }
  unfold _lz4framed_compress, _lz4framed_compress_begin.
  rewrite Hlen, Hvalid. split; reflexivity.
Qed.

(** *** Block sizes *)

(** X5.  With the identifiers of lz4frame.h, [_lz4f_block_size_from_id] never
    reads outside its table: it answers 0 for an identifier that is not valid,
    and an entry of the table for one that is. *)
Theorem block_size_from_id_in_table (id : int) :
  lz4frame_h_block_ids ->
  exists n,
    _lz4f_block_size_from_id id = Some n /\
    (_valid_lz4f_block_size_id id = false -> n = 0) /\
    (_valid_lz4f_block_size_id id = true -> In n blockSizes /\ 65536 <= n).
Proof.
  intros (Hd & H64 & H256 & H1 & H4).
  unfold _lz4f_block_size_from_id, _valid_lz4f_block_size_id.
  rewrite Hd, H64, H256, H1, H4.
  destruct (Z.eqb_spec (int_val id) 0) as [E | N0].
  { rewrite E. simpl. eexists. split; [reflexivity |].
    split; [discriminate |]. intros _. split; [left; reflexivity |].
    unfold KB. simpl. lia. }
  destruct (Z.eqb_spec (int_val id) 4) as [E | N4].
  { rewrite E. simpl. eexists. split; [reflexivity |].
    split; [discriminate |]. intros _. split; [left; reflexivity |].
    unfold KB. simpl. lia. }
  destruct (Z.eqb_spec (int_val id) 5) as [E | N5].
  { rewrite E. simpl. eexists. split; [reflexivity |].
    split; [discriminate |]. intros _. split; [right; left; reflexivity |].
    unfold KB. simpl. lia. }
  destruct (Z.eqb_spec (int_val id) 6) as [E | N6].
  { rewrite E. simpl. eexists. split; [reflexivity |].
    split; [discriminate |]. intros _.
    split; [right; right; left; reflexivity |]. unfold MB. simpl. lia. }
  destruct (Z.eqb_spec (int_val id) 7) as [E | N7].
  { rewrite E. simpl. eexists. split; [reflexivity |].
    split; [discriminate |]. intros _.
    split; [right; right; right; left; reflexivity |]. unfold MB. simpl. lia. }
  simpl. exists 0. split; [reflexivity |]. split; [reflexivity | discriminate].
Qed.

(** *** The chunk size of [decompress_update] *)

(** X6.  A [chunk_len] that is not negative reaches the function as it is, and
    leaving it out is the same as passing 65536. *)
Theorem chunk_len_as_given (fuel : nat) (capsule : PyObject) (input : Py_buffer)
    (i : int) :
  0 <= int_val i ->
  parse_chunk_len (Some i) = int_val i /\
  (int_val i = 65536 ->
   _lz4framed_decompress_update fuel capsule input (Some i)
     = _lz4framed_decompress_update fuel capsule input None).
Proof.
  intros Hi. pose proof (int_bounds i) as Hb. unfold INT_MAX in Hb.
  assert (Hp : parse_chunk_len (Some i) = int_val i).
  { unfold parse_chunk_len, store_int_in_size_t, INT_MODULUS.
    change (Z.shiftl (Z.shiftr 65536 32) 32) with 0. rewrite Z.lor_0_l.
    apply Z.mod_small. lia. }
  split; [exact Hp |].
  intros E. unfold _lz4framed_decompress_update. rewrite Hp, E. reflexivity.
Qed.

(** *** Errors of the library in [decompress] *)

(** X7.  An error of the library, when it reads the header or at any call of the
    decoder that a run comes to, ends [decompress] with [Lz4FramedError] for
    that error. *)
Theorem decompress_library_error (x : byte) (b : list byte) (buffer_size : int)
    (ctx0 : LZ4F_dctx) :
  0 < int_val buffer_size ->
  LZ4F_createDecompressionContext LZ4F_VERSION = LZ4F_ok ctx0 ->
  (forall ctx1 err,
     LZ4F_getFrameInfo ctx0 (x :: b) (zlength (x :: b)) = (ctx1, LZ4F_error err) ->
     _lz4framed_decompress (bytes_view (x :: b)) buffer_size
       = Some ([Ev_createDecompressionContext; Ev_getFrameInfo (zlength (x :: b));
                Ev_freeDecompressionContext false],
               inl (LZ4FError (LZ4F_getErrorName err) (LZ4F_error_number err)))) /\
  (forall t0 frame_info opt v0 v ctx' err,
     decompress_begin (bytes_view (x :: b)) buffer_size ctx0
       = (t0, inr (frame_info, opt, v0)) ->
     decompress_reaches (bytes_view (x :: b)) frame_info opt v0 v ->
     decoder_call (bytes_view (x :: b)) opt v = (ctx', LZ4F_error err) ->
     exists t,
       _lz4framed_decompress (bytes_view (x :: b)) buffer_size
         = Some (t, inl (LZ4FError (LZ4F_getErrorName err) (LZ4F_error_number err)))).
Proof.
  intros Hbs Hctx.
  assert (Hlen : (len (bytes_view (x :: b)) <=? 0) = false).
  { apply Z.leb_gt. unfold len. simpl buf. rewrite zlength_cons.
    pose proof (zlength_nonneg b). lia. }
  split.
  - intros ctx1 err Hinfo.
    pose proof Hbs as Hbs'. apply Z.leb_gt in Hbs'.
    unfold _lz4framed_decompress, decompress_check_args.
    rewrite Hlen, Hbs', Hctx.
    cbn [PyBuffer_IsContiguous bytes_view c_contiguous negb].
    unfold BAIL_ON_LZ4_ERROR. cbv beta iota zeta delta [bind emit ret raise].
    cbn [app]. unfold decompress_frame, decompress_begin.
    rewrite input_window_all. unfold len. cbn [buf bytes_view].
    rewrite Hinfo. reflexivity.
  - intros t0 frame_info opt v0 v ctx' err Hbegin Hreach Hcall.
    unfold decoder_call in Hcall.
    pose proof (decompress_iter_error _ frame_info _ _ _ _ Hcall) as Hiter.
    assert (Hloop : decompress_loop 1 (bytes_view (x :: b)) frame_info opt v
                    = Some ([Ev_decompress (output_written (d_out v))
                               (input_read (d_in v)) (Some opt) (LZ4F_error err)],
                            inl (LZ4FError (LZ4F_getErrorName err)
                                           (LZ4F_error_number err)))).
    { simpl. rewrite Hiter. reflexivity. }
    destruct (decompress_loop_from_reached _ _ _ _ _ Hreach _ _ _ Hloop)
      as (fuel0 & t1 & H0).
    eexists. eapply decompress_of_loop_error; eassumption.
Qed.

(** *** The length a frame declares *)

Lemma Py_ssize_t_of_large (z : Z) :
  PY_SSIZE_T_MAX < z < SIZE_T_MODULUS -> (Py_ssize_t_of_size_t z <? 0) = true.
Proof.
  intros Hz. unfold Py_ssize_t_of_size_t.
  rewrite size_t_wrap_small by (unfold PY_SSIZE_T_MAX in Hz; lia).
  destruct (Z.leb_spec z PY_SSIZE_T_MAX); [lia |].
  apply Z.ltb_lt. lia.
Qed.

(** X8.  [decompress] allocates what the header declares before it decodes
    anything.  A declared length above [PY_SSIZE_T_MAX] reaches the
    interpreter as a negative size and ends the call with [SystemError]; one
    of at most [PY_SSIZE_T_MAX - PyBytesObject_SIZE] that the allocator cannot
    give ends it with [MemoryError].  The decoder has not been called.  (The
    interpreter refuses the sizes in between on its own account, without
    asking the allocator; [PyBytes_FromStringAndSize] here does not tell that
    case apart, and nothing is said of it.) *)
Theorem decompress_trusts_declared_length (x : byte) (b : list byte)
    (buffer_size : int) (ctx0 ctx1 : LZ4F_dctx) (frame_info : LZ4F_frameInfo_t)
    (n hint : Z) :
  0 < int_val buffer_size ->
  LZ4F_createDecompressionContext LZ4F_VERSION = LZ4F_ok ctx0 ->
  LZ4F_getFrameInfo ctx0 (x :: b) (zlength (x :: b))
    = (ctx1, LZ4F_ok (frame_info, n, hint)) ->
  known_contentSize frame_info <> 0 ->
  (PY_SSIZE_T_MAX < known_contentSize frame_info ->
   _lz4framed_decompress (bytes_view (x :: b)) buffer_size
     = Some ([Ev_createDecompressionContext; Ev_getFrameInfo (zlength (x :: b));
              Ev_PyBytes_FromStringAndSize (known_contentSize frame_info);
              Ev_freeDecompressionContext false],
             inl PyExc_SystemError)) /\
  (known_contentSize frame_info <= PY_SSIZE_T_MAX - PyBytesObject_SIZE ->
   PyMem_available (known_contentSize frame_info) = false ->
   _lz4framed_decompress (bytes_view (x :: b)) buffer_size
     = Some ([Ev_createDecompressionContext; Ev_getFrameInfo (zlength (x :: b));
              Ev_PyBytes_FromStringAndSize (known_contentSize frame_info);
              Ev_freeDecompressionContext false],
             inl PyExc_MemoryError)).
Proof.
  intros Hbs Hctx Hinfo Hknown.
  assert (Hlen : (len (bytes_view (x :: b)) <=? 0) = false).
  { apply Z.leb_gt. unfold len. simpl buf. rewrite zlength_cons.
    pose proof (zlength_nonneg b). lia. }
  apply Z.leb_gt in Hbs. apply Z.eqb_neq in Hknown.
  pose proof (size_t_wrap_range (contentSize frame_info)) as Hrange.
  fold (known_contentSize frame_info) in Hrange.
  assert (Hstart :
    _lz4framed_decompress (bytes_view (x :: b)) buffer_size
    = match PyBytes_FromStringAndSize (known_contentSize frame_info) with
      | (t, inl e) =>
          Some ([Ev_createDecompressionContext; Ev_getFrameInfo (zlength (x :: b))]
                ++ t ++ [Ev_freeDecompressionContext false], inl e)
      | (t, inr o) => _lz4framed_decompress (bytes_view (x :: b)) buffer_size
      end).
  { destruct (PyBytes_FromStringAndSize (known_contentSize frame_info))
      as [t [e | o]] eqn:Halloc; [| reflexivity].
    unfold _lz4framed_decompress, decompress_check_args.
    rewrite Hlen, Hbs, Hctx.
    cbn [PyBuffer_IsContiguous bytes_view c_contiguous negb].
    unfold BAIL_ON_LZ4_ERROR. cbv beta iota zeta delta [bind emit ret raise].
    cbn [app]. unfold decompress_frame, decompress_begin.
    rewrite input_window_all. unfold len. cbn [buf bytes_view].
    rewrite Hinfo. unfold BAIL_ON_LZ4_ERROR.
    cbv beta iota zeta delta [bind emit ret raise]. rewrite Hknown, Halloc.
    reflexivity. }
  split.
  - intros Hbig. rewrite Hstart. unfold PyBytes_FromStringAndSize.
    cbv beta iota zeta delta [bind emit ret raise].
    rewrite Py_ssize_t_of_large by lia. reflexivity.
  - intros Hsmall Hmem. rewrite Hstart. unfold PyBytes_FromStringAndSize.
    cbv beta iota zeta delta [bind emit ret raise].
    unfold PyBytesObject_SIZE in Hsmall.
    rewrite Py_ssize_t_of_small by lia. rewrite Hmem. reflexivity.
Qed.

(** *** The events of a run of [decompress] *)

(** One turn of the loop calls the decoder once, and then only the
    interpreter. *)
Lemma decompress_iter_trace input frame_info opt v :
  exists rest,
    fst (decompress_iter input frame_info opt v)
      = Ev_decompress (output_written (d_out v)) (input_read (d_in v)) (Some opt)
                      (snd (decoder_call input opt v)) :: rest /\
    forallb is_interpreter_call rest = true.
Proof.
  unfold decompress_iter, decoder_call.
  destruct (LZ4F_decompress _ _ _ _ _) as [ctx' [rep | err]]; cbn [snd].
  2: { exists []. split; reflexivity. }
  unfold BAIL_ON_LZ4_ERROR, _PyBytes_Resize.
  cbv beta iota zeta delta [bind emit ret raise].
  destruct (next_hint rep =? 0); [exists []; split; reflexivity |].
  destruct (size_t_sub (input_remaining (d_in v)) (src_consumed rep) =? 0);
    [exists []; split; reflexivity |].
  cbv beta iota delta [negb].
  destruct (known_contentSize frame_info =? 0).
  - destruct (Py_ssize_t_of_size_t _ <? 0); [eexists; split; reflexivity |].
    destruct (_ =? _); [eexists; split; reflexivity |].
    destruct (PyMem_available _); eexists; split; reflexivity.
  - match goal with
    | |- context [PyErr_WarnEx ?m] => destruct (PyErr_WarnEx m =? 0)
    end; [| eexists; split; reflexivity].
    destruct (Py_ssize_t_of_size_t _ <? 0); [eexists; split; reflexivity |].
    destruct (_ =? _); [eexists; split; reflexivity |].
    destruct (PyMem_available _); eexists; split; reflexivity.
Qed.

Lemma interpreter_calls_trace (rest : list event) :
  forallb is_interpreter_call rest = true ->
  existsb is_release rest = false /\
  filter is_decoder_call rest = [] /\
  decoded rest = [].
Proof.
  induction rest as [| ev rest IH]; intros H; [repeat split |].
  simpl in H. apply andb_true_iff in H. destruct H as [Hev Hrest].
  destruct (IH Hrest) as (H1 & H2 & H3).
  unfold decoded in *. simpl. rewrite H1, H2, H3.
  destruct ev; try discriminate Hev; repeat split.
Qed.

(** The loop never releases the context, and calls the decoder once a
    turn. *)
Lemma decompress_loop_trace input frame_info opt :
  forall (fuel : nat) (v : decompress_vars) t r,
    decompress_loop fuel input frame_info opt v = Some (t, r) ->
    existsb is_release t = false /\
    (List.length (filter is_decoder_call t) <= fuel)%nat.
Proof.
  induction fuel as [| fuel IH]; intros v t r E; [discriminate |].
  simpl in E.
  destruct (decompress_iter_trace input frame_info opt v) as (rest & Ht & Hrest).
  destruct (interpreter_calls_trace rest Hrest) as (H1 & H2 & _).
  destruct (decompress_iter input frame_info opt v) as [t1 [e | [v' | v']]];
    simpl in Ht; subst t1.
  - inversion E; subst. simpl. rewrite H1, H2. split; [reflexivity | simpl; lia].
  - destruct (decompress_loop fuel input frame_info opt v') as [[t' r'] |] eqn:E';
      [| discriminate].
    inversion E; subst. destruct (IH v' t' r E') as [H1' H2'].
    simpl. rewrite existsb_app, filter_app, length_app, H1, H2, H1'.
    split; [reflexivity | simpl; lia].
  - inversion E; subst. simpl. rewrite H1, H2. split; [reflexivity | simpl; lia].
Qed.

Lemma decompress_begin_trace input (buffer_size : int) ctx0 :
  exists rest,
    fst (decompress_begin input buffer_size ctx0)
      = Ev_getFrameInfo (len input) :: rest /\
    forallb is_interpreter_call rest = true.
Proof.
  unfold decompress_begin.
  destruct (LZ4F_getFrameInfo _ _ _) as [ctx1 [[[fi n] hint] | err]];
    [| exists []; split; reflexivity].
  unfold BAIL_ON_LZ4_ERROR, PyBytes_FromStringAndSize.
  cbv beta iota zeta delta [bind emit ret raise].
  destruct (Py_ssize_t_of_size_t _ <? 0); [eexists; split; reflexivity |].
  destruct (PyMem_available _); eexists; split; reflexivity.
Qed.

(** Between the creation of the context and its release. *)
Lemma decompress_frame_trace input (buffer_size : int) ctx0 t r :
  decompress_frame input buffer_size ctx0 = Some (t, r) ->
  existsb is_release t = false /\
  (List.length (filter is_decoder_call t) <= decompress_fuel)%nat.
Proof.
  unfold decompress_frame.
  destruct (decompress_begin_trace input buffer_size ctx0) as (rest & Ht & Hrest).
  destruct (interpreter_calls_trace rest Hrest) as (H1 & H2 & _).
  destruct (decompress_begin input buffer_size ctx0) as [t0 [e | [[fi opt] v0]]];
    simpl in Ht; subst t0.
  - intros E. inversion E; subst. simpl. rewrite H1, H2.
    split; [reflexivity | simpl; lia].
  - destruct (decompress_loop decompress_fuel input fi opt v0)
      as [[t' [e | v']] |] eqn:E';
      [| | discriminate].
    + intros E. inversion E; subst.
      destruct (decompress_loop_trace _ _ _ _ _ _ _ E') as [H1' H2'].
      simpl. rewrite existsb_app, filter_app, length_app, H1, H2, H1'.
      split; [reflexivity | simpl; lia].
    + pose proof (PyBytes_Resize_trace (output (d_out v')) (output_len (d_out v')))
        as Hres.
      destruct (_PyBytes_Resize _ _) as [t'' r'']. simpl in Hres. subst t''.
      intros E. inversion E; subst.
      destruct (decompress_loop_trace _ _ _ _ _ _ _ E') as [H1' H2'].
      simpl. rewrite !existsb_app, !filter_app, !length_app, H1, H2, H1'.
      split; [reflexivity | simpl; lia].
Qed.

(** X9.  [decompress] releases its context exactly once, as the last thing it
    does, on every way out: a context if it has created one, and [NULL] if it
    has not. *)
Theorem decompress_releases_context_once input (buffer_size : int) :
  exists t is_null r,
    _lz4framed_decompress input buffer_size
      = Some (t ++ [Ev_freeDecompressionContext is_null], r) /\
    existsb is_release t = false /\
    (is_null = false <->
     decompress_check_args input buffer_size = ret tt /\
     exists ctx0, LZ4F_createDecompressionContext LZ4F_VERSION = LZ4F_ok ctx0).
Proof.
  unfold _lz4framed_decompress.
  assert (Hfail : forall e,
    decompress_check_args input buffer_size = raise e ->
    exists t is_null r,
      match decompress_check_args input buffer_size;;;
            BAIL_ON_LZ4_ERROR Ev_createDecompressionContext
              (LZ4F_createDecompressionContext LZ4F_VERSION) with
      | (t, inl e) => Some (t ++ [Ev_freeDecompressionContext true], inl e)
      | (t, inr ctx0) =>
          match decompress_frame input buffer_size ctx0 with
          | Some (t', r) => Some (t ++ t' ++ [Ev_freeDecompressionContext false], r)
          | None => None
          end
      end = Some (t ++ [Ev_freeDecompressionContext is_null], r) /\
      existsb is_release t = false /\
      (is_null = false <->
       decompress_check_args input buffer_size = ret tt /\
       exists ctx0, LZ4F_createDecompressionContext LZ4F_VERSION = LZ4F_ok ctx0)).
  { intros e He. rewrite He. exists [], true, (inl e).
    split; [reflexivity |]. split; [reflexivity |].
    split; [discriminate | intros [H _]; discriminate H]. }
  unfold decompress_check_args in *.
  destruct (negb (PyBuffer_IsContiguous input)); [eapply Hfail; reflexivity |].
  destruct (len input <=? 0); [eapply Hfail; reflexivity |].
  destruct (Z.leb_spec (int_val buffer_size) 0) as [Hle | Hpos];
    [eapply Hfail; reflexivity |].
  clear Hfail. unfold BAIL_ON_LZ4_ERROR.
  destruct (LZ4F_createDecompressionContext LZ4F_VERSION) as [ctx0 | err].
  - cbv beta iota zeta delta [bind emit ret raise]. cbn [app].
    pose proof (decompress_frame_total input buffer_size ctx0 Hpos) as Htot.
    destruct (decompress_frame input buffer_size ctx0) as [[t' r] |] eqn:E;
      [| contradiction].
    destruct (decompress_frame_trace _ _ _ _ _ E) as [Hrel _].
    exists (Ev_createDecompressionContext :: t'), false, r.
    split; [reflexivity |]. split; [simpl; exact Hrel |].
    split; [| reflexivity]. intros _. split; [reflexivity |].
    exists ctx0. reflexivity.
  - cbv beta iota zeta delta [bind emit ret raise]. cbn [app].
    eexists [Ev_createDecompressionContext], true, _.
    split; [reflexivity |]. split; [reflexivity |].
    split; [discriminate |]. intros [_ [ctx0 H]]. discriminate H.
Qed.

(** X10.  [decompress] always returns, and by then it has called the decoder at
    most 64 times: the output doubles at every call but the last, and the
    interpreter makes no object of more than [PY_SSIZE_T_MAX] bytes. *)
Theorem decompress_calls_decoder_at_most_64_times input (buffer_size : int) :
  exists t r,
    _lz4framed_decompress input buffer_size = Some (t, r) /\
    (List.length (filter is_decoder_call t) <= 64)%nat.
Proof.
  unfold _lz4framed_decompress, decompress_check_args.
  destruct (negb (PyBuffer_IsContiguous input));
    [eexists _, _; split; [reflexivity | simpl; lia] |].
  destruct (len input <=? 0); [eexists _, _; split; [reflexivity | simpl; lia] |].
  destruct (Z.leb_spec (int_val buffer_size) 0) as [Hle | Hpos];
    [eexists _, _; split; [reflexivity | simpl; lia] |].
  unfold BAIL_ON_LZ4_ERROR.
  destruct (LZ4F_createDecompressionContext LZ4F_VERSION) as [ctx0 | err];
    cbv beta iota zeta delta [bind emit ret raise]; cbn [app];
    [| eexists _, _; split; [reflexivity | simpl; lia]].
  pose proof (decompress_frame_total input buffer_size ctx0 Hpos) as Htot.
  destruct (decompress_frame input buffer_size ctx0) as [[t' r] |] eqn:E;
    [| contradiction].
  destruct (decompress_frame_trace _ _ _ _ _ E) as [_ Hcalls].
  eexists _, _. split; [reflexivity |].
  simpl. rewrite filter_app, length_app. simpl.
  change (Z.to_nat 64) with 64%nat. unfold decompress_fuel in Hcalls. lia.
Qed.

(** *** What [decompress] returns *)

(** How [decompress] ends, from how its loop ends. *)
Lemma decompress_of_loop_ok (x : byte) (b : list byte) (buffer_size : int)
    ctx0 t0 frame_info opt v0 fuel t v' :
  0 < int_val buffer_size ->
  LZ4F_createDecompressionContext LZ4F_VERSION = LZ4F_ok ctx0 ->
  decompress_begin (bytes_view (x :: b)) buffer_size ctx0
    = (t0, inr (frame_info, opt, v0)) ->
  decompress_loop fuel (bytes_view (x :: b)) frame_info opt v0 = Some (t, inr v') ->
  _lz4framed_decompress (bytes_view (x :: b)) buffer_size
    = Some ([Ev_createDecompressionContext]
            ++ (t0 ++ t
                ++ fst (_PyBytes_Resize (output (d_out v')) (output_len (d_out v'))))
            ++ [Ev_freeDecompressionContext false],
            snd (_PyBytes_Resize (output (d_out v')) (output_len (d_out v')))).
Proof.
  intros Hbs Hctx Hbegin Hloop.
  assert (Hlen : (len (bytes_view (x :: b)) <=? 0) = false).
  { apply Z.leb_gt. unfold len. simpl buf. rewrite zlength_cons.
    pose proof (zlength_nonneg b). lia. }
  apply Z.leb_gt in Hbs.
  unfold _lz4framed_decompress, decompress_check_args.
  rewrite Hlen, Hbs, Hctx. simpl.
  pose proof (decompress_frame_total (bytes_view (x :: b)) buffer_size ctx0) as Htot.
  unfold decompress_frame in *. rewrite Hbegin in *.
  assert (H64 : decompress_loop decompress_fuel (bytes_view (x :: b)) frame_info opt v0
                = Some (t, inr v')).
  { destruct (decompress_loop decompress_fuel _ _ _ _) as [m |] eqn:E64.
    - destruct (Nat.le_ge_cases fuel decompress_fuel) as [Hle | Hge].
      + rewrite (decompress_loop_more_fuel _ _ _ _ _ _ _ Hloop Hle) in E64.
        symmetry. exact E64.
      + rewrite (decompress_loop_more_fuel _ _ _ _ _ _ _ E64 Hge) in Hloop.
        exact Hloop.
    - exfalso. apply Htot; [apply Z.leb_gt; exact Hbs | reflexivity]. }
  rewrite H64. destruct (_PyBytes_Resize _ _) as [t'' r'']. reflexivity.
Qed.

(** X11.  Whatever [decompress] returns is what the decoder wrote during the
    call, in the order of its calls: nothing is lost or repeated when the
    output is enlarged, and the object is cut to these bytes. *)
Theorem decompress_returns_decoded input (buffer_size : int) t out :
  LZ4F_decompress_in_bounds ->
  _lz4framed_decompress input buffer_size = Some (t, inr out) ->
  out = bytes_of (decoded t).
Proof.
  intros Hbounds. unfold _lz4framed_decompress, decompress_check_args.
  destruct (negb (PyBuffer_IsContiguous input)); [discriminate |].
  destruct (len input <=? 0); [discriminate |].
  destruct (Z.leb_spec (int_val buffer_size) 0) as [Hle | Hpos]; [discriminate |].
  unfold BAIL_ON_LZ4_ERROR.
  destruct (LZ4F_createDecompressionContext LZ4F_VERSION) as [ctx0 | err];
    cbv beta iota zeta delta [bind emit ret raise]; cbn [app]; [| discriminate].
  unfold decompress_frame.
  destruct (decompress_begin input buffer_size ctx0)
    as [t0 [e | [[fi opt] v0]]] eqn:Hbegin;
    [discriminate |].
  pose proof (decompress_begin_consistent _ _ _ _ _ _ _ Hpos Hbegin) as Hcons.
  apply decompress_begin_ok in Hbegin.
  destruct Hbegin as (ctx1 & n & hint & _ & Ht0 & _ & _ & _ & Hv0).
  cbv zeta in Ht0, Hv0.
  destruct (decompress_loop decompress_fuel input fi opt v0)
    as [[t' [e | v']] |] eqn:Hloop;
    [discriminate | | discriminate].
  destruct (decompress_loop_output _ _ _ Hbounds _ _ _ _ Hcons Hloop) as [Hsval Hlen].
  destruct (_PyBytes_Resize (output (d_out v')) (output_len (d_out v')))
    as [t'' r''] eqn:Hres.
  intros E. inversion E; subst t r''. clear E.
  apply PyBytes_Resize_ok in Hres. destruct Hres as (Ht'' & _ & Hsize & Hkeep).
  assert (Hdec : decoded (Ev_createDecompressionContext
                          :: (t0 ++ t' ++ t'') ++ [Ev_freeDecompressionContext false])
                 = decoded t').
  { change (Ev_createDecompressionContext
            :: (t0 ++ t' ++ t'') ++ [Ev_freeDecompressionContext false])
      with ([Ev_createDecompressionContext]
            ++ (t0 ++ t' ++ t'') ++ [Ev_freeDecompressionContext false]).
    rewrite !decoded_app, Ht0, Ht''. unfold decoded at 1 2 4 5. simpl.
    rewrite !app_nil_r. reflexivity. }
  rewrite Hdec.
  assert (Hv0sval : ob_sval (output (d_out v0)) = []) by (rewrite Hv0; reflexivity).
  rewrite Hv0sval in Hsval. simpl in Hsval.
  assert (Hout : ob_sval out = decoded t').
  { destruct Hkeep as [-> | Hk]; [exact Hsval |].
    rewrite Hk, Hlen, firstn_zlength. exact Hsval. }
  destruct out as [sz sv]. simpl in *. subst sv.
  unfold bytes_of. f_equal. rewrite Hsize, Hlen, Hsval. reflexivity.
Qed.

(** X12.  As soon as a call of the decoder returns the hint 0, [decompress]
    returns what has been decoded, whether or not the call has used up the
    input: what follows the end of the frame is neither decoded nor reported. *)
Theorem decompress_stops_at_end_of_frame (x : byte) (b : list byte)
    (buffer_size : int) ctx0 t0 frame_info opt v0 v ctx' rep :
  LZ4F_decompress_in_bounds ->
  0 < int_val buffer_size ->
  LZ4F_createDecompressionContext LZ4F_VERSION = LZ4F_ok ctx0 ->
  decompress_begin (bytes_view (x :: b)) buffer_size ctx0
    = (t0, inr (frame_info, opt, v0)) ->
  decompress_reaches (bytes_view (x :: b)) frame_info opt v0 v ->
  decoder_call (bytes_view (x :: b)) opt v = (ctx', LZ4F_ok rep) ->
  next_hint rep = 0 ->
  zlength (dst_written rep) = output_remaining (d_out v) \/
  PyMem_available (output_pos (d_out v) + zlength (dst_written rep)) = true ->
  exists t,
    _lz4framed_decompress (bytes_view (x :: b)) buffer_size
      = Some (t, inr (bytes_of (ob_sval (output (d_out v)) ++ dst_written rep))).
Proof.
  intros Hbounds Hbs Hctx Hbegin Hreach Hcall Hhint Hmem.
  pose proof (decompress_begin_consistent _ _ _ _ _ _ _ Hbs Hbegin) as Hcons0.
  pose proof (decompress_reaches_consistent _ _ _ Hbounds _ _ Hreach Hcons0) as Hcons.
  pose proof Hcall as Hcall'. unfold decoder_call in Hcall'.
  destruct (decompress_iter_break _ frame_info _ _ _ _ Hcall' Hhint)
    as (v' & Hiter & Hout & Hlen').
  destruct (decompress_iter_break_output _ _ _ _ _ _ Hbounds Hcons Hcall
              Hout Hlen') as (Hsize & Hsval & Hlen & Hw).
  assert (Hloop : decompress_loop 1 (bytes_view (x :: b)) frame_info opt v
                  = Some ([Ev_decompress (output_written (d_out v))
                             (input_read (d_in v)) (Some opt) (LZ4F_ok rep)],
                          inr v')).
  { simpl. rewrite Hiter. reflexivity. }
  destruct (decompress_loop_from_reached _ _ _ _ _ Hreach _ _ _ Hloop)
    as (fuel0 & t1 & H0).
  rewrite (decompress_of_loop_ok x b buffer_size ctx0 t0 frame_info opt v0 fuel0
             _ v' Hbs Hctx Hbegin H0).
  pose proof Hcons as ((HL & Hsz & Hpos & Hsum & Hrem0 & Hwr) & _).
  pose proof (zlength_nonneg (dst_written rep)) as Hw0.
  pose proof (zlength_nonneg (ob_sval (output (d_out v)))) as Hp0.
  rewrite PyBytes_Resize_succeeds.
  - eexists. cbn [fst snd]. f_equal. f_equal. f_equal.
    unfold bytes_of. rewrite Hsval, Hlen, zlength_app, Hpos. reflexivity.
  - rewrite Hlen. lia.
  - rewrite Hsval, Hlen, zlength_app. lia.
  - rewrite Hsize, Hlen.
    destruct Hmem as [Hfull | Hmem]; [left; lia | right; exact Hmem].
Qed.

(** *** Reads and writes stay within the buffers *)

(** Going round the loop keeps the position in the input and what is left of
    it together, and leaves room in the output. *)
Lemma decompress_reaches_within input frame_info opt :
  LZ4F_decompress_in_bounds ->
  forall v1 v2, decompress_reaches input frame_info opt v1 v2 ->
    decompress_consistent v1 ->
    0 <= input_pos (d_in v1) ->
    input_pos (d_in v1) + input_remaining (d_in v1) = len input ->
    0 < output_remaining (d_out v1) ->
    0 <= input_pos (d_in v2) /\
    input_pos (d_in v2) + input_remaining (d_in v2) = len input /\
    0 < output_remaining (d_out v2).
Proof.
  intros Hbounds. induction 1 as [v1 | v1 t1 v1' v2 E _ IH];
    intros Hcons Hpos Hsum Hroom; [auto |].
  destruct (decompress_iter_continue_grown _ _ _ _ _ _ Hbounds Hcons E)
    as (ctx' & rep & Hcall & _ & _ & _ & _ & Hv1' & Hcons').
  pose proof Hcons as ((Hlen & _ & _ & _ & Hrem0 & Hwr) & Hread & Hrem).
  assert (Hdst : 0 <= output_written (d_out v1)) by lia.
  assert (Hsrc : 0 <= input_read (d_in v1)) by lia.
  destruct (Hbounds _ _ _ _ _ _ _ Hdst Hsrc Hcall) as [Hw Hc].
  apply IH; [exact Hcons' | | |]; rewrite Hv1';
    cbn [grown d_in d_out input_pos input_remaining output_remaining]; lia.
Qed.

(** X13.  At every call of the decoder in a run of [decompress], the source it
    is given is all that is left of the input, and the destination it is given
    is all that is left of the output object, which is at least one byte: the
    decoder is never pointed outside either. *)
Theorem decompress_stays_within_buffers input (buffer_size : int) ctx0 t0 frame_info
    opt v0 v :
  LZ4F_getFrameInfo_in_bounds ->
  LZ4F_decompress_in_bounds ->
  len input <= PY_SSIZE_T_MAX ->
  0 < int_val buffer_size ->
  decompress_begin input buffer_size ctx0 = (t0, inr (frame_info, opt, v0)) ->
  decompress_reaches input frame_info opt v0 v ->
  0 <= input_pos (d_in v) /\
  0 <= input_read (d_in v) /\
  input_pos (d_in v) + input_read (d_in v) = len input /\
  0 <= output_pos (d_out v) /\
  0 < output_written (d_out v) /\
  output_pos (d_out v) + output_written (d_out v) = ob_size (output (d_out v)) /\
  zlength (ob_sval (output (d_out v))) = output_pos (d_out v).
Proof.
  intros Hinfo Hbounds Hmax Hbs Hbegin Hreach.
  pose proof (decompress_begin_consistent _ _ _ _ _ _ _ Hbs Hbegin) as Hcons0.
  pose proof (decompress_reaches_consistent _ _ _ Hbounds _ _ Hreach Hcons0) as Hcons.
  assert (Hstart : 0 <= input_pos (d_in v0) /\
                   input_pos (d_in v0) + input_remaining (d_in v0) = len input /\
                   0 < output_remaining (d_out v0)).
  { destruct Hcons0 as ((Hlen & _ & Hp & Hsum & _) & _).
    apply decompress_begin_ok in Hbegin.
    destruct Hbegin as (ctx1 & n & hint & Hcall & _ & _ & _ & _ & Hv0).
    cbv zeta in Hv0.
    pose proof (zlength_nonneg (buf input)) as Hlen0. fold (len input) in Hlen0.
    apply Hinfo in Hcall; [| exact Hlen0].
    rewrite Hv0 in *.
    cbn [d_in d_out input_pos input_remaining output_remaining output_len
         output_pos output ob_sval] in *.
    split; [lia |]. split; [| lia].
    unfold size_t_sub.
    rewrite size_t_wrap_small
      by (unfold PY_SSIZE_T_MAX, SIZE_T_MODULUS in *; lia).
    lia. }
  destruct Hstart as (Hp0 & Hs0 & Hr0).
  destruct (decompress_reaches_within _ _ _ Hbounds _ _ Hreach Hcons0 Hp0 Hs0 Hr0)
    as (Hp & Hs & Hr).
  destruct Hcons as ((Hlen & Hsize & Hpos & Hsum & Hrem0 & Hwr) & Hread & Hrem).
  pose proof (zlength_nonneg (ob_sval (output (d_out v)))) as Hz.
  repeat split; lia.
Qed.

(** The calls of one turn of [decompress_update]'s loop. *)
Lemma decompress_update_iter_calls input chunk_len total done used dctx v :
  update_consistent chunk_len total done used v ->
  input_remaining (u_in v) <> 0 ->
  Forall (call_within chunk_len total)
         (fst (snd (decompress_update_iter input chunk_len dctx v))).
Proof.
  intros (HL & Hsize & Hpos & Hsum & Hrem0 & Hwr & Hread & Hin0 & Hin & Htot
          & Hused & Hipos & _) Hleft.
  assert (Hsrc : 0 < input_read (u_in v) <= total) by lia.
  pose proof (zlength_nonneg (ob_sval (chunk (u_chunk v)))) as Hp0.
  assert (Hdst : chunk_remaining (u_chunk v) <> 0 ->
                 0 < chunk_written (u_chunk v) <= chunk_len) by lia.
  unfold decompress_update_iter.
  destruct (Z.eqb_spec (chunk_remaining (u_chunk v)) 0) as [Hfull | Hroom].
  - unfold PyBytes_FromStringAndSize.
    cbv beta iota zeta delta [bind emit ret raise].
    destruct (Py_ssize_t_of_size_t chunk_len <? 0);
      [constructor; [exact I | constructor] |].
    destruct (PyMem_available chunk_len);
      [| constructor; [exact I | constructor]].
    cbn [chunk_written].
    destruct (LZ4F_decompress _ _ _ _ _) as [dctx' [rep | err]];
      cbn [fst snd]; unfold BAIL_ON_LZ4_ERROR;
      cbv beta iota zeta delta [bind emit ret raise]; cbn [fst snd app];
      (constructor; [exact I |]); (constructor; [| constructor]);
      unfold call_within; (split; [lia | split; [exact Hsrc | reflexivity]]).
  - cbv beta iota zeta delta [bind emit ret raise].
    destruct (LZ4F_decompress _ _ _ _ _) as [dctx' [rep | err]];
      cbn [fst snd]; unfold BAIL_ON_LZ4_ERROR;
      cbv beta iota zeta delta [bind emit ret raise]; cbn [fst snd app];
      (constructor; [| constructor]);
      unfold call_within;
      (split; [exact (Hdst Hroom) | split; [exact Hsrc | reflexivity]]).
Qed.

Lemma decompress_update_loop_calls input chunk_len total :
  LZ4F_decompress_in_bounds ->
  forall (fuel : nat) done used dctx v dctx' t r,
    update_consistent chunk_len total done used v ->
    decompress_update_loop fuel input chunk_len dctx v = Some (dctx', (t, r)) ->
    Forall (call_within chunk_len total) t.
Proof.
  intros Hbounds. induction fuel as [| fuel IH];
    intros done used dctx v dctx' t r Hcons E; simpl in E;
    destruct ((input_remaining (u_in v) =? 0) || (input_size_hint (u_in v) =? 0))
      eqn:Hstop; try discriminate; try (inversion E; constructor).
  apply orb_false_iff in Hstop. destruct Hstop as [Hleft _].
  apply Z.eqb_neq in Hleft.
  pose proof (decompress_update_iter_calls input chunk_len total done used dctx v
                Hcons Hleft) as Hcalls.
  destruct (decompress_update_iter input chunk_len dctx v)
    as [d1 [t1 [e | v1]]] eqn:Hiter.
  - inversion E; subst. exact Hcalls.
  - destruct (decompress_update_loop fuel input chunk_len d1 v1)
      as [[d2 [t2 r2]] |] eqn:Hloop; [| discriminate].
    inversion E; subst.
    destruct (decompress_update_iter_ok _ _ _ _ _ _ _ _ _ _ Hbounds Hcons Hiter)
      as (rep & _ & _ & _ & _ & _ & _ & _ & _ & Hcons1).
    apply Forall_app. split; [exact Hcalls |].
    exact (IH _ _ _ _ _ _ _ Hcons1 Hloop).
Qed.

(** X14.  Every call of the decoder that [decompress_update] makes, in a call
    that succeeds or in one that fails, reads the input from where the call
    before it stopped to its end, which is at least one byte, and writes to
    the room that is left in the current chunk, which is at least one byte and
    at most [chunk_len]: it neither calls the decoder for nothing nor points
    it outside the chunk or the input.  The context goes from one call to the
    next, and the capsule holds the one the last call left. *)
Theorem decompress_update_calls_within_buffers (dctx : _lz4f_dctx_t)
    (x : byte) (b : list byte) (chunk_len_arg : option int) (fuel : nat)
    capsule' t r :
  LZ4F_decompress_in_bounds ->
  zlength (x :: b) <= PY_SSIZE_T_MAX ->
  _lz4framed_decompress_update fuel (PyCapsule (dctx_pointer dctx))
      (bytes_view (x :: b)) chunk_len_arg = Some (capsule', (t, r)) ->
  exists ctx',
    capsule' = PyCapsule (dctx_pointer {| dctx_ctx := ctx' |}) /\
    decoder_calls (bytes_view (x :: b)) (parse_chunk_len chunk_len_arg)
                  (dctx_ctx dctx) 0 0 t ctx' /\
    Forall (call_within (parse_chunk_len chunk_len_arg) (zlength (x :: b))) t.
Proof.
  intros Hbounds Hdata E.
  assert (Hlibrary : decoder_calls_in_loop)
    by (clear - Hbounds; decoder_calls_of_loop Hbounds).
  assert (Hsame : PyCapsule (dctx_pointer dctx)
                  = PyCapsule (dctx_pointer {| dctx_ctx := dctx_ctx dctx |}))
    by (destruct dctx; reflexivity).
  assert (Hlen : (len (bytes_view (x :: b)) <=? 0) = false).
  { apply Z.leb_gt. unfold len. simpl buf. rewrite zlength_cons.
    pose proof (zlength_nonneg b). lia. }
  pose proof (parse_chunk_len_range chunk_len_arg) as HLr.
  set (L := parse_chunk_len chunk_len_arg) in *.
  unfold _lz4framed_decompress_update in E. fold L in E.
  rewrite Hlen in E.
  cbn [PyCapsule_IsValid PyCapsule_GetName PyBuffer_IsContiguous bytes_view
       c_contiguous] in E.
  change (negb (DECOMPRESSION_CAPSULE_NAME =? DECOMPRESSION_CAPSULE_NAME)%string)
    with false in E.
  cbn [negb] in E. cbv iota in E.
  destruct (Z.leb_spec L 0) as [Hle | HL0].
  { inversion E; subst. exists (dctx_ctx dctx).
    split; [exact Hsame |]. split; [reflexivity | constructor]. }
  destruct (PyBytes_FromStringAndSize L) as [t0 [e | chunk0]] eqn:EA.
  { pose proof (PyBytes_FromStringAndSize_trace L) as Ht0. rewrite EA in Ht0.
    simpl in Ht0. inversion E; subst. exists (dctx_ctx dctx).
    split; [exact Hsame |]. split; [reflexivity | repeat constructor]. }
  apply PyBytes_FromStringAndSize_ok in EA.
  destruct EA as (-> & Hss & _ & ->).
  apply Py_ssize_t_nonneg in Hss; [| lia].
  unfold len in E. cbn [buf bytes_view] in E.
  fold (bytes_view (x :: b)) in E.
  pose proof (decompress_update_start_consistent (x :: b) L
                (conj HL0 Hss) Hdata) as Hcons0.
  assert (Hfill : forall c0,
            chunk_pos (current_chunk L
              {| result_list := []; chunk := c0; chunk_pos := 0;
                 chunk_remaining := L; chunk_written := L |}) = 0).
  { intros c0. unfold current_chunk. cbn [chunk_remaining].
    destruct (Z.eqb_spec L 0); [lia | reflexivity]. }
  match type of E with
  | context [decompress_update_loop fuel ?i ?l ?d ?v0] =>
      destruct (decompress_update_loop fuel i l d v0)
        as [[d1 [tm [e | v1]]] |] eqn:Hloop
  end; [| | discriminate];
    destruct (Hlibrary (bytes_view (x :: b)) L fuel [] 0 (dctx_ctx dctx) _ d1 tm _
                Hcons0 Hloop) as [Hlib _];
    cbn [u_in u_chunk input_pos] in Hlib; rewrite Hfill in Hlib.
  - pose proof (decompress_update_loop_calls _ _ _ Hbounds _ _ _ _ _ _ _ _
                  Hcons0 Hloop) as Hcalls.
    cbv beta iota zeta delta [bind emit ret raise] in E.
    inversion E; subst. exists d1.
    split; [reflexivity |]. split; [exact Hlib |].
    constructor; [exact I |]. exact Hcalls.
  - pose proof (decompress_update_loop_calls _ _ _ Hbounds _ _ _ _ _ _ _ _
                  Hcons0 Hloop) as Hcalls.
    assert (Hfin : Forall (call_within L (zlength (x :: b)))
                          (fst (decompress_update_finish L v1))).
    { unfold decompress_update_finish.
      destruct (chunk_remaining (u_chunk v1) <? L); [| constructor].
      pose proof (PyBytes_Resize_trace (chunk (u_chunk v1))
                    (size_t_sub L (chunk_remaining (u_chunk v1)))) as Htr.
      destruct (_PyBytes_Resize _ _) as [tr [e | c']]; simpl in Htr; subst tr;
        cbv beta iota zeta delta [bind emit ret raise]; cbn [fst app];
        repeat constructor. }
    destruct (decompress_update_finish L v1) as [tf rf] eqn:Hfinish.
    pose proof (decompress_update_finish_trace L v1) as Htf.
    cbv beta iota zeta delta [bind emit ret raise] in E. rewrite Hfinish in E, Htf.
    inversion E; subst. cbn [fst] in Hfin, Htf. exists d1.
    split; [reflexivity |].
    split; [cbn [app decoder_calls]; apply decoder_calls_then; assumption |].
    cbn [app].
    constructor; [exact I |]. apply Forall_app. split; assumption.
Qed.

End FurtherProperties.

(** ** Properties of contexts, frame information and the module *)

Section ContextProperties.

Context {lz4 : LZ4FrameLib} {lz4c : LZ4FrameLibContexts}.
Context {host : PyHost} {hostc : PyHostContexts}.

#[local] Arguments size_t_wrap : simpl never.
#[local] Arguments size_t_add : simpl never.
#[local] Arguments size_t_sub : simpl never.
#[local] Arguments size_t_mul : simpl never.
#[local] Arguments Py_ssize_t_of_size_t : simpl never.
#[local] Arguments known_contentSize : simpl never.
#[local] Arguments input_window : simpl never.
#[local] Arguments LZ4F_error_number : simpl never.
#[local] Arguments Z.mul : simpl never.
#[local] Arguments Z.add : simpl never.
#[local] Arguments Z.sub : simpl never.

(** *** Contexts of the two kinds *)

(** X15.  An object that is not a compression context is refused by
    [compress_begin], [compress_update] and [compress_end], and one that is not
    a decompression context by [decompress_update] and [get_frame_info]: with
    [ValueError], before any other argument is looked at, leaving the object as
    it is.  A context of one kind is not a context of the other. *)
Theorem wrong_context_rejected (o : PyObject) (input : Py_buffer)
    (block_id block_mode_linked checksum autoflush level block_checksum : int)
    (fuel : nat) (chunk_len : option int) :
  (PyCapsule_IsValid o COMPRESSION_CAPSULE_NAME = false ->
   _lz4framed_compress_begin o block_id block_mode_linked checksum autoflush level
                             block_checksum
     = (o, ([], inl (PyExc_ValueError "ctx invalid" None))) /\
   _lz4framed_compress_update o input
     = (o, ([], inl (PyExc_ValueError "ctx invalid" None))) /\
   _lz4framed_compress_end o
     = (o, ([], inl (PyExc_ValueError "ctx invalid" None)))) /\
  (PyCapsule_IsValid o DECOMPRESSION_CAPSULE_NAME = false ->
   _lz4framed_decompress_update fuel o input chunk_len
     = Some (o, ([], inl (PyExc_ValueError "ctx invalid" None))) /\
   _lz4framed_get_frame_info o
     = (o, ([], inl (PyExc_ValueError "ctx invalid" None)))) /\
  (forall cctx : _lz4f_cctx_t,
     PyCapsule_IsValid (PyCapsule (cctx_pointer cctx)) DECOMPRESSION_CAPSULE_NAME
       = false) /\
  (forall dctx : _lz4f_dctx_t,
     PyCapsule_IsValid (PyCapsule (dctx_pointer dctx)) COMPRESSION_CAPSULE_NAME
       = false).
Proof.
  split; [| split; [| split; reflexivity]].
  - intros H.
    unfold _lz4framed_compress_begin, _lz4framed_compress_update,
      _lz4framed_compress_end.
    rewrite H. repeat split.
  - intros H.
    unfold _lz4framed_decompress_update, _lz4framed_get_frame_info.
    rewrite H. repeat split.
Qed.

(** X16.  A context that has been created is a capsule of its kind, and of that
    kind only, around the context the library has made; a compression context
    starts with the default preferences. *)
Theorem create_context_gives_fresh_capsule :
  (forall t c,
     _lz4framed_create_compression_context = (t, inr c) ->
     exists ctx,
       LZ4F_createCompressionContext LZ4F_VERSION = LZ4F_ok ctx /\
       c = PyCapsule (cctx_pointer {| cctx_ctx := ctx; prefs := prefs_defaults |}) /\
       PyCapsule_IsValid c COMPRESSION_CAPSULE_NAME = true /\
       PyCapsule_IsValid c DECOMPRESSION_CAPSULE_NAME = false) /\
  (forall t c,
     _lz4framed_create_decompression_context = (t, inr c) ->
     exists ctx,
       LZ4F_createDecompressionContext LZ4F_VERSION = LZ4F_ok ctx /\
       c = PyCapsule (dctx_pointer {| dctx_ctx := ctx |}) /\
       PyCapsule_IsValid c DECOMPRESSION_CAPSULE_NAME = true /\
       PyCapsule_IsValid c COMPRESSION_CAPSULE_NAME = false).
Proof.
  split; intros t c.
  - unfold _lz4framed_create_compression_context.
    destruct (negb (PyMem_available sizeof_cctx_t)); [discriminate |].
    destruct (negb PyThread_lock_available); [discriminate |].
    destruct (LZ4F_createCompressionContext LZ4F_VERSION) as [ctx | err];
      [| discriminate].
    destruct (negb PyCapsule_available); [discriminate |].
    intros E. inversion E; subst. exists ctx. repeat split.
  - unfold _lz4framed_create_decompression_context.
    destruct (negb (PyMem_available sizeof_dctx_t)); [discriminate |].
    destruct (negb PyThread_lock_available); [discriminate |].
    destruct (LZ4F_createDecompressionContext LZ4F_VERSION) as [ctx | err];
      [| discriminate].
    destruct (negb PyCapsule_available); [discriminate |].
    intros E. inversion E; subst. exists ctx. repeat split.
Qed.

(** X17.  Creating a context leaks nothing: when it fails, the structure, the
    lock and the library's context it had got by then are released; when it
    succeeds, the capsule holds one of each, and they are released when the
    capsule is. *)
Theorem create_context_never_leaks :
  (forall t r,
     _lz4framed_create_compression_context = (t, r) ->
     match r with
     | inl _ => held t = nothing_held
     | inr c =>
         held t = {| held_structs := 1; held_locks := 1; held_cctx := 1;
                     held_dctx := 0 |} /\
         held (t ++ capsule_dealloc c) = nothing_held
     end) /\
  (forall t r,
     _lz4framed_create_decompression_context = (t, r) ->
     match r with
     | inl _ => held t = nothing_held
     | inr c =>
         held t = {| held_structs := 1; held_locks := 1; held_cctx := 0;
                     held_dctx := 1 |} /\
         held (t ++ capsule_dealloc c) = nothing_held
     end).
Proof.
  split; intros t r.
  - unfold _lz4framed_create_compression_context.
    destruct (negb (PyMem_available sizeof_cctx_t));
      [intros E; inversion E; reflexivity |].
    destruct (negb PyThread_lock_available);
      [intros E; inversion E; reflexivity |].
    destruct (LZ4F_createCompressionContext LZ4F_VERSION) as [ctx | err];
      [| intros E; inversion E; reflexivity].
    destruct (negb PyCapsule_available); intros E; inversion E;
      [reflexivity | split; reflexivity].
  - unfold _lz4framed_create_decompression_context.
    destruct (negb (PyMem_available sizeof_dctx_t));
      [intros E; inversion E; reflexivity |].
    destruct (negb PyThread_lock_available);
      [intros E; inversion E; reflexivity |].
    destruct (LZ4F_createDecompressionContext LZ4F_VERSION) as [ctx | err];
      [| intros E; inversion E; reflexivity].
    destruct (negb PyCapsule_available); intros E; inversion E;
      [reflexivity | split; reflexivity].
Qed.

(** *** Streaming compression *)


(** X19.  No context that a program can hold carries a content size, a frame
    type or a dictionary identifier other than 0, and its [autoFlush] is 0 or
    1: the frames of streaming compression never announce their length. *)
Theorem streaming_contexts_declare_no_length (c : PyObject) :
  compression_context_reachable c ->
  exists cctx,
    c = PyCapsule (cctx_pointer cctx) /\
    contentSize (frameInfo (prefs cctx)) = 0 /\
    frameType (frameInfo (prefs cctx)) = 0 /\
    dictID (frameInfo (prefs cctx)) = 0 /\
    (autoFlush (prefs cctx) = 0 \/ autoFlush (prefs cctx) = 1).
Proof.
  induction 1 as [t c E
                 | c block_id block_mode_linked checksum autoflush level
                     block_checksum _ IH
                 | c input _ IH
                 | c _ IH].
  - unfold _lz4framed_create_compression_context in E.
    destruct (negb (PyMem_available sizeof_cctx_t)); [discriminate |].
    destruct (negb PyThread_lock_available); [discriminate |].
    destruct (LZ4F_createCompressionContext LZ4F_VERSION) as [ctx | err];
      [| discriminate].
    destruct (negb PyCapsule_available); [discriminate |].
    inversion E; subst. eexists. split; [reflexivity |]. simpl. auto.
  - destruct IH as (cctx & -> & Hcs & Hft & Hid & Haf).
    unfold _lz4framed_compress_begin.
    cbn [PyCapsule_IsValid PyCapsule_GetName negb].
    change (COMPRESSION_CAPSULE_NAME =? COMPRESSION_CAPSULE_NAME)%string with true.
    cbv iota.
    destruct (negb (_valid_lz4f_block_size_id block_id));
      [exists cctx; auto |].
    destruct (int_val level >? LZ4_COMPRESSION_MAX); [exists cctx; auto |].
    assert (Hnew : forall ctx',
      exists cctx0,
        PyCapsule (cctx_pointer
          {| cctx_ctx := ctx';
             prefs := make_prefs (prefs cctx) (contentSize (frameInfo (prefs cctx)))
                        block_id block_mode_linked checksum level block_checksum
                        (if int_val autoflush =? 0 then 0 else 1) |})
        = PyCapsule (cctx_pointer cctx0) /\
        contentSize (frameInfo (prefs cctx0)) = 0 /\
        frameType (frameInfo (prefs cctx0)) = 0 /\
        dictID (frameInfo (prefs cctx0)) = 0 /\
        (autoFlush (prefs cctx0) = 0 \/ autoFlush (prefs cctx0) = 1)).
    { intros ctx'. eexists. split; [reflexivity |]. simpl.
      repeat split; try assumption.
      destruct (int_val autoflush =? 0); auto. }
    destruct (PyBytes_FromStringAndSize LZ4F_HEADER_SIZE_MAX) as [t [e | o]].
    + apply Hnew.
    + destruct (LZ4F_compressBegin _ _ _) as [ctx' r]. apply Hnew.
  - destruct IH as (cctx & -> & Hcs & Hft & Hid & Haf).
    unfold _lz4framed_compress_update.
    cbn [PyCapsule_IsValid PyCapsule_GetName negb].
    change (COMPRESSION_CAPSULE_NAME =? COMPRESSION_CAPSULE_NAME)%string with true.
    cbv iota.
    destruct (negb (PyBuffer_IsContiguous input)); [exists cctx; auto |].
    destruct (len input <=? 0); [exists cctx; auto |].
    destruct (bind _ _) as [t [e | [output_len output]]]; [exists cctx; auto |].
    destruct (LZ4F_compressUpdate _ _ _ _) as [ctx' r].
    eexists. split; [reflexivity |]. simpl. auto.
  - destruct IH as (cctx & -> & Hcs & Hft & Hid & Haf).
    unfold _lz4framed_compress_end.
    cbn [PyCapsule_IsValid PyCapsule_GetName negb].
    change (COMPRESSION_CAPSULE_NAME =? COMPRESSION_CAPSULE_NAME)%string with true.
    cbv iota.
    destruct (bind _ _) as [t [e | [output_len output]]]; [exists cctx; auto |].
    destruct (LZ4F_compressEnd _ _) as [ctx' r].
    eexists. split; [reflexivity |]. simpl. auto.
Qed.

(** A byte object of [n] bytes is made, the library writes [data] at its
    start, and the object is cut to [data]. *)
Lemma PyBytes_FromStringAndSize_succeeds (n : Z) :
  0 <= n <= PY_SSIZE_T_MAX ->
  PyMem_available n = true ->
  PyBytes_FromStringAndSize n
    = ([Ev_PyBytes_FromStringAndSize n], inr {| ob_size := n; ob_sval := [] |}).
Proof.
  intros Hn Hmem. unfold PyBytes_FromStringAndSize.
  cbv beta iota zeta delta [bind emit ret raise].
  rewrite (Py_ssize_t_of_small n Hn), Hmem. reflexivity.
Qed.

Lemma PyBytes_store_and_trim (n : Z) (data : list byte) :
  zlength data <= n <= PY_SSIZE_T_MAX ->
  zlength data = n \/ PyMem_available (zlength data) = true ->
  _PyBytes_Resize (PyBytes_store {| ob_size := n; ob_sval := [] |} 0 data)
                  (zlength data)
    = ([Ev_PyBytes_Resize n (zlength data)], inr (bytes_of data)).
Proof.
  intros Hn Hmem. pose proof (zlength_nonneg data) as H0.
  rewrite PyBytes_Resize_succeeds.
  - reflexivity.
  - lia.
  - unfold PyBytes_store. cbn [ob_sval firstn Z.to_nat app]. lia.
  - unfold PyBytes_store. cbn [ob_size]. destruct Hmem as [H | H]; auto.
Qed.

(** X20. A frame compressed in three steps. [compress_begin], [compress_update]
    and [compress_end], called one after the other on a context, return what
    the library wrote at each step, each in an object cut to it; the library's
    context goes from one call to the next, and the bounds of the second and
    third steps are asked for with the preferences of the first. *)
Theorem streaming_compression_session (cctx : _lz4f_cctx_t)
    (block_id block_mode_linked checksum autoflush level block_checksum : int)
    (x : byte) (b : list byte)
    (ctx1 ctx2 ctx3 : LZ4F_cctx) (header body tail : list byte)
    (bound_update bound_end : Z) :
  let p := compress_begin_prefs (prefs cctx) block_id block_mode_linked checksum
             autoflush level block_checksum in
  let input := bytes_view (x :: b) in
  _valid_lz4f_block_size_id block_id = true ->
  int_val level <= LZ4_COMPRESSION_MAX ->
  LZ4F_compressBegin (cctx_ctx cctx) LZ4F_HEADER_SIZE_MAX p = (ctx1, LZ4F_ok header) ->
  LZ4F_compressBound (len input) p = LZ4F_ok bound_update ->
  LZ4F_compressUpdate ctx1 bound_update (buf input) (len input)
    = (ctx2, LZ4F_ok body) ->
  LZ4F_compressBound 0 p = LZ4F_ok bound_end ->
  LZ4F_compressEnd ctx2 bound_end = (ctx3, LZ4F_ok tail) ->
  zlength header <= LZ4F_HEADER_SIZE_MAX <= PY_SSIZE_T_MAX ->
  zlength body <= bound_update <= PY_SSIZE_T_MAX ->
  zlength tail <= bound_end <= PY_SSIZE_T_MAX ->
  (forall n, 0 <= n <= Z.max LZ4F_HEADER_SIZE_MAX (Z.max bound_update bound_end) ->
             PyMem_available n = true) ->
  exists c1 c2 t1 t2 t3,
    _lz4framed_compress_begin (PyCapsule (cctx_pointer cctx)) block_id
        block_mode_linked checksum autoflush level block_checksum
      = (c1, (t1, inr (bytes_of header))) /\
    _lz4framed_compress_update c1 input = (c2, (t2, inr (bytes_of body))) /\
    _lz4framed_compress_end c2
      = (PyCapsule (cctx_pointer {| cctx_ctx := ctx3; prefs := p |}),
         (t3, inr (bytes_of tail))).
Proof.
  intros p input Hvalid Hlevel Hbegin Hbu Hupdate Hbe Hend Hh Hb Ht Hmem.
  pose proof (zlength_nonneg header) as Hh0.
  pose proof (zlength_nonneg body) as Hb0.
  pose proof (zlength_nonneg tail) as Ht0.
  assert (Hle : (int_val level >? LZ4_COMPRESSION_MAX) = false).
  { rewrite Z.gtb_ltb. apply Z.ltb_ge. exact Hlevel. }
  assert (Hlen : (len input <=? 0) = false).
  { apply Z.leb_gt. unfold len, input. simpl buf. rewrite zlength_cons.
    pose proof (zlength_nonneg b). lia. }
  exists (PyCapsule (cctx_pointer {| cctx_ctx := ctx1; prefs := p |})),
         (PyCapsule (cctx_pointer {| cctx_ctx := ctx2; prefs := p |})).
  eexists _, _, _. split; [| split].
  - unfold _lz4framed_compress_begin. rewrite Hvalid, Hle.
    cbn [PyCapsule_IsValid PyCapsule_GetName negb].
    change (COMPRESSION_CAPSULE_NAME =? COMPRESSION_CAPSULE_NAME)%string with true.
    cbv iota. fold (compress_begin_prefs (prefs cctx) block_id block_mode_linked
                      checksum autoflush level block_checksum). fold p.
    rewrite (PyBytes_FromStringAndSize_succeeds LZ4F_HEADER_SIZE_MAX)
      by (try apply Hmem; lia).
    rewrite Hbegin. unfold BAIL_ON_LZ4_ERROR.
    cbv beta iota zeta delta [bind emit ret raise].
    rewrite (PyBytes_store_and_trim LZ4F_HEADER_SIZE_MAX header)
      by (try right; try apply Hmem; lia).
    reflexivity.
  - unfold _lz4framed_compress_update.
    cbn [PyCapsule_IsValid PyCapsule_GetName negb].
    change (COMPRESSION_CAPSULE_NAME =? COMPRESSION_CAPSULE_NAME)%string with true.
    rewrite Hlen. cbn [PyBuffer_IsContiguous input bytes_view c_contiguous negb prefs
                       cctx_ctx].
    fold input. rewrite Hbu. unfold BAIL_ON_LZ4_ERROR.
    cbv beta iota zeta delta [bind emit ret raise].
    rewrite (PyBytes_FromStringAndSize_succeeds bound_update)
      by (try apply Hmem; lia).
    rewrite Hupdate.
    cbv beta iota zeta delta [bind emit ret raise].
    rewrite (PyBytes_store_and_trim bound_update body)
      by (try right; try apply Hmem; lia).
    reflexivity.
  - unfold _lz4framed_compress_end.
    cbn [PyCapsule_IsValid PyCapsule_GetName negb].
    change (COMPRESSION_CAPSULE_NAME =? COMPRESSION_CAPSULE_NAME)%string with true.
    cbn [negb prefs cctx_ctx]. rewrite Hbe. unfold BAIL_ON_LZ4_ERROR.
    cbv beta iota zeta delta [bind emit ret raise].
    rewrite (PyBytes_FromStringAndSize_succeeds bound_end)
      by (try apply Hmem; lia).
    rewrite Hend.
    cbv beta iota zeta delta [bind emit ret raise].
    rewrite (PyBytes_store_and_trim bound_end tail)
      by (try right; try apply Hmem; lia).
    reflexivity.
Qed.

(** *** Frame information *)

(** X21.  [get_frame_info] gives the decoder no input.  From its answer it makes
    a dictionary of five entries: the hint, the content size as an unsigned
    64-bit number, the block size identifier, and whether the blocks are linked
    and the content is checksummed.  An error of the library is raised as it is.
    Either way the context is as the library left it. *)
Theorem get_frame_info_dictionary (dctx : _lz4f_dctx_t) :
  (forall ctx' frame_info n hint,
     LZ4F_getFrameInfo (dctx_ctx dctx) [] 0 = (ctx', LZ4F_ok (frame_info, n, hint)) ->
     exists dict,
       _lz4framed_get_frame_info (PyCapsule (dctx_pointer dctx))
         = (PyCapsule (dctx_pointer {| dctx_ctx := ctx' |}),
            ([Ev_getFrameInfo 0], inr dict)) /\
       map fst dict = ["input_hint"; "length"; "block_size_id"; "block_mode_linked";
                       "checksum"] /\
       PyDict_GetItemString dict "input_hint" = Some (Item_long hint) /\
       PyDict_GetItemString dict "length"
         = Some (Item_long (contentSize frame_info mod 2 ^ 64)) /\
       PyDict_GetItemString dict "block_size_id"
         = Some (Item_long (blockSizeID frame_info)) /\
       (PyDict_GetItemString dict "block_mode_linked" = Some (Item_bool true)
        <-> blockMode frame_info = LZ4F_blockLinked) /\
       (PyDict_GetItemString dict "block_mode_linked" = Some (Item_bool false)
        <-> blockMode frame_info = LZ4F_blockIndependent) /\
       (PyDict_GetItemString dict "checksum" = Some (Item_bool true)
        <-> contentChecksumFlag frame_info = LZ4F_contentChecksumEnabled) /\
       (PyDict_GetItemString dict "checksum" = Some (Item_bool false)
        <-> contentChecksumFlag frame_info = LZ4F_noContentChecksum)) /\
  (forall ctx' err,
     LZ4F_getFrameInfo (dctx_ctx dctx) [] 0 = (ctx', LZ4F_error err) ->
     _lz4framed_get_frame_info (PyCapsule (dctx_pointer dctx))
       = (PyCapsule (dctx_pointer {| dctx_ctx := ctx' |}),
          ([Ev_getFrameInfo 0],
           inl (LZ4FError (LZ4F_getErrorName err) (LZ4F_error_number err))))).
Proof.
  split.
  - intros ctx' frame_info n hint E.
    unfold _lz4framed_get_frame_info.
    cbn [PyCapsule_IsValid PyCapsule_GetName negb dctx_ctx].
    change (DECOMPRESSION_CAPSULE_NAME =? DECOMPRESSION_CAPSULE_NAME)%string
      with true.
    cbv iota. cbn [negb]. cbv iota. rewrite E.
    eexists. split; [reflexivity |].
    split; [reflexivity |]. split; [reflexivity |]. split; [reflexivity |].
    split; [reflexivity |]. cbn.
    destruct (blockMode frame_info), (contentChecksumFlag frame_info);
      repeat split; intros H; try reflexivity; try discriminate H.
  - intros ctx' err E.
    unfold _lz4framed_get_frame_info.
    cbn [PyCapsule_IsValid PyCapsule_GetName negb dctx_ctx].
    change (DECOMPRESSION_CAPSULE_NAME =? DECOMPRESSION_CAPSULE_NAME)%string
      with true.
    cbv iota. cbn [negb]. cbv iota. rewrite E. reflexivity.
Qed.

(** *** The module *)

Lemma add_to_module_all additions :
  forall module result,
    add_to_module additions module = Some result ->
    result = fold_left (fun m kv => PyDict_SetItemString m (fst kv) (snd kv))
                       additions module.
Proof.
  induction additions as [| [name value] rest IH]; intros module result E.
  - inversion E. reflexivity.
  - simpl in E. destruct (PyModule_Add_available name); [| discriminate].
    simpl. apply IH. exact E.
Qed.

(** X22.  The block size identifiers the functions accept are the values of the
    five [LZ4F_BLOCKSIZE_] constants of the module, and the level [compress]
    and [compress_begin] compare with is its [LZ4F_COMPRESSION_MAX]; no name is
    given to the module twice. *)
Theorem module_exports_block_size_ids (module : list (string * module_attribute)) :
  PyInit__lz4framed = Some module ->
  (forall id : Z,
     _valid_lz4f_block_size_id id = true <->
     exists name,
       String.prefix "LZ4F_BLOCKSIZE_" name = true /\
       PyDict_GetItemString module name = Some (Attr_int id)) /\
  PyDict_GetItemString module "LZ4F_COMPRESSION_MAX"
    = Some (Attr_int LZ4_COMPRESSION_MAX) /\
  module = module_additions /\
  NoDup (map fst module).
Proof.
  unfold PyInit__lz4framed.
  destruct (negb PyModule_Create_available); [discriminate |].
  destruct (negb (PyErr_NewException_available _)); [discriminate |].
  destruct (negb (PyErr_NewException_available _)); [discriminate |].
  destruct (negb (PyErr_NewException_available _)); [discriminate |].
  intros E. apply add_to_module_all in E.
  assert (Hmodule : module = module_additions).
  { rewrite E. reflexivity. }
  clear E. subst module.
  split; [| split; [reflexivity | split; [reflexivity |]]].
  - intros id. unfold _valid_lz4f_block_size_id. split.
    + intros H.
      apply orb_true_iff in H. destruct H as [H | H].
      apply orb_true_iff in H. destruct H as [H | H].
      apply orb_true_iff in H. destruct H as [H | H].
      apply orb_true_iff in H. destruct H as [H | H].
      all: apply Z.eqb_eq in H; subst id.
      * exists "LZ4F_BLOCKSIZE_DEFAULT". split; reflexivity.
      * exists "LZ4F_BLOCKSIZE_MAX64KB". split; reflexivity.
      * exists "LZ4F_BLOCKSIZE_MAX256KB". split; reflexivity.
      * exists "LZ4F_BLOCKSIZE_MAX1MB". split; reflexivity.
      * exists "LZ4F_BLOCKSIZE_MAX4MB". split; reflexivity.
    + intros (name & Hprefix & Hget).
      unfold module_additions, error_code_macro in Hget.
      cbn [PyDict_GetItemString] in Hget.
      repeat match type of Hget with
             | context [String.eqb ?k name] =>
                 destruct (String.eqb_spec k name) as [<- | _];
                 [first [discriminate Hprefix | discriminate Hget
                        | inversion Hget; subst id; rewrite Z.eqb_refl;
                          rewrite ?orb_true_r; reflexivity]
                 |]
             end.
      discriminate Hget.
  - replace (map fst module_additions)
      with (nodup string_dec (map fst module_additions))
      by (vm_compute; reflexivity).
    apply NoDup_nodup.
Qed.

End ContextProperties.

(** ** The run-length codec meets the assumptions *)

Lemma rle_feed_output d x d' y :
  RleCodec.feed d x = RleCodec.Fed d' (Some y) ->
  exists remaining, RleCodec.d_stage d = RleCodec.S_BlockData remaining.
Proof.
  unfold RleCodec.feed. destruct (RleCodec.d_stage d) as [i | | i acc | i acc | r | c | r z | i acc];
    intros E; try discriminate E;
    try (eexists; reflexivity);
    repeat match type of E with
           | (if ?c then _ else _) = _ => destruct c
           | match ?c with _ => _ end = _ => destruct c
           end; discriminate E.
Qed.

Lemma rle_flush_room d room d1 out1 room1 :
  RleCodec.flush d room = (d1, out1, room1) ->
  (List.length out1 + room1 = room)%nat.
Proof.
  unfold RleCodec.flush. destruct (RleCodec.d_stage d); intros E; inversion E; subst;
    simpl; try lia.
  rewrite repeat_length. lia.
Qed.

(** The decoder writes no more than the room it has and consumes no more than
    the source it is given. *)
Lemma rle_run_bounds :
  forall src d room d' written n fin,
    RleCodec.run d room src = (d', LZ4F_ok (written, n, fin)) ->
    (List.length written <= room)%nat /\ 0 <= n <= zlength src.
Proof.
  induction src as [| x src IH]; intros d room d' written n fin E.
  - simpl in E. destruct (RleCodec.flush d room) as [[d1 out1] room1] eqn:Hf.
    apply rle_flush_room in Hf.
    destruct (RleCodec.d_stage d1); try destruct room1;
      inversion E; subst; unfold zlength; simpl; lia.
  - simpl in E. destruct (RleCodec.flush d room) as [[d1 out1] room1] eqn:Hf.
    apply rle_flush_room in Hf.
    rewrite zlength_cons. pose proof (zlength_nonneg src) as Hs.
    assert (Hstep :
      forall d2 out,
        RleCodec.feed d1 x = RleCodec.Fed d2 out ->
        (out <> None -> (0 < room1)%nat) ->
        match RleCodec.run d2 (match out with Some _ => pred room1 | None => room1 end) src with
        | (d'', LZ4F_ok (w, m, f)) =>
            (d'', LZ4F_ok (out1 ++ match out with Some y => y :: w | None => w end,
                           m + 1, f))
        | (d'', LZ4F_error c) => (d'', LZ4F_error c)
        end = (d', LZ4F_ok (written, n, fin)) ->
        (List.length written <= room)%nat /\ 0 <= n <= zlength src + 1).
    { intros d2 out _ Hroom E2.
      destruct (RleCodec.run d2 _ src) as [d'' [[[w m] f] | c]] eqn:Hrun;
        [| discriminate E2].
      apply IH in Hrun. destruct Hrun as [Hw Hm].
      inversion E2; subst. rewrite length_app.
      destruct out as [y |]; simpl in *; [| lia].
      assert (0 < room1)%nat by (apply Hroom; discriminate). lia. }
    destruct (RleCodec.d_stage d1) eqn:Hst; try destruct room1;
      try (inversion E; subst; simpl; lia);
      destruct (RleCodec.feed d1 x) as [d2 out | d2 | c] eqn:Hfeed;
      try discriminate E;
      try (inversion E; subst; simpl; lia);
      (eapply Hstep; [reflexivity | | exact E]);
      intros Hout; try lia;
      destruct out as [y |]; try contradiction;
      destruct (rle_feed_output _ _ _ _ Hfeed) as [r Hr]; congruence.
Qed.

Lemma rle_decompress_in_bounds : @LZ4F_decompress_in_bounds RleCodec.lib.
Proof.
  intros d dstSize src srcSize opt d' rep Hdst Hsrc E.
  simpl in E. unfold RleCodec.decompress in E.
  destruct (RleCodec.run d (Z.to_nat dstSize) (firstn (Z.to_nat srcSize) src))
    as [d'' [[[w n] f] | c]] eqn:Hrun; [| discriminate E].
  apply rle_run_bounds in Hrun. destruct Hrun as [Hw Hn].
  inversion E; subst. simpl.
  unfold zlength in *. rewrite length_firstn in Hn. lia.
Qed.

Lemma rle_read_header_bounds :
  forall src d d' n,
    RleCodec.read_header d src = LZ4F_ok (d', n) -> 0 <= n <= zlength src.
Proof.
  induction src as [| x src IH]; intros d d' n E; simpl in E.
  - destruct (negb (RleCodec.in_header d)); inversion E. unfold zlength. simpl. lia.
  - rewrite zlength_cons. pose proof (zlength_nonneg src).
    destruct (negb (RleCodec.in_header d)); [inversion E; lia |].
    destruct (RleCodec.feed d x) as [d2 out | d2 | c]; try discriminate E.
    destruct (RleCodec.read_header d2 src) as [[d3 m] | c] eqn:Hr;
      [| discriminate E].
    apply IH in Hr. inversion E; subst. lia.
Qed.

Lemma rle_getFrameInfo_in_bounds : @LZ4F_getFrameInfo_in_bounds RleCodec.lib.
Proof.
  intros d src srcSize d' fi n hint Hsrc E.
  simpl in E. unfold RleCodec.getFrameInfo in E.
  destruct (RleCodec.read_header d (firstn (Z.to_nat srcSize) src))
    as [[d2 m] | c] eqn:Hr; [| discriminate E].
  apply rle_read_header_bounds in Hr. inversion E; subst.
  unfold zlength in *. rewrite length_firstn in Hr. lia.
Qed.


(** ** Concrete runs *)

Lemma get_block_size_table_witness :
  @_lz4framed_get_block_size RleCodec.lib (mk_int 5 eq_refl) = Some (ret 262144).
Proof.
  refine (proj1 (proj2 (@get_block_size_table RleCodec.lib (mk_int 5 eq_refl) _)) _).
  - repeat split.
  - reflexivity.
Defined.

Lemma compress_decompress_roundtrip_witness :
  exists t1 t2,
    @_lz4framed_compress RleCodec.lib host_default (bytes_view hello_world)
        int_0 int_1 int_1 int_0 int_0
      = (t1, inr (bytes_of hello_frame)) /\
    @_lz4framed_decompress RleCodec.lib host_default (bytes_view hello_frame)
        default_buffer_size
      = Some (t2, inr (bytes_of hello_world)).
Proof.
  refine (@compress_decompress_roundtrip RleCodec.lib host_default
            x68 (bytes_of_string "ello world")
            int_0 int_1 int_1 int_0 int_0 default_buffer_size 36 hello_frame
            _ _ _ _ _ _ _ _ _ _).
  - reflexivity.
  - vm_compute. discriminate.
  - reflexivity.
  - unfold frame_compressed. repeat split.
    + unfold hello_frame. discriminate.
    + vm_compute. discriminate.
  - unfold frame_decoded_at_once.
    let c1 := eval vm_compute in
        (RleCodec.getFrameInfo RleCodec.fresh hello_frame (zlength hello_frame)) in
    match c1 with
    | (?ctx1, LZ4F_ok (?fi, ?h, ?hint)) =>
        let c2 := eval vm_compute in
            (RleCodec.decompress ctx1 11 (skipn (Z.to_nat h) hello_frame)
               (zlength hello_frame - h) (Some {| stableDst := 1 |})) in
        match c2 with
        | (?ctx2, LZ4F_ok ?rep) =>
            exists RleCodec.fresh, ctx1, ctx2, fi, h, hint, rep
        end
    end.
    repeat split; try (vm_compute; reflexivity); vm_compute; discriminate.
  - vm_compute. discriminate.
  - vm_compute. discriminate.
  - reflexivity.
  - left. reflexivity.
  - reflexivity.
Defined.

Lemma compression_level_boundary_witness :
  @_lz4framed_compress RleCodec.lib host_default (bytes_view hello_world)
      int_0 int_1 int_1 int_13 int_0
    = ([], inl (PyExc_ValueError "level (%d) invalid" (Some 13))) /\
  (exists t r,
     @_lz4framed_compress RleCodec.lib host_default (bytes_view hello_world)
         int_0 int_1 int_1 int_12 int_0
     = (Ev_compressFrameBound 11 :: t, r)).
Proof.
  pose proof (@compression_level_boundary RleCodec.lib host_default
                x68 (bytes_of_string "ello world")
                sample_cctx
                int_0 int_1 int_1 int_0 int_13 int_0) as [Habove _].
  pose proof (@compression_level_boundary RleCodec.lib host_default
                x68 (bytes_of_string "ello world")
                sample_cctx
                int_0 int_1 int_1 int_0 int_12 int_0) as [_ Hequal].
  split.
  - apply Habove. reflexivity.
  - apply Hequal; reflexivity.
Defined.

Lemma decompress_update_negative_chunk_len_witness :
  @_lz4framed_decompress_update RleCodec.lib host_default 8
      (PyCapsule (dctx_pointer fresh_dctx))
      (bytes_view hello_frame) (Some int_minus_1)
    = Some (PyCapsule (dctx_pointer fresh_dctx),
            ([Ev_PyBytes_FromStringAndSize 4294967295], inl PyExc_MemoryError)).
Proof.
  apply (@decompress_update_negative_chunk_len RleCodec.lib host_default 8
           fresh_dctx x04 (tl hello_frame)).
  reflexivity.
Defined.

Lemma decompress_frame_incomplete_witness :
  exists t,
    @_lz4framed_decompress RleCodec.lib host_default
        (bytes_view truncated_hello_frame) default_buffer_size
      = Some (t, inl (PyExc_ValueError "frame incomplete" None)).
Proof.
  let r := eval vm_compute in
      (@decompress_begin RleCodec.lib host_default
         (bytes_view truncated_hello_frame) default_buffer_size RleCodec.fresh) in
  match r with
  | (?t0, inr (?fi, ?opt, ?v0)) =>
      let c := eval vm_compute in
          (@decoder_call RleCodec.lib (bytes_view truncated_hello_frame) opt v0) in
      match c with
      | (?ctx', LZ4F_ok ?rep) =>
          refine (@decompress_frame_incomplete RleCodec.lib host_default
                    x04 (tl truncated_hello_frame) default_buffer_size
                    RleCodec.fresh t0 fi opt v0 v0 ctx' rep _ _ _ _ _ _ _)
      end
  end.
  - reflexivity.
  - reflexivity.
  - reflexivity.
  - apply reaches_here.
  - reflexivity.
  - vm_compute. discriminate.
  - reflexivity.
Defined.

Lemma unknown_length_output_witness :
  exists t_before t_after t r rep next,
    @_lz4framed_decompress RleCodec.lib host_default (bytes_view run_frame) int_16
      = Some (Ev_createDecompressionContext :: Ev_getFrameInfo 22
              :: Ev_PyBytes_FromStringAndSize 16 :: t, r) /\
    @_lz4framed_decompress RleCodec.lib host_default (bytes_view run_frame) int_16
      = Some (t_before
              ++ [Ev_decompress 16 9 (Some {| stableDst := 0 |}) (LZ4F_ok rep);
                  Ev_PyBytes_Resize 16 32;
                  Ev_decompress 16 4 (Some {| stableDst := 0 |}) next]
              ++ t_after, r) /\
    dst_written rep = repeat x61 16 /\
    (forall out, r = inr out -> exists more, out = bytes_of (repeat x61 16 ++ more)).
Proof.
  let bg := eval vm_compute in
      (@decompress_begin RleCodec.lib host_default (bytes_view run_frame) int_16
         RleCodec.fresh) in
  match bg with
  | (?t0, inr (?fi, ?opt, ?v0)) =>
      let cl := eval vm_compute in
          (@decoder_call RleCodec.lib (bytes_view run_frame) opt v0) in
      match cl with
      | (?ctx', LZ4F_ok ?rep) =>
          assert (Hbegin : @decompress_begin RleCodec.lib host_default
                             (bytes_view (x04 :: tl run_frame)) int_16 RleCodec.fresh
                           = (t0, inr (fi, opt, v0))) by reflexivity;
          assert (Hcall : @decoder_call RleCodec.lib (bytes_view (x04 :: tl run_frame))
                            opt v0
                          = (ctx', LZ4F_ok rep)) by reflexivity;
          destruct (@unknown_length_output RleCodec.lib host_default
                      x04 (tl run_frame) int_16 RleCodec.fresh t0 fi opt v0
                      rle_getFrameInfo_in_bounds rle_decompress_in_bounds)
            as [(ctx1 & n & hint & t & r & Hinfo & _ & Hrun & Hpos & _) Hgrow];
          [ vm_compute; discriminate | reflexivity | reflexivity | exact Hbegin
          | reflexivity | ];
          destruct (Hgrow v0 ctx' rep (reaches_here _ _ _ v0) Hcall)
            as (_ & Hgoes & _);
          [ vm_compute; discriminate | vm_compute; discriminate | ];
          destruct Hgoes as (tb & ta & r' & Hrun' & _ & Hout);
          [ vm_compute; discriminate | reflexivity | ];
          exists tb, ta, t, r, rep,
            (snd (@decoder_call RleCodec.lib (bytes_view (x04 :: tl run_frame)) opt
                    (grown v0 ctx' rep)));
          cbn [d_in input_pos] in Hpos; subst n;
          assert (Hr : r' = r) by (rewrite Hrun in Hrun'; inversion Hrun'; reflexivity);
          subst r';
          split; [exact Hrun |]; split; [exact Hrun' |];
          split; [reflexivity | exact Hout]
      end
  end.
Defined.

Lemma declared_length_output_witness :
  exists t r rep rest,
    @_lz4framed_decompress RleCodec.lib host_default (bytes_view mismatched_frame)
        default_buffer_size
      = Some (Ev_createDecompressionContext :: Ev_getFrameInfo 23
              :: Ev_PyBytes_FromStringAndSize 1 :: t, r) /\
    forallb is_stable_call t = true /\
    growth_warned false t = true /\
    existsb is_growth t = true /\
    t = Ev_decompress 1 10 (Some {| stableDst := 1 |}) (LZ4F_ok rep)
        :: Ev_PyErr_WarnEx mismatch_warning :: rest /\
    next_hint rep <> 0.
Proof.
  let c := eval vm_compute in
      (RleCodec.getFrameInfo RleCodec.fresh mismatched_frame 23) in
  match c with
  | (?ctx1, LZ4F_ok (?fi, ?n, ?hint)) =>
      destruct (@declared_length_output RleCodec.lib host_default
                  x04 (tl mismatched_frame) default_buffer_size
                  RleCodec.fresh ctx1 fi n hint rle_decompress_in_bounds)
        as (t & r & Hrun & Hstable & Hwarned & Hgrow);
      [ reflexivity | reflexivity | reflexivity | vm_compute; discriminate | ]
  end.
  let e := eval vm_compute in
      (@_lz4framed_decompress RleCodec.lib host_default
         (bytes_view mismatched_frame) default_buffer_size) in
  match e with
  | Some (_ :: _ :: _ :: ?t', ?r') =>
      assert (Ht : t = t' /\ r = r');
      [ assert (Hvalue : @_lz4framed_decompress RleCodec.lib host_default
                           (bytes_view (x04 :: tl mismatched_frame))
                           default_buffer_size
                         = Some (Ev_createDecompressionContext :: Ev_getFrameInfo 23
                                 :: Ev_PyBytes_FromStringAndSize 1 :: t', r'))
          by reflexivity;
        pose proof (eq_trans (eq_sym Hrun) Hvalue) as Heq;
        injection Heq as Ht Hr; split; assumption
      | ]
  end.
  destruct Ht as [Ht Hr].
  assert (Hgrowth : existsb is_growth t = true) by (rewrite Ht; reflexivity).
  destruct (Hgrow Hgrowth) as (ctx2 & rep & rest & _ & Hhint & _ & Hshape).
  exists t, r, rep, rest.
  split; [exact Hrun |]. split; [exact Hstable |]. split; [exact Hwarned |].
  split; [exact Hgrowth |]. split; [| exact Hhint].
  cbv zeta in Hshape. exact Hshape.
Defined.

Lemma declared_length_mismatch_witness :
  (exists t_before t_after r rep next,
     @_lz4framed_decompress RleCodec.lib host_default (bytes_view mismatched_frame)
         default_buffer_size
       = Some (t_before
               ++ [Ev_decompress 1 10 (Some {| stableDst := 1 |}) (LZ4F_ok rep);
                   Ev_PyErr_WarnEx mismatch_warning;
                   Ev_PyBytes_Resize 1 2;
                   Ev_decompress 1 (10 - src_consumed rep)
                                 (Some {| stableDst := 1 |}) next]
               ++ t_after, r)) /\
  (exists t_before rep,
     @_lz4framed_decompress RleCodec.lib host_warnings_as_errors
         (bytes_view mismatched_frame) default_buffer_size
       = Some (t_before
               ++ [Ev_decompress 1 10 (Some {| stableDst := 1 |}) (LZ4F_ok rep);
                   Ev_PyErr_WarnEx mismatch_warning;
                   Ev_freeDecompressionContext false],
               inl (PyExc_RuntimeWarning mismatch_warning))).
Proof.
  let bg := eval vm_compute in
      (@decompress_begin RleCodec.lib host_default (bytes_view mismatched_frame)
         default_buffer_size RleCodec.fresh) in
  match bg with
  | (?t0, inr (?fi, ?opt, ?v0)) =>
      let cl := eval vm_compute in
          (@decoder_call RleCodec.lib (bytes_view mismatched_frame) opt v0) in
      match cl with
      | (?ctx', LZ4F_ok ?rep) =>
          assert (Hbegin : @decompress_begin RleCodec.lib host_default
                             (bytes_view (x04 :: tl mismatched_frame))
                             default_buffer_size RleCodec.fresh
                           = (t0, inr (fi, opt, v0))) by reflexivity;
          assert (Hbegin' : @decompress_begin RleCodec.lib host_warnings_as_errors
                              (bytes_view (x04 :: tl mismatched_frame))
                              default_buffer_size RleCodec.fresh
                            = (t0, inr (fi, opt, v0))) by reflexivity;
          assert (Hcall : @decoder_call RleCodec.lib
                            (bytes_view (x04 :: tl mismatched_frame)) opt v0
                          = (ctx', LZ4F_ok rep)) by reflexivity;
          destruct (@declared_length_mismatch RleCodec.lib host_default
                      x04 (tl mismatched_frame) default_buffer_size
                      RleCodec.fresh t0 fi opt v0 v0 ctx' rep
                      rle_decompress_in_bounds)
            as [Hgoes _];
          [ reflexivity | reflexivity | exact Hbegin | vm_compute; discriminate
          | apply reaches_here | exact Hcall | vm_compute; discriminate
          | vm_compute; discriminate | ];
          destruct (@declared_length_mismatch RleCodec.lib host_warnings_as_errors
                      x04 (tl mismatched_frame) default_buffer_size
                      RleCodec.fresh t0 fi opt v0 v0 ctx' rep
                      rle_decompress_in_bounds)
            as [_ Hfails];
          [ reflexivity | reflexivity | exact Hbegin' | vm_compute; discriminate
          | apply reaches_here | exact Hcall | vm_compute; discriminate
          | vm_compute; discriminate | ];
          destruct Hgoes as (tb & ta & r & Hrun & _);
          [ reflexivity | vm_compute; discriminate | reflexivity | ];
          destruct Hfails as (tb' & Hrun'); [ vm_compute; discriminate | ];
          split;
          [ exists tb, ta, r, rep,
              (snd (@decoder_call RleCodec.lib
                      (bytes_view (x04 :: tl mismatched_frame)) opt
                      (grown v0 ctx' rep))); exact Hrun
          | exists tb', rep; exact Hrun' ]
      end
  end.
Defined.


(** ** Counterexamples *)

(** C5 as stated: a frame that announces its length, and yet the output is
    enlarged.  The header of [mismatched_frame] gives a content length of 1;
    [decompress] allocates one byte, and after the first call of the decoder
    and the warning it resizes its output from 1 to 2 bytes. *)
Lemma declared_length_growth_counterexample :
  exists ctx1 frame_info n hint rep t r,
    RleCodec.getFrameInfo RleCodec.fresh mismatched_frame 23
      = (ctx1, LZ4F_ok (frame_info, n, hint)) /\
    known_contentSize frame_info = 1 /\
    @_lz4framed_decompress RleCodec.lib host_default (bytes_view mismatched_frame)
        default_buffer_size
      = Some (Ev_createDecompressionContext :: Ev_getFrameInfo 23
              :: Ev_PyBytes_FromStringAndSize 1
              :: Ev_decompress 1 10 (Some {| stableDst := 1 |}) (LZ4F_ok rep)
              :: Ev_PyErr_WarnEx mismatch_warning
              :: Ev_PyBytes_Resize 1 2 :: t, r) /\
    is_growth (Ev_PyBytes_Resize 1 2) = true.
Proof.
  let c := eval vm_compute in
      (RleCodec.getFrameInfo RleCodec.fresh mismatched_frame 23) in
  match c with
  | (?ctx1, LZ4F_ok (?fi, ?n, ?hint)) =>
      let e := eval vm_compute in
          (@_lz4framed_decompress RleCodec.lib host_default
             (bytes_view mismatched_frame) default_buffer_size) in
      match e with
      | Some (_ :: _ :: _ :: Ev_decompress _ _ _ (LZ4F_ok ?rep) :: _ :: _ :: ?t, ?r) =>
          exists ctx1, fi, n, hint, rep, t, r
      end
  end.
  split; [reflexivity |]. split; [reflexivity |].
  split; reflexivity.
Qed.

(** C6 as stated: a frame of known length whose output has to be enlarged,
    and [decompress] does not go on.  With warnings turned into exceptions,
    the run on [mismatched_frame] ends after the warning, before any resize,
    with [RuntimeWarning] as its exception. *)
Lemma mismatch_warning_fatal_counterexample :
  exists rep,
    @_lz4framed_decompress RleCodec.lib host_warnings_as_errors
        (bytes_view mismatched_frame) default_buffer_size
      = Some ([Ev_createDecompressionContext; Ev_getFrameInfo 23;
               Ev_PyBytes_FromStringAndSize 1;
               Ev_decompress 1 10 (Some {| stableDst := 1 |}) (LZ4F_ok rep);
               Ev_PyErr_WarnEx mismatch_warning;
               Ev_freeDecompressionContext false],
              inl (PyExc_RuntimeWarning mismatch_warning)) /\
    next_hint rep <> 0 /\ src_consumed rep < 10.
Proof.
  eexists. split; [reflexivity |].
  split; vm_compute; [discriminate | reflexivity].
Qed.

(** ** Concrete runs of the further properties *)

Lemma lz4_error_carries_code_witness :
  @BAIL_ON_LZ4_ERROR RleCodec.lib Z (Ev_compressBound 0)
      (LZ4F_error RleCodec.ERROR_dstMaxSize_tooSmall)
    = ([Ev_compressBound 0], inl (LZ4FError "ERROR_dstMaxSize_tooSmall" 11)).
Proof.
  apply (@lz4_error_carries_code RleCodec.lib Z (Ev_compressBound 0) 11).
  unfold INT_MAX. lia.
Defined.

Lemma decompress_rejects_buffer_size_witness :
  @_lz4framed_decompress RleCodec.lib host_default (bytes_view hello_frame)
      int_minus_1
    = Some ([Ev_freeDecompressionContext true],
            inl (PyExc_ValueError "buffer_size (%d) invalid" (Some (-1)))).
Proof.
  apply (@decompress_rejects_buffer_size RleCodec.lib host_default
           x04 (tl hello_frame) int_minus_1).
  simpl. lia.
Defined.

Lemma block_size_from_id_in_table_witness :
  exists n,
    @_lz4f_block_size_from_id RleCodec.lib int_5 = Some n /\
    In n blockSizes /\ 65536 <= n.
Proof.
  destruct (@block_size_from_id_in_table RleCodec.lib int_5) as (n & Hn & _ & Hvalid).
  - repeat split.
  - exists n. split; [exact Hn |]. apply Hvalid. reflexivity.
Defined.

Lemma chunk_len_as_given_witness :
  parse_chunk_len (Some int_65536) = 65536 /\
  @_lz4framed_decompress_update RleCodec.lib host_default 8
      (PyCapsule (dctx_pointer fresh_dctx)) (bytes_view hello_frame) (Some int_65536)
    = @_lz4framed_decompress_update RleCodec.lib host_default 8
        (PyCapsule (dctx_pointer fresh_dctx)) (bytes_view hello_frame) None.
Proof.
  destruct (@chunk_len_as_given RleCodec.lib host_default 8
              (PyCapsule (dctx_pointer fresh_dctx)) (bytes_view hello_frame)
              int_65536) as [Hparse Hsame].
  - simpl. lia.
  - split; [exact Hparse | apply Hsame; reflexivity].
Defined.

Lemma invalid_block_size_id_rejected_witness :
  @_lz4framed_compress RleCodec.lib host_default (bytes_view hello_world)
      int_1 int_1 int_0 int_0 int_0
    = ([], inl (PyExc_ValueError "block_size_id (%d) invalid" (Some 1))).
Proof.
  apply (@invalid_block_size_id_rejected RleCodec.lib host_default
           x68 (bytes_of_string "ello world") sample_cctx
           int_1 int_1 int_0 int_0 int_0 int_0).
  reflexivity.
Defined.

Lemma decompress_returns_decoded_witness :
  exists t out,
    @_lz4framed_decompress RleCodec.lib host_default (bytes_view run_frame) int_16
      = Some (t, inr out) /\
    out = bytes_of (decoded t) /\
    ob_sval out = repeat x61 40.
Proof.
  let r := eval vm_compute in
      (@_lz4framed_decompress RleCodec.lib host_default (bytes_view run_frame)
         int_16) in
  match r with
  | Some (?t, inr ?out) =>
      assert (Hrun : @_lz4framed_decompress RleCodec.lib host_default
                       (bytes_view run_frame) int_16 = Some (t, inr out))
        by reflexivity;
      exists t, out; split; [exact Hrun |];
      split; [| reflexivity];
      exact (@decompress_returns_decoded RleCodec.lib host_default
               (bytes_view run_frame) int_16 t out rle_decompress_in_bounds Hrun)
  end.
Defined.

Lemma decompress_stops_at_end_of_frame_witness :
  exists t,
    @_lz4framed_decompress RleCodec.lib host_default
        (bytes_view hello_frame_and_more) default_buffer_size
      = Some (t, inr (bytes_of hello_world)).
Proof.
  let r := eval vm_compute in
      (@decompress_begin RleCodec.lib host_default
         (bytes_view hello_frame_and_more) default_buffer_size RleCodec.fresh) in
  match r with
  | (?t0, inr (?fi, ?opt, ?v0)) =>
      let c := eval vm_compute in
          (@decoder_call RleCodec.lib (bytes_view hello_frame_and_more) opt v0) in
      match c with
      | (?ctx', LZ4F_ok ?rep) =>
          refine (@decompress_stops_at_end_of_frame RleCodec.lib host_default
                    x04 (tl hello_frame_and_more) default_buffer_size
                    RleCodec.fresh t0 fi opt v0 v0 ctx' rep
                    rle_decompress_in_bounds _ _ _ _ _ _ _)
      end
  end.
  - reflexivity.
  - reflexivity.
  - reflexivity.
  - apply reaches_here.
  - reflexivity.
  - reflexivity.
  - left. reflexivity.
Defined.

Lemma decompress_library_error_witness :
  @_lz4framed_decompress RleCodec.lib host_default (bytes_view not_a_frame)
      default_buffer_size
    = Some ([Ev_createDecompressionContext; Ev_getFrameInfo 11;
             Ev_freeDecompressionContext false],
            inl (LZ4FError "ERROR_frameType_unknown" 13)).
Proof.
  refine (proj1 (@decompress_library_error RleCodec.lib host_default
                   x68 (bytes_of_string "ello world") default_buffer_size
                   RleCodec.fresh _ _)
            RleCodec.fresh RleCodec.ERROR_frameType_unknown _).
  - reflexivity.
  - reflexivity.
  - reflexivity.
Defined.

Lemma decompress_trusts_declared_length_witness :
  @_lz4framed_decompress RleCodec.lib host_default
      (bytes_view (frame_declaring (2 ^ 63))) default_buffer_size
    = Some ([Ev_createDecompressionContext; Ev_getFrameInfo 22;
             Ev_PyBytes_FromStringAndSize (2 ^ 63);
             Ev_freeDecompressionContext false],
            inl PyExc_SystemError) /\
  @_lz4framed_decompress RleCodec.lib host_default
      (bytes_view (frame_declaring (2 ^ 31))) default_buffer_size
    = Some ([Ev_createDecompressionContext; Ev_getFrameInfo 22;
             Ev_PyBytes_FromStringAndSize (2 ^ 31);
             Ev_freeDecompressionContext false],
            inl PyExc_MemoryError).
Proof.
  split.
  - let c := eval vm_compute in
        (RleCodec.getFrameInfo RleCodec.fresh (frame_declaring (2 ^ 63)) 22) in
    match c with
    | (?ctx1, LZ4F_ok (?fi, ?n, ?hint)) =>
        refine (proj1 (@decompress_trusts_declared_length RleCodec.lib host_default
                         x04 (tl (frame_declaring (2 ^ 63))) default_buffer_size
                         RleCodec.fresh ctx1 fi n hint _ _ _ _) _)
    end.
    + reflexivity.
    + reflexivity.
    + reflexivity.
    + vm_compute. discriminate.
    + reflexivity.
  - let c := eval vm_compute in
        (RleCodec.getFrameInfo RleCodec.fresh (frame_declaring (2 ^ 31)) 22) in
    match c with
    | (?ctx1, LZ4F_ok (?fi, ?n, ?hint)) =>
        refine (proj2 (@decompress_trusts_declared_length RleCodec.lib host_default
                         x04 (tl (frame_declaring (2 ^ 31))) default_buffer_size
                         RleCodec.fresh ctx1 fi n hint _ _ _ _) _ _)
    end.
    + reflexivity.
    + reflexivity.
    + reflexivity.
    + vm_compute. discriminate.
    + vm_compute. discriminate.
    + reflexivity.
Defined.

Lemma decompress_stays_within_buffers_witness :
  exists t0 frame_info opt v0 t1 v1,
    @decompress_begin RleCodec.lib host_default (bytes_view run_frame) int_16
        RleCodec.fresh = (t0, inr (frame_info, opt, v0)) /\
    @decompress_iter RleCodec.lib host_default (bytes_view run_frame) frame_info
        opt v0 = (t1, inr (Continue v1)) /\
    input_pos (d_in v1) + input_read (d_in v1) = 22 /\
    output_pos (d_out v1) + output_written (d_out v1) = 32 /\
    ob_size (output (d_out v1)) = 32.
Proof.
  let r := eval vm_compute in
      (@decompress_begin RleCodec.lib host_default (bytes_view run_frame) int_16
         RleCodec.fresh) in
  match r with
  | (?t0, inr (?fi, ?opt, ?v0)) =>
      let c := eval vm_compute in
          (@decompress_iter RleCodec.lib host_default (bytes_view run_frame)
             fi opt v0) in
      match c with
      | (?t1, inr (Continue ?v1)) =>
          exists t0, fi, opt, v0, t1, v1;
          assert (Hbegin : @decompress_begin RleCodec.lib host_default
                             (bytes_view run_frame) int_16 RleCodec.fresh
                           = (t0, inr (fi, opt, v0))) by reflexivity;
          assert (Hiter : @decompress_iter RleCodec.lib host_default
                            (bytes_view run_frame) fi opt v0
                          = (t1, inr (Continue v1))) by reflexivity;
          destruct (@decompress_stays_within_buffers RleCodec.lib host_default
                      (bytes_view run_frame) int_16 RleCodec.fresh t0 fi opt v0 v1
                      rle_getFrameInfo_in_bounds rle_decompress_in_bounds)
            as (_ & _ & Hin & _ & _ & Hout & _);
          [ vm_compute; discriminate
          | reflexivity
          | exact Hbegin
          | exact (reaches_next _ _ _ v0 t1 v1 v1 Hiter (reaches_here _ _ _ v1))
          | split; [exact Hbegin |]; split; [exact Hiter |];
            split; [exact Hin |]; split; [exact Hout | reflexivity] ]
      end
  end.
Defined.

Lemma decompress_update_calls_within_buffers_witness :
  exists ctx' t r,
    @_lz4framed_decompress_update RleCodec.lib host_default 8
        (PyCapsule (dctx_pointer fresh_dctx)) (bytes_view run_frame) (Some int_16)
      = Some (PyCapsule (dctx_pointer {| dctx_ctx := ctx' |}), (t, r)) /\
    @decoder_calls RleCodec.lib (bytes_view run_frame) 16 RleCodec.fresh 0 0 t ctx' /\
    Forall (call_within 16 22) t /\
    (List.length (filter is_decoder_call t) = 3)%nat.
Proof.
  let r := eval vm_compute in
      (@_lz4framed_decompress_update RleCodec.lib host_default 8
         (PyCapsule (dctx_pointer fresh_dctx)) (bytes_view run_frame)
         (Some int_16)) in
  match r with
  | Some (?c, (?t, ?res)) =>
      assert (Hrun : @_lz4framed_decompress_update RleCodec.lib host_default 8
                       (PyCapsule (dctx_pointer fresh_dctx))
                       (bytes_view (x04 :: tl run_frame)) (Some int_16)
                     = Some (c, (t, res))) by reflexivity;
      destruct (@decompress_update_calls_within_buffers RleCodec.lib host_default
                  fresh_dctx x04 (tl run_frame) (Some int_16) 8 c t res
                  rle_decompress_in_bounds)
        as (ctx' & Hcapsule & Hcalls & Hwithin);
      [ vm_compute; discriminate | exact Hrun | ];
      exists ctx', t, res; rewrite <- Hcapsule;
      split; [exact Hrun |]; split; [exact Hcalls |];
      split; [exact Hwithin | reflexivity]
  end.
Defined.

Lemma wrong_context_rejected_witness :
  @_lz4framed_compress_update RleCodec.lib host_default
      (PyCapsule (dctx_pointer fresh_dctx)) (bytes_view hello_world)
    = (PyCapsule (dctx_pointer fresh_dctx),
       ([], inl (PyExc_ValueError "ctx invalid" None))) /\
  @_lz4framed_get_frame_info RleCodec.lib
      (PyCapsule (cctx_pointer sample_cctx))
    = (PyCapsule (cctx_pointer sample_cctx),
       ([], inl (PyExc_ValueError "ctx invalid" None))).
Proof.
  split.
  - refine (proj1 (proj2 (proj1
      (@wrong_context_rejected RleCodec.lib RleContexts.lib host_default
         (PyCapsule (dctx_pointer fresh_dctx)) (bytes_view hello_world)
         int_0 int_1 int_0 int_0 int_0 int_0 8 None) _))).
    reflexivity.
  - refine (proj2 (proj1 (proj2
      (@wrong_context_rejected RleCodec.lib RleContexts.lib host_default
         (PyCapsule (cctx_pointer sample_cctx)) (bytes_view hello_world)
         int_0 int_1 int_0 int_0 int_0 int_0 8 None)) _)).
    reflexivity.
Defined.

Lemma create_context_gives_fresh_capsule_witness :
  exists t,
    @_lz4framed_create_compression_context RleCodec.lib RleContexts.lib
        host_default hostc_default
      = (t, inr (PyCapsule (cctx_pointer sample_cctx))) /\
    PyCapsule_IsValid (PyCapsule (cctx_pointer sample_cctx))
      COMPRESSION_CAPSULE_NAME = true.
Proof.
  let r := eval vm_compute in
      (fst (@_lz4framed_create_compression_context RleCodec.lib RleContexts.lib
              host_default hostc_default)) in
  exists r;
  assert (Hrun : @_lz4framed_create_compression_context RleCodec.lib
                   RleContexts.lib host_default hostc_default
                 = (r, inr (PyCapsule (cctx_pointer sample_cctx))))
    by reflexivity;
  destruct (proj1 (@create_context_gives_fresh_capsule RleCodec.lib RleContexts.lib
                     host_default hostc_default) _ _ Hrun)
    as (ctx & _ & _ & Hvalid & _);
  split; [exact Hrun | exact Hvalid].
Defined.

Lemma create_context_never_leaks_witness :
  (exists t e,
     @_lz4framed_create_decompression_context RleCodec.lib RleContexts.lib
         host_default hostc_no_capsule = (t, inl e) /\
     held t = nothing_held) /\
  (exists t c,
     @_lz4framed_create_decompression_context RleCodec.lib RleContexts.lib
         host_default hostc_default = (t, inr c) /\
     held (t ++ @capsule_dealloc RleCodec.lib c) = nothing_held).
Proof.
  split.
  - let r := eval vm_compute in
        (@_lz4framed_create_decompression_context RleCodec.lib RleContexts.lib
           host_default hostc_no_capsule) in
    match r with
    | (?t, inl ?e) =>
        exists t, e;
        assert (Hrun : @_lz4framed_create_decompression_context RleCodec.lib
                         RleContexts.lib host_default hostc_no_capsule
                       = (t, inl e)) by reflexivity;
        split; [exact Hrun |];
        exact (proj2 (@create_context_never_leaks RleCodec.lib RleContexts.lib
                        host_default hostc_no_capsule) t (inl e) Hrun)
    end.
  - let r := eval vm_compute in
        (fst (@_lz4framed_create_decompression_context RleCodec.lib RleContexts.lib
                host_default hostc_default)) in
    exists r, (PyCapsule (dctx_pointer fresh_dctx));
    assert (Hrun : @_lz4framed_create_decompression_context RleCodec.lib
                     RleContexts.lib host_default hostc_default
                   = (r, inr (PyCapsule (dctx_pointer fresh_dctx))))
      by reflexivity;
    split; [exact Hrun |];
    exact (proj2 (proj2 (@create_context_never_leaks RleCodec.lib RleContexts.lib
                           host_default hostc_default) r
                    (inr (PyCapsule (dctx_pointer fresh_dctx))) Hrun)).
Defined.


Lemma streaming_contexts_declare_no_length_witness :
  exists cctx,
    fst (@_lz4framed_compress_update RleCodec.lib host_default
           (fst (@_lz4framed_compress_begin RleCodec.lib host_default
                   (PyCapsule (cctx_pointer sample_cctx))
                   int_5 int_0 int_0 int_1 int_12 int_0))
           (bytes_view hello_world))
      = PyCapsule (cctx_pointer cctx) /\
    contentSize (frameInfo (prefs cctx)) = 0.
Proof.
  destruct (@streaming_contexts_declare_no_length RleCodec.lib RleContexts.lib
              host_default hostc_default
              (fst (@_lz4framed_compress_update RleCodec.lib host_default
                      (fst (@_lz4framed_compress_begin RleCodec.lib host_default
                              (PyCapsule (cctx_pointer sample_cctx))
                              int_5 int_0 int_0 int_1 int_12 int_0))
                      (bytes_view hello_world))))
    as (cctx & Hc & Hsize & _).
  - apply reachable_update. apply reachable_begin.
    eapply reachable_created. reflexivity.
  - exists cctx. split; [exact Hc | exact Hsize].
Defined.

Lemma streaming_compression_session_witness :
  exists c1 c2 c3 t1 t2 t3 header body tail,
    @_lz4framed_compress_begin RleCodec.lib host_default
        (PyCapsule (cctx_pointer sample_cctx)) int_0 int_1 int_0 int_1 int_0 int_0
      = (c1, (t1, inr (bytes_of header))) /\
    @_lz4framed_compress_update RleCodec.lib host_default c1 (bytes_view hello_world)
      = (c2, (t2, inr (bytes_of body))) /\
    @_lz4framed_compress_end RleCodec.lib RleContexts.lib host_default c2
      = (c3, (t3, inr (bytes_of tail))) /\
    zlength (header ++ body ++ tail) = 32.
Proof.
  pose (p := compress_begin_prefs prefs_defaults int_0 int_1 int_0 int_1 int_0 int_0).
  destruct (@streaming_compression_session RleCodec.lib RleContexts.lib host_default
              sample_cctx int_0 int_1 int_0 int_1 int_0 int_0
              x68 (bytes_of_string "ello world")
              {| RleCodec.c_prefs := p |} {| RleCodec.c_prefs := p |}
              {| RleCodec.c_prefs := p |}
              (RleCodec.encode_header p) (RleCodec.encode_data p hello_world)
              (RleCodec.le_bytes 4 0) 23 12)
    as (c1 & c2 & t1 & t2 & t3 & H1 & H2 & H3).
  - reflexivity.
  - vm_compute. discriminate.
  - reflexivity.
  - reflexivity.
  - reflexivity.
  - reflexivity.
  - reflexivity.
  - vm_compute. split; discriminate.
  - vm_compute. split; discriminate.
  - vm_compute. split; discriminate.
  - intros n Hn. change (Z.max LZ4F_HEADER_SIZE_MAX (Z.max 23 12)) with 23 in Hn.
    apply Z.leb_le. unfold PyMem_available, host_default. lia.
  - eexists c1, c2, _, t1, t2, t3, _, _, _.
    split; [exact H1 |]. split; [exact H2 |]. split; [exact H3 |]. reflexivity.
Defined.

Lemma get_frame_info_dictionary_witness :
  exists c dict,
    @_lz4framed_get_frame_info RleCodec.lib
        (PyCapsule (dctx_pointer header_read_dctx))
      = (c, ([Ev_getFrameInfo 0], inr dict)) /\
    PyDict_GetItemString dict "length" = Some (Item_long 11) /\
    PyDict_GetItemString dict "input_hint" = Some (Item_long 4).
Proof.
  let r := eval vm_compute in
      (RleCodec.getFrameInfo (dctx_ctx header_read_dctx) [] 0) in
  match r with
  | (?ctx', LZ4F_ok (?fi, ?n, ?hint)) =>
      destruct (proj1 (@get_frame_info_dictionary RleCodec.lib header_read_dctx)
                  ctx' fi n hint)
        as (dict & Hrun & _ & Hhint & Hlength & _);
      [reflexivity |];
      eexists _, dict; split; [exact Hrun |]; split; [exact Hlength | exact Hhint]
  end.
Defined.

Lemma module_exports_block_size_ids_witness :
  exists module,
    @PyInit__lz4framed RleCodec.lib RleContexts.lib hostc_default = Some module /\
    PyDict_GetItemString module "LZ4F_COMPRESSION_MAX" = Some (Attr_int 12) /\
    NoDup (map fst module).
Proof.
  assert (Hrun : @PyInit__lz4framed RleCodec.lib RleContexts.lib hostc_default
                 = Some (@module_additions RleCodec.lib RleContexts.lib))
    by reflexivity.
  destruct (@module_exports_block_size_ids RleCodec.lib RleContexts.lib hostc_default
              _ Hrun) as (_ & Hmax & _ & Hnodup).
  exists (@module_additions RleCodec.lib RleContexts.lib).
  split; [exact Hrun |]. split; [exact Hmax | exact Hnodup].
Defined.
